(** * rexplorer: the search orchestration engine

    A shallow embedding of the provider-agnostic core of rexplorer
    ([BaseRepoSearcher.Search] and [BaseRepoSearcher.fetchWithRetries]) and of
    the [buildSearchURL] operation of the five provider adapters, with the
    properties of the specification stated and settled on it; then the
    adapters' [mapRepoToSummary], [parseSearchResponse] and
    [buildSearchRequest] and the [writeJSONOutput] of the main program, with
    further properties of the code, alone and put together.

    Go's [int] and [time.Duration] are 64-bit: they are integers of [Z] with
    the wrap-around of the arithmetic written out where the code computes
    ([delay *= 2]).  The network, the adapters' I/O and the response bodies
    live in an abstract world [W] that every primitive operation threads;
    the monotonic clock is kept next to it and is advanced by [time.Sleep].
    Every run also produces the list of the events it went through (which
    primitive was called, with what outcome): the properties are statements
    on these traces and on the returned pair.  The [log.Printf] lines of the
    source have no part in the control flow and are left out. *)

From Stdlib Require Import ZArith List String Ascii Bool Lia DecimalString.
Import ListNotations.

Open Scope string_scope.
Open Scope Z_scope.

(** ** Go scalars *)

(** Two's complement wrap-around of a 64-bit signed integer. *)
Definition wrap64 (z : Z) : Z := (z + 2 ^ 63) mod 2 ^ 64 - 2 ^ 63.

Definition maxInt64 : Z := 2 ^ 63 - 1.
Definition minInt64 : Z := - 2 ^ 63.

(** [time.Duration] counts nanoseconds. *)
Definition Duration := Z.
Definition Millisecond : Duration := 1000000.
Definition Second : Duration := 1000000000.

(** [fmt.Sprintf("%d", z)]. *)
Definition itoa (z : Z) : string := NilZero.string_of_int (Z.to_int z).

(** ** Errors

    [errors.New] and the errors of the libraries are plain messages;
    [fmt.Errorf] with a final [%w] keeps the wrapped error next to the
    formatted message. *)

Inductive error : Type :=
| errorString (s : string)
| wrapError (msg : string) (err : error).

Definition Error (e : error) : string :=
  match e with
  | errorString s => s
  | wrapError msg _ => msg
  end.

Definition Unwrap (e : error) : option error :=
  match e with
  | errorString _ => None
  | wrapError _ err => Some err
  end.

(** [fmt.Errorf(prefix + "%w", err)]; a nil [err] is printed as a bad verb
    and nothing is wrapped. *)
Definition Errorf_w (prefix : string) (err : option error) : error :=
  match err with
  | Some e => wrapError (prefix ++ Error e) e
  | None => errorString (prefix ++ "%!w(<nil>)")
  end.

(** ** Data model *)

Record RepositorySummary : Type := {
  Name : string;
  FullName : string;
  Description : string;
  URL : string;
  Stars : Z;
  Forks : Z;
  Language : string;
  CreatedAt : string;
  UpdatedAt : string;
  IsPrivate : bool;
  IsFork : bool;
  IsArchived : bool;
  Topics : list string;
  License : string;
  OpenIssuesCount : Z
}.

Record SearchResult : Type := {
  Source : string;
  Query : string;
  TotalCount : Z;
  Items : list RepositorySummary
}.

(** A [context.Context] as [main] makes it: a deadline on the clock, or
    none.  [ctxDone ctx t] says that the context is cancelled at instant [t]. *)
Record Context : Type := { Deadline : option Z }.


(** ** The world, the events and the monad of runs *)

Section Orchestrator.

(** [W]: the state of everything outside the core; [Request] stands for
    [*http.Request] and [Body] for a non-nil [io.ReadCloser]. *)
Context {W Request Body : Type}.

Record Response : Type := {
  StatusCode : Z;
  RespBody : Body
}.

(** The three primitive operations an adapter provides. *)
Record RepoSearcher : Type := {
  buildSearchURL : string -> Z -> Z -> W -> (string * option error) * W;
  buildSearchRequest : Context -> string -> W -> (Request * option error) * W;
  parseSearchResponse :
    Body -> W -> (list RepositorySummary * Z * bool * option error) * W
}.

(** [http.Client]: [Do] gives a response or a transport error, never both. *)
Record Client : Type := {
  Do : Request -> W -> (Response + error) * W
}.

(** What the platform gives: the client of a given timeout, and the two
    operations of a body. *)
Record Platform : Type := {
  http_Client : Duration -> Client;
  io_ReadAll : Body -> W -> string * W;
  body_Close : Body -> W -> W
}.

Record BaseRepoSearcher : Type := {
  implementation : RepoSearcher;
  HTTPClient : Client;
  Token : string;
  BaseSource : string;
  BaseURL : string;
  MaxRetries : Z;
  RetryDelay : Duration
}.

Definition NewBaseRepoSearcher (os : Platform) (impl : RepoSearcher)
    (token : string) (client : option Client) : BaseRepoSearcher :=
  let client :=
    match client with
    | None => http_Client os (30 * Second)
    | Some c => c
    end in
  {| implementation := impl;
     HTTPClient := client;
     Token := token;
     BaseSource := "";
     BaseURL := "";
     MaxRetries := 3;
     RetryDelay := 1 * Second |}.

(** Events of one call of [fetchWithRetries]. [EvSleep t d t'] is a
    [time.Sleep(d)] entered at instant [t] and left at [t']. *)
Inductive FetchEvent : Type :=
| EvBuildRequest (url : string) (err : option error)
| EvDo (i : Z) (r : Response + error)
| EvReadAll (b : Body) (text : string)
| EvClose (b : Body)
| EvObserved (lastErr : error)
| EvSleep (t : Z) (d : Duration) (t' : Z).

(** Events of one call of [Search]; every one carries its page. *)
Inductive Event : Type :=
| EvBuildURL (page : Z) (url : string) (err : option error)
| EvFetch (page : Z) (url : string)
| EvAttempt (page : Z) (e : FetchEvent)
| EvFetched (page : Z) (body : option Body) (err : option error)
| EvParse (page : Z) (repos : list RepositorySummary) (tc : Z)
    (hasMore : bool) (err : option error)
| EvBodyClose (page : Z) (b : Body)
| EvPause (page : Z) (t : Z) (d : Duration) (t' : Z).

Record State : Type := { world : W; clock : Z }.

(** A run: from a state to a value, the next state and the events. *)
Definition M (E A : Type) : Type := State -> A * State * list E.

Definition ret {E A} (a : A) : M E A := fun st => (a, st, []).

Definition bind {E A B} (m : M E A) (k : A -> M E B) : M E B :=
  fun st =>
    let '(a, st1, t1) := m st in
    let '(b, st2, t2) := k a st1 in
    (b, st2, (t1 ++ t2)%list).

Definition emit {E} (e : E) : M E unit := fun st => (tt, st, [e]).

(** A primitive operation of the world. *)
Definition call {E A} (f : W -> A * W) : M E A :=
  fun st =>
    let '(a, w) := f (world st) in
    (a, {| world := w; clock := clock st |}, []).

(** [time.Sleep(d)]: returns at once for [d <= 0], after [d] otherwise;
    no context is involved. *)
Definition time_Sleep {E} (ev : Z -> Duration -> Z -> E) (d : Duration)
    : M E unit :=
  fun st =>
    let t' := clock st + Z.max 0 d in
    (tt, {| world := world st; clock := t' |}, [ev (clock st) d t']).

(** Events of a callee, tagged by the caller. *)
Definition tagged {E F A} (tag : E -> F) (m : M E A) : M F A :=
  fun st => let '(a, st', tr) := m st in (a, st', map tag tr).

End Orchestrator.

Arguments Response : clear implicits.
Arguments RepoSearcher : clear implicits.
Arguments Client : clear implicits.
Arguments Platform : clear implicits.
Arguments BaseRepoSearcher : clear implicits.
Arguments FetchEvent : clear implicits.
Arguments Event : clear implicits.
Arguments State : clear implicits.
Arguments M : clear implicits.

Declare Scope run_scope.
Delimit Scope run_scope with run.
Notation "x <- m ;; k" := (bind m (fun x => k))
  (at level 61, m at next level, right associativity) : run_scope.
Notation "' pat <- m ;; k" := (bind m (fun x => match x with pat => k end))
  (at level 61, pat pattern, m at next level, right associativity) : run_scope.
Notation "m ;;; k" := (bind m (fun _ => k))
  (at level 61, right associativity) : run_scope.
Open Scope run_scope.

(** ** The Retrying Fetcher and the Search Orchestrator *)

Section Core.

Context {W Request Body : Type}.
Variable os : Platform W Request Body.
Variable s : BaseRepoSearcher W Request Body.

(** A primitive operation, with the event that records its outcome. *)
Definition prim {E A} (f : W -> A * W) (ev : A -> E) : M W E A :=
  a <- call f ;; emit (ev a) ;;; ret a.

Definition closeBody {E} (b : Body) (ev : E) : M W E unit :=
  call (fun w => (tt, body_Close os b w)) ;;; emit ev.

(** [fmt.Errorf("api request failed with status %d: %s", code, body)]. *)
Definition statusError (code : Z) (body : string) : error :=
  errorString ("api request failed with status " ++ itoa code ++ ": " ++ body).

Definition exhaustedError (lastErr : option error) : error :=
  Errorf_w ("failed to fetch URL after " ++ itoa (MaxRetries s) ++ " attempts: ")
           lastErr.

(** The loop of [fetchWithRetries]: [n] iterations are left, [i] is the
    loop variable, [delay] and [lastErr] the two locals. *)
Fixpoint fetchLoop (ctx : Context) (url : string) (n : nat) (i : Z)
    (delay : Duration) (lastErr : option error)
    : M W (FetchEvent Body) (option Body * option error) :=
  match n with
  | O => ret (None, Some (exhaustedError lastErr))
  | S n' =>
    '(req, err) <- prim (buildSearchRequest (implementation s) ctx url)
                        (fun r => EvBuildRequest url (snd r)) ;;
    match err with
    | Some e => ret (None, Some (Errorf_w "failed to create request: " (Some e)))
    | None =>
      r <- prim (Do (HTTPClient s) req) (EvDo i) ;;
      match r with
      | inr e =>
        let lastErr := Errorf_w "request failed: " (Some e) in
        emit (EvObserved lastErr) ;;;
        time_Sleep EvSleep delay ;;;
        fetchLoop ctx url n' (i + 1) (wrap64 (delay * 2)) (Some lastErr)
      | inl resp =>
        if StatusCode resp =? 200 then ret (Some (RespBody resp), None)
        else
          body <- prim (io_ReadAll os (RespBody resp)) (EvReadAll (RespBody resp)) ;;
          closeBody (RespBody resp) (EvClose (RespBody resp)) ;;;
          let lastErr := statusError (StatusCode resp) body in
          emit (EvObserved lastErr) ;;;
          if (StatusCode resp =? 401) || (StatusCode resp =? 403)
             || (StatusCode resp =? 404)
          then ret (None, Some lastErr)
          else
            time_Sleep EvSleep delay ;;;
            fetchLoop ctx url n' (i + 1) (wrap64 (delay * 2)) (Some lastErr)
      end
    end
  end.

Definition fetchWithRetries (ctx : Context) (url : string)
    : M W (FetchEvent Body) (option Body * option error) :=
  fetchLoop ctx url (Z.to_nat (MaxRetries s)) 0 (RetryDelay s) None.

Definition perPage : Z := 50.

(** The [return &SearchResult{...}, nil] after the loop. *)
Definition found (query : string) (allRepos : list RepositorySummary)
    (totalCount : Z) : option SearchResult * option error :=
  (Some {| Source := BaseSource s;
           Query := query;
           TotalCount := totalCount;
           Items := allRepos |}, None).

(** The page loop of [Search]: [page] runs from 1 to [maxPages] and [n]
    iterations are left ([page] never passes [maxPages + 1], so that its
    increment does not wrap for [maxPages] below the largest [int]). *)
Fixpoint searchLoop (ctx : Context) (query : string) (maxPages : Z) (n : nat)
    (page : Z) (allRepos : list RepositorySummary) (totalCount : Z)
    : M W (Event Body) (option SearchResult * option error) :=
  match n with
  | O => ret (found query allRepos totalCount)
  | S n' =>
    '(url, err) <- prim (buildSearchURL (implementation s) query page perPage)
                        (fun r => EvBuildURL page (fst r) (snd r)) ;;
    match err with
    | Some e =>
      ret (None, Some (Errorf_w ("failed to build URL for page " ++ itoa page ++ ": ")
                                (Some e)))
    | None =>
      emit (EvFetch page url) ;;;
      '(body, err) <- tagged (EvAttempt page) (fetchWithRetries ctx url) ;;
      emit (EvFetched page body err) ;;;
      match err with
      | Some e =>
        if page =? 1
        then ret (None, Some (Errorf_w "failed to fetch first page: " (Some e)))
        else ret (found query allRepos totalCount)
      | None =>
        match body with
        | None => searchLoop ctx query maxPages n' (page + 1) allRepos totalCount
        | Some b =>
          '(repos, tc, hasMore, err) <-
             prim (parseSearchResponse (implementation s) b)
                  (fun r => match r with
                            | (repos, tc, hasMore, err) =>
                              EvParse page repos tc hasMore err
                            end) ;;
          match err with
          | Some e =>
            closeBody b (EvBodyClose page b) ;;;
            ret (found query allRepos totalCount)
          | None =>
            closeBody b (EvBodyClose page b) ;;;
            let totalCount := if page =? 1 then tc else totalCount in
            let allRepos := (allRepos ++ repos)%list in
            if negb hasMore || (Z.of_nat (List.length repos) =? 0)
            then ret (found query allRepos totalCount)
            else
              (if page <? maxPages
               then time_Sleep (EvPause page) (100 * Millisecond)
               else ret tt) ;;;
              searchLoop ctx query maxPages n' (page + 1) allRepos totalCount
          end
        end
      end
    end
  end.

Definition Search (ctx : Context) (query : string) (maxPages : Z)
    : M W (Event Body) (option SearchResult * option error) :=
  if (query =? "")%string
  then ret (None, Some (errorString "query cannot be empty"))
  else if maxPages <=? 0
  then ret (None, Some (errorString "maxPages must be greater than 0"))
  else searchLoop ctx query maxPages (Z.to_nat maxPages) 1 [] 0.

End Core.

(** ** A scripted world

    A concrete world to run the core on: the network is the list of the
    outcomes the next HTTP exchanges will have, a request is its URL, and a
    body carries what the provider sent in decoded form. *)

Module Scripted.

Record Payload : Type := {
  text : string;
  records : list RepositorySummary;
  total : Z;
  more : bool;
  wellFormed : bool
}.

Definition Net : Type := list (Response Payload + error).

Definition repo (name : string) : RepositorySummary :=
  {| Name := name; FullName := "acme/" ++ name; Description := "";
     URL := "https://example.test/acme/" ++ name; Stars := 0; Forks := 0;
     Language := "Unknown"; CreatedAt := ""; UpdatedAt := "";
     IsPrivate := false; IsFork := false; IsArchived := false;
     Topics := []; License := "None"; OpenIssuesCount := 0 |}.

(** [n] records named after [tag]. *)
Definition repos (tag : string) (n : nat) : list RepositorySummary :=
  map (fun k => repo (tag ++ "-" ++ itoa (Z.of_nat k))) (seq 1 n).

Definition page (status : Z) (rs : list RepositorySummary) (tc : Z)
    (hasMore : bool) : Response Payload + error :=
  inl {| StatusCode := status;
         RespBody := {| text := "{}"; records := rs; total := tc;
                        more := hasMore; wellFormed := true |} |}.

Definition garbled (status : Z) : Response Payload + error :=
  inl {| StatusCode := status;
         RespBody := {| text := "<html>"; records := []; total := 0;
                        more := false; wellFormed := false |} |}.

Definition broken (msg : string) : Response Payload + error :=
  inr (errorString msg).

(** The adapter: URLs for every page but those of [badPages]; a body that
    does not decode gives [nil, 0, false, err], as the five adapters do. *)
Definition adapter (badPages : list Z) : RepoSearcher Net string Payload :=
  {| buildSearchURL := fun query page perPage w =>
       if existsb (Z.eqb page) badPages
       then (("", Some (errorString "failed to parse base URL")), w)
       else (("https://example.test/search?q=" ++ query ++ "&page=" ++ itoa page
              ++ "&per_page=" ++ itoa perPage, None), w);
     buildSearchRequest := fun _ url w => ((url, None), w);
     parseSearchResponse := fun b w =>
       if wellFormed b
       then ((records b, total b, more b, None), w)
       else (([], 0, false, Some (errorString "failed to unmarshal response")), w)
  |}.

Definition client : Client Net string Payload :=
  {| Do := fun _ w =>
       match w with
       | [] => (inr (errorString "connection refused"), [])
       | r :: w' => (r, w')
       end |}.

Definition os : Platform Net string Payload :=
  {| http_Client := fun _ => client;
     io_ReadAll := fun b w => (text b, w);
     body_Close := fun _ w => w |}.

Definition searcher (badPages : list Z) : BaseRepoSearcher Net string Payload :=
  NewBaseRepoSearcher os (adapter badPages) "token" None.

Definition start (net : Net) : State Net := {| world := net; clock := 0 |}.

Definition background : Context := {| Deadline := None |}.

(** Networks: two pages and the end of the results; a first page and then
    a server that answers 500; a provider that answers 204; one that answers
    403; a first page that does not decode; no network at all. *)
Definition twoPages : Net :=
  [page 200 (repos "a" 2) 60 true; page 200 (repos "b" 1) 61 false].
Definition laterPageDown : Net :=
  [page 200 (repos "a" 2) 60 true; page 500 [] 0 false; page 500 [] 0 false;
   page 500 [] 0 false].
Definition noContent : Net := [page 204 (repos "a" 2) 60 true].
Definition forbidden : Net := [page 403 [] 0 false; page 200 (repos "a" 2) 60 true].
Definition garbledFirst : Net := [garbled 200].
Definition unreachable : Net := [].

Definition run (badPages : list Z) (ctx : Context) (maxPages : Z) (net : Net)
    : (option SearchResult * option error) * State Net * list (Event Payload) :=
  Search os (searcher badPages) ctx "raft" maxPages (start net).

Definition fetch (ctx : Context) (net : Net)
    : (option Payload * option error) * State Net * list (FetchEvent Payload) :=
  fetchWithRetries os (searcher []) ctx "https://example.test/search" (start net).

Definition serverError : error :=
  exhaustedError (searcher []) (Some (statusError 500 "{}")).

Definition unmarshalError : error := errorString "failed to unmarshal response".

Definition urlError : error := errorString "failed to parse base URL".

End Scripted.

(** ** The adapters' [buildSearchURL]

    [net/url] as far as the adapters use it.  A URL is kept as the text
    before its query (scheme, authority and path, which [String] prints back
    as they were given for the plain base URLs the constructors set), its raw
    query and its fragment.  Of the rejections of [url.Parse] the one of
    control characters is modelled. *)

Module NetURL.

Record URL : Type := { Head : string; RawQuery : string; Fragment : string }.

(** [url.Values]: keys with their values; [Encode] sorts the keys. *)
Definition Values : Type := list (string * list string).

(** [strings.Cut(s, string(c))]. *)
Fixpoint cut (c : ascii) (s : string) : string * string * bool :=
  match s with
  | EmptyString => (EmptyString, EmptyString, false)
  | String a s' =>
    if Ascii.eqb a c then (EmptyString, s', true)
    else let '(before, after, found) := cut c s' in (String a before, after, found)
  end.

Definition isCTL (a : ascii) : bool :=
  let n := N_of_ascii a in ((n <? 32) || (n =? 127))%N.

Fixpoint stringContainsCTLByte (s : string) : bool :=
  match s with
  | EmptyString => false
  | String a s' => isCTL a || stringContainsCTLByte s'
  end.

Definition Parse (rawURL : string) : URL * option error :=
  let '(u, frag, _) := cut "#" rawURL in
  if stringContainsCTLByte u
  then ({| Head := ""; RawQuery := ""; Fragment := "" |},
        Some (wrapError ("parse " ++ rawURL ++ ": net/url: invalid control character in URL")
                        (errorString "net/url: invalid control character in URL")))
  else
    let '(rest, query, _) := cut "?" u in
    ({| Head := rest; RawQuery := query; Fragment := frag |}, None).

Definition between (lo hi : N) (a : ascii) : bool :=
  let n := N_of_ascii a in ((lo <=? n) && (n <=? hi))%N.

(** [shouldEscape(c, encodeQueryComponent)]: letters, digits and [-_.~] stay. *)
Definition shouldEscape (a : ascii) : bool :=
  negb (between 97 122 a || between 65 90 a || between 48 57 a
        || Ascii.eqb a "-" || Ascii.eqb a "_" || Ascii.eqb a "."
        || Ascii.eqb a "~").

Definition upperhex (n : N) : ascii :=
  if (n <? 10)%N then ascii_of_N (48 + n) else ascii_of_N (55 + n).

Fixpoint QueryEscape (s : string) : string :=
  match s with
  | EmptyString => EmptyString
  | String a s' =>
    if Ascii.eqb a " " then String "+" (QueryEscape s')
    else if shouldEscape a
    then String "%" (String (upperhex (N_of_ascii a / 16))
                    (String (upperhex (N_of_ascii a mod 16)) (QueryEscape s')))
    else String a (QueryEscape s')
  end.

Definition unhex (a : ascii) : option N :=
  let n := N_of_ascii a in
  if between 48 57 a then Some (n - 48)%N
  else if between 97 102 a then Some (n - 87)%N
  else if between 65 70 a then Some (n - 55)%N
  else None.

(** [QueryUnescape]: [None] for a malformed escape. *)
Fixpoint QueryUnescape (s : string) : option string :=
  match s with
  | EmptyString => Some EmptyString
  | String a s' =>
    if Ascii.eqb a "%" then
      match s' with
      | String h (String l s'') =>
        match unhex h, unhex l, QueryUnescape s'' with
        | Some x, Some y, Some r => Some (String (ascii_of_N (16 * x + y)) r)
        | _, _, _ => None
        end
      | _ => None
      end
    else
      match QueryUnescape s' with
      | Some r => Some (String (if Ascii.eqb a "+" then " "%char else a) r)
      | None => None
      end
  end.

Fixpoint contains (c : ascii) (s : string) : bool :=
  match s with
  | EmptyString => false
  | String a s' => Ascii.eqb a c || contains c s'
  end.

(** The pieces of [s] between the occurrences of [c]. *)
Fixpoint split (c : ascii) (s : string) : list string :=
  match s with
  | EmptyString => [EmptyString]
  | String a s' =>
    if Ascii.eqb a c then EmptyString :: split c s'
    else match split c s' with
         | [] => [String a EmptyString]
         | p :: ps => String a p :: ps
         end
  end.

Fixpoint Add (key value : string) (v : Values) : Values :=
  match v with
  | [] => [(key, [value])]
  | (k, vs) :: v' =>
    if (k =? key)%string then (k, (vs ++ [value])%list) :: v'
    else (k, vs) :: Add key value v'
  end.

Fixpoint Set_ (key value : string) (v : Values) : Values :=
  match v with
  | [] => [(key, [value])]
  | (k, vs) :: v' =>
    if (k =? key)%string then (k, [value]) :: v'
    else (k, vs) :: Set_ key value v'
  end.

(** [parseQuery]: the pairs that do not decode are left out ([Query]
    drops the error). *)
Definition parseQuery (query : string) : Values :=
  fold_left
    (fun m piece =>
       if contains ";" piece then m
       else if (piece =? "")%string then m
       else
         let '(key, value, _) := cut "=" piece in
         match QueryUnescape key, QueryUnescape value with
         | Some k, Some v => Add k v m
         | _, _ => m
         end)
    (split "&" query) [].

Definition Query (u : URL) : Values := parseQuery (RawQuery u).

Fixpoint insertKey (e : string * list string) (v : Values) : Values :=
  match v with
  | [] => [e]
  | e' :: v' =>
    if String.leb (fst e) (fst e') then e :: e' :: v' else e' :: insertKey e v'
  end.

Definition sortKeys (v : Values) : Values := fold_right insertKey [] v.

Definition join (sep : string) (l : list string) : string :=
  match l with
  | [] => ""
  | x :: xs => fold_left (fun acc y => acc ++ sep ++ y) xs x
  end.

Definition Encode (v : Values) : string :=
  join "&"
    (flat_map (fun e => map (fun x => QueryEscape (fst e) ++ "=" ++ QueryEscape x)
                            (snd e))
              (sortKeys v)).

Definition setRawQuery (u : URL) (q : string) : URL :=
  {| Head := Head u; RawQuery := q; Fragment := Fragment u |}.

Definition String_ (u : URL) : string :=
  Head u
  ++ (if (RawQuery u =? "")%string then "" else "?" ++ RawQuery u)
  ++ (if (Fragment u =? "")%string then "" else "#" ++ Fragment u).

End NetURL.

Module Adapters.

Import NetURL.

Inductive Provider : Type := GitHub | GitLab | Bitbucket | GitCode | Gitee.

(** The fields of an adapter that [buildSearchURL] reads: the base URL
    ([g.BaseURL], the adapter's own field for GitHub and Gitee, the embedded
    one for the others) and the token of the embedded base searcher. *)
Record Searcher : Type := {
  provider : Provider;
  baseURL : string;
  token : string
}.

Definition NewGitHubSearcher (tok : string) : Searcher :=
  {| provider := GitHub; baseURL := "https://api.github.com"; token := tok |}.
Definition NewGitLabSearcher (tok : string) : Searcher :=
  {| provider := GitLab; baseURL := "https://gitlab.com/api/v4"; token := tok |}.
Definition NewBitbucketSearcher (tok : string) : Searcher :=
  {| provider := Bitbucket; baseURL := "https://api.bitbucket.org/2.0"; token := tok |}.
Definition NewGitCodeSearcher (tok : string) : Searcher :=
  {| provider := GitCode; baseURL := "https://api.gitcode.com/api/v5"; token := tok |}.
Definition NewGiteeSearcher (tok : string) : Searcher :=
  {| provider := Gitee; baseURL := "https://gitee.com/api/v5"; token := tok |}.

(** The environment of the process: [os.Getenv] of a name, empty when
    the variable is not set. *)
Definition Environ : Type := string -> string.

Definition parseError (err : error) : string * option error :=
  ("", Some (Errorf_w "failed to parse base URL: " (Some err))).

Definition quote : string := String (ascii_of_N 34) EmptyString.

Definition GitHub_buildSearchURL (g : Searcher) (query : string)
    (page perPage : Z) : string * option error :=
  let '(u, err) := Parse (baseURL g ++ "/search/repositories") in
  match err with
  | Some e => parseError e
  | None =>
    let q := Query u in
    let q := Set_ "q" query q in
    let q := Set_ "page" (itoa page) q in
    let q := Set_ "per_page" (itoa perPage) q in
    (String_ (setRawQuery u (Encode q)), None)
  end.

Definition GitLab_buildSearchURL (g : Searcher) (query : string)
    (page perPage : Z) : string * option error :=
  let '(u, err) := Parse (baseURL g ++ "/projects") in
  match err with
  | Some e => parseError e
  | None =>
    let q := Query u in
    let q := Set_ "search" query q in
    let q := Set_ "page" (itoa page) q in
    let q := Set_ "per_page" (itoa perPage) q in
    (String_ (setRawQuery u (Encode q)), None)
  end.

Definition Bitbucket_buildSearchURL (b : Searcher) (query : string)
    (page perPage : Z) : string * option error :=
  let '(u, err) := Parse (baseURL b ++ "/repositories") in
  match err with
  | Some e => parseError e
  | None =>
    let q := Query u in
    let q := Set_ "q" ("name~" ++ quote ++ query ++ quote) q in
    let q := Set_ "page" (itoa page) q in
    let q := Set_ "pagelen" (itoa perPage) q in
    (String_ (setRawQuery u (Encode q)), None)
  end.

Definition GitCode_buildSearchURL (env : Environ) (g : Searcher)
    (query : string) (page perPage : Z) : string * option error :=
  let '(u, err) := Parse (baseURL g ++ "/search/repositories") in
  match err with
  | Some e => parseError e
  | None =>
    let q := Query u in
    let q := Set_ "q" query q in
    let q := Set_ "page" (itoa page) q in
    let q := Set_ "per_page" (itoa perPage) q in
    let lang := env "GITCODE_LANG" in
    let q := if negb (lang =? "")%string then Set_ "language" lang q else q in
    (String_ (setRawQuery u (Encode q)), None)
  end.

Definition Gitee_buildSearchURL (g : Searcher) (query : string)
    (page perPage : Z) : string * option error :=
  let '(u, err) := Parse (baseURL g ++ "/search/repositories") in
  match err with
  | Some e => parseError e
  | None =>
    let q := Query u in
    let q := Set_ "q" query q in
    let q := Set_ "page" (itoa page) q in
    let q := Set_ "per_page" (itoa perPage) q in
    let q := if negb (token g =? "")%string
             then Set_ "access_token" (token g) q else q in
    (String_ (setRawQuery u (Encode q)), None)
  end.

(** The call through the [RepoSearcher] interface, in a process whose
    environment is [env]. *)
Definition buildSearchURL (env : Environ) (g : Searcher) (query : string)
    (page perPage : Z) : string * option error :=
  match provider g with
  | GitHub => GitHub_buildSearchURL g query page perPage
  | GitLab => GitLab_buildSearchURL g query page perPage
  | Bitbucket => Bitbucket_buildSearchURL g query page perPage
  | GitCode => GitCode_buildSearchURL env g query page perPage
  | Gitee => Gitee_buildSearchURL g query page perPage
  end.

(** Three environments: nothing set; GITCODE_LANG set; GITCODE_LANG set the
    same and HOME too. *)
Definition noEnv : Environ := fun _ => "".
Definition goEnv : Environ :=
  fun name => if (name =? "GITCODE_LANG")%string then "Go" else "".
Definition goHomeEnv : Environ :=
  fun name =>
    if (name =? "GITCODE_LANG")%string then "Go"
    else if (name =? "HOME")%string then "/root" else "".

End Adapters.

(** ** Reading a run *)

Definition result {A S E} (run : A * S * list E) : A := fst (fst run).
Definition final {A S E} (run : A * S * list E) : S := snd (fst run).
Definition events {A S E} (run : A * S * list E) : list E := snd run.

(** The three classes of an HTTP outcome. *)
Inductive Class : Type := Success | Fatal | Retryable.

Section Traces.

Context {Body : Type}.

(** The class the code gives to the outcome of [HTTPClient.Do]. *)
Definition classify (r : Response Body + error) : Class :=
  match r with
  | inr _ => Retryable
  | inl resp =>
    if StatusCode resp =? 200 then Success
    else if (StatusCode resp =? 401) || (StatusCode resp =? 403)
            || (StatusCode resp =? 404)
    then Fatal
    else Retryable
  end.

(** The class the specification words give: every 2xx status is a success. *)
Definition classifySpec (r : Response Body + error) : Class :=
  match r with
  | inr _ => Retryable
  | inl resp =>
    if (200 <=? StatusCode resp) && (StatusCode resp <? 300) then Success
    else if (StatusCode resp =? 401) || (StatusCode resp =? 403)
            || (StatusCode resp =? 404)
    then Fatal
    else Retryable
  end.

(** The HTTP attempts of a fetch, the delays it slept, and the error it
    observed last ([lastErr], from [init]). *)
Fixpoint attempts (tr : list (FetchEvent Body)) : list (Z * (Response Body + error)) :=
  match tr with
  | [] => []
  | EvDo i r :: tr' => (i, r) :: attempts tr'
  | _ :: tr' => attempts tr'
  end.

Fixpoint sleeps (tr : list (FetchEvent Body)) : list Duration :=
  match tr with
  | [] => []
  | EvSleep _ d _ :: tr' => d :: sleeps tr'
  | _ :: tr' => sleeps tr'
  end.


(** No attempt comes after attempt [j]. *)
Definition lastAttempt (j : Z) (tr : list (FetchEvent Body)) : Prop :=
  forall j' r', In (j', r') (attempts tr) -> j' <= j.



Definition pageOf (e : Event Body) : Z :=
  match e with
  | EvBuildURL p _ _ | EvFetch p _ | EvAttempt p _ | EvFetched p _ _
  | EvParse p _ _ _ _ | EvBodyClose p _ | EvPause p _ _ _ => p
  end.

(** The pages a request was issued for. *)
Fixpoint requests (tr : list (Event Body)) : list Z :=
  match tr with
  | [] => []
  | EvFetch p _ :: tr' => p :: requests tr'
  | _ :: tr' => requests tr'
  end.

(** The records of the pages below [p] that were parsed, in order. *)
Fixpoint recordsBefore (p : Z) (tr : list (Event Body)) : list RepositorySummary :=
  match tr with
  | [] => []
  | EvParse q repos _ _ None :: tr' =>
    if q <? p then (repos ++ recordsBefore p tr')%list else recordsBefore p tr'
  | _ :: tr' => recordsBefore p tr'
  end.





(** The pages [p], [p + 1], ..., [k] of them. *)
Fixpoint pagesFrom (p : Z) (k : nat) : list Z :=
  match k with
  | O => []
  | S k' => p :: pagesFrom (p + 1) k'
  end.

End Traces.

(** ** The shape of the runs

    What a run of each loop can look like, as a relation between the locals
    at the loop head, the instants of entry and exit, the returned pair and
    the events.  Both loops are shown below to run within these shapes. *)

Section Shapes.

Context {W Request Body : Type}.
Variable s : BaseRepoSearcher W Request Body.

Definition isFatal (code : Z) : bool :=
  (code =? 401) || (code =? 403) || (code =? 404).

Inductive Attempts (url : string)
  : nat -> Z -> Duration -> option error -> option Body * option error ->
    Z -> Z -> list (FetchEvent Body) -> Prop :=
| A_exhausted i delay lastErr t :
    Attempts url 0 i delay lastErr (None, Some (exhaustedError s lastErr)) t t []
| A_noRequest n i delay lastErr e t :
    Attempts url (S n) i delay lastErr
      (None, Some (Errorf_w "failed to create request: " (Some e))) t t
      [EvBuildRequest url (Some e)]
| A_transport n i delay lastErr e res t t' tr :
    Attempts url n (i + 1) (wrap64 (delay * 2))
      (Some (Errorf_w "request failed: " (Some e))) res (t + Z.max 0 delay) t' tr ->
    Attempts url (S n) i delay lastErr res t t'
      (EvBuildRequest url None :: EvDo i (inr e)
       :: EvObserved (Errorf_w "request failed: " (Some e))
       :: EvSleep t delay (t + Z.max 0 delay) :: tr)
| A_ok n i delay lastErr resp t :
    StatusCode resp = 200 ->
    Attempts url (S n) i delay lastErr (Some (RespBody resp), None) t t
      [EvBuildRequest url None; EvDo i (inl resp)]
| A_fatal n i delay lastErr resp text t :
    StatusCode resp <> 200 ->
    isFatal (StatusCode resp) = true ->
    Attempts url (S n) i delay lastErr
      (None, Some (statusError (StatusCode resp) text)) t t
      [EvBuildRequest url None; EvDo i (inl resp);
       EvReadAll (RespBody resp) text; EvClose (RespBody resp);
       EvObserved (statusError (StatusCode resp) text)]
| A_status n i delay lastErr resp text res t t' tr :
    StatusCode resp <> 200 ->
    isFatal (StatusCode resp) = false ->
    Attempts url n (i + 1) (wrap64 (delay * 2))
      (Some (statusError (StatusCode resp) text)) res (t + Z.max 0 delay) t' tr ->
    Attempts url (S n) i delay lastErr res t t'
      (EvBuildRequest url None :: EvDo i (inl resp)
       :: EvReadAll (RespBody resp) text :: EvClose (RespBody resp)
       :: EvObserved (statusError (StatusCode resp) text)
       :: EvSleep t delay (t + Z.max 0 delay) :: tr).

(** One call of [fetchWithRetries]. *)
Definition Fetch (url : string) (res : option Body * option error)
    (t t' : Z) (tr : list (FetchEvent Body)) : Prop :=
  Attempts url (Z.to_nat (MaxRetries s)) 0 (RetryDelay s) None res t t' tr.

(** The events of a page up to the return of its fetch. *)
Definition fetched (page : Z) (url : string) (ftr : list (FetchEvent Body))
    (body : option Body) (err : option error) : list (Event Body) :=
  (EvBuildURL page url None :: EvFetch page url :: map (EvAttempt page) ftr
   ++ [EvFetched page body err])%list.

Inductive Pages (query : string) (maxPages : Z)
  : nat -> Z -> list RepositorySummary -> Z ->
    option SearchResult * option error -> Z -> Z -> list (Event Body) -> Prop :=
| P_done page allRepos totalCount t :
    Pages query maxPages 0 page allRepos totalCount
      (found s query allRepos totalCount) t t []
| P_noURL n page allRepos totalCount url e t :
    Pages query maxPages (S n) page allRepos totalCount
      (None, Some (Errorf_w ("failed to build URL for page " ++ itoa page ++ ": ")
                            (Some e))) t t
      [EvBuildURL page url (Some e)]
| P_noFetch n page allRepos totalCount url body e t t1 ftr :
    Fetch url (body, Some e) t t1 ftr ->
    Pages query maxPages (S n) page allRepos totalCount
      (if page =? 1
       then (None, Some (Errorf_w "failed to fetch first page: " (Some e)))
       else found s query allRepos totalCount) t t1
      (fetched page url ftr body (Some e))
| P_nilBody n page allRepos totalCount url res t t1 t' ftr tr :
    Fetch url (None, None) t t1 ftr ->
    Pages query maxPages n (page + 1) allRepos totalCount res t1 t' tr ->
    Pages query maxPages (S n) page allRepos totalCount res t t'
      (fetched page url ftr None None ++ tr)
| P_noParse n page allRepos totalCount url b repos tc hasMore e t t1 ftr :
    Fetch url (Some b, None) t t1 ftr ->
    Pages query maxPages (S n) page allRepos totalCount
      (found s query allRepos totalCount) t t1
      (fetched page url ftr (Some b) None
       ++ [EvParse page repos tc hasMore (Some e); EvBodyClose page b])
| P_last n page allRepos totalCount url b repos tc hasMore t t1 ftr :
    Fetch url (Some b, None) t t1 ftr ->
    hasMore = false \/ repos = [] ->
    Pages query maxPages (S n) page allRepos totalCount
      (found s query (allRepos ++ repos) (if page =? 1 then tc else totalCount))
      t t1
      (fetched page url ftr (Some b) None
       ++ [EvParse page repos tc hasMore None; EvBodyClose page b])
| P_next n page allRepos totalCount url b repos tc res t t1 t' ftr tr :
    Fetch url (Some b, None) t t1 ftr ->
    repos <> [] ->
    Pages query maxPages n (page + 1) (allRepos ++ repos)
      (if page =? 1 then tc else totalCount) res
      (if page <? maxPages then t1 + Z.max 0 (100 * Millisecond) else t1) t' tr ->
    Pages query maxPages (S n) page allRepos totalCount res t t'
      (fetched page url ftr (Some b) None
       ++ [EvParse page repos tc true None; EvBodyClose page b]
       ++ (if page <? maxPages
           then [EvPause page t1 (100 * Millisecond)
                         (t1 + Z.max 0 (100 * Millisecond))]
           else [])
       ++ tr).

End Shapes.

(** ** More readings of a run *)

Section Ledgers.

Context {Body : Type}.

Definition retryableb (r : Response Body + error) : bool :=
  match classify r with
  | Retryable => true
  | _ => false
  end.

(** The requests that were created, the bodies the fetcher drained and the
    bodies it closed. *)
Fixpoint created (tr : list (FetchEvent Body)) : nat :=
  match tr with
  | [] => 0
  | EvBuildRequest _ None :: tr' => S (created tr')
  | _ :: tr' => created tr'
  end.

Fixpoint drained (tr : list (FetchEvent Body)) : list Body :=
  match tr with
  | [] => []
  | EvReadAll b _ :: tr' => b :: drained tr'
  | _ :: tr' => drained tr'
  end.

Fixpoint closed (tr : list (FetchEvent Body)) : list Body :=
  match tr with
  | [] => []
  | EvClose b :: tr' => b :: closed tr'
  | _ :: tr' => closed tr'
  end.

(** The bodies of the answers whose status is not 200. *)
Fixpoint refused (l : list (Z * (Response Body + error))) : list Body :=
  match l with
  | [] => []
  | (_, inl resp) :: l' =>
    if StatusCode resp =? 200 then refused l' else RespBody resp :: refused l'
  | (_, inr _) :: l' => refused l'
  end.

(** The records of every page that was parsed, in order. *)
Fixpoint parsed (tr : list (Event Body)) : list RepositorySummary :=
  match tr with
  | [] => []
  | EvParse _ repos _ _ None :: tr' => (repos ++ parsed tr')%list
  | _ :: tr' => parsed tr'
  end.

(** The bodies the fetches handed to the search, and the bodies it closed. *)
Fixpoint handed (tr : list (Event Body)) : list (Z * Body) :=
  match tr with
  | [] => []
  | EvFetched p (Some b) _ :: tr' => (p, b) :: handed tr'
  | _ :: tr' => handed tr'
  end.

Fixpoint released (tr : list (Event Body)) : list (Z * Body) :=
  match tr with
  | [] => []
  | EvBodyClose p b :: tr' => (p, b) :: released tr'
  | _ :: tr' => released tr'
  end.

(** The pages after which the search paused. *)
Fixpoint pauses (tr : list (Event Body)) : list Z :=
  match tr with
  | [] => []
  | EvPause p _ _ _ :: tr' => p :: pauses tr'
  | _ :: tr' => pauses tr'
  end.

(** The pages that were parsed with records and with more to come. *)
Fixpoint continued (tr : list (Event Body)) : list Z :=
  match tr with
  | [] => []
  | EvParse p (_ :: _) _ true None :: tr' => p :: continued tr'
  | _ :: tr' => continued tr'
  end.

(** The HTTP exchanges of a search. *)
Fixpoint exchanges (tr : list (Event Body)) : nat :=
  match tr with
  | [] => 0
  | EvAttempt _ (EvDo _ _) :: tr' => S (exchanges tr')
  | _ :: tr' => exchanges tr'
  end.

End Ledgers.

(** ** More scripted runs *)

Module Cases.

(** An adapter that cannot create its requests, as the Bitbucket adapter
    with a token that has no colon. *)
Definition keyless : RepoSearcher Scripted.Net string Scripted.Payload :=
  {| buildSearchURL := buildSearchURL (Scripted.adapter []);
     buildSearchRequest := fun _ _ w =>
       (("", Some (errorString "invalid Bitbucket token format")), w);
     parseSearchResponse := parseSearchResponse (Scripted.adapter []) |}.

(** [s] with its [MaxRetries] field set to [n]. *)
Definition withRetries (n : Z)
    (s : BaseRepoSearcher Scripted.Net string Scripted.Payload)
    : BaseRepoSearcher Scripted.Net string Scripted.Payload :=
  {| implementation := implementation s;
     HTTPClient := HTTPClient s;
     Token := Token s;
     BaseSource := BaseSource s;
     BaseURL := BaseURL s;
     MaxRetries := n;
     RetryDelay := RetryDelay s |}.

Definition keylessSearcher : BaseRepoSearcher Scripted.Net string Scripted.Payload :=
  NewBaseRepoSearcher Scripted.os keyless "token" None.

(** Networks: a timeout, a 503 and then the page; three pages of results. *)
Definition flaky : Scripted.Net :=
  [Scripted.broken "timeout"; Scripted.page 503 [] 0 false;
   Scripted.page 200 (Scripted.repos "a" 2) 60 true].
Definition threePages : Scripted.Net :=
  [Scripted.page 200 (Scripted.repos "a" 2) 60 true;
   Scripted.page 200 (Scripted.repos "b" 2) 61 true;
   Scripted.page 200 (Scripted.repos "c" 1) 62 true].

Definition fetchWith (s : BaseRepoSearcher Scripted.Net string Scripted.Payload)
    (net : Scripted.Net)
    : (option Scripted.Payload * option error) * State Scripted.Net
      * list (FetchEvent Scripted.Payload) :=
  fetchWithRetries Scripted.os s Scripted.background "https://example.test/search"
                   (Scripted.start net).

Definition searchWith (s : BaseRepoSearcher Scripted.Net string Scripted.Payload)
    (query : string) (maxPages : Z) (net : Scripted.Net)
    : (option SearchResult * option error) * State Scripted.Net
      * list (Event Scripted.Payload) :=
  Search Scripted.os s Scripted.background query maxPages (Scripted.start net).

End Cases.

(** ** The adapters' records and their three other operations

    The structures the five adapters decode their answers into, a module
    for each with the fields under their Go names, and [mapRepoToSummary],
    [parseSearchResponse] and [buildSearchRequest] over them.  The library
    functions are arguments: [strings.TrimSpace], the JSON decoder of a
    body as the value it fills with the error it returns, and the base64
    encoding of [SetBasicAuth]. *)

Module Wire.

(** A value decoded into [any]. *)
#[warnings="-register-all"] Inductive any : Type :=
| Null
| Bool (b : bool)
| Number (digits : string)
| Text (s : string)
| Array (items : list any)
| Object (fields : list (string * any)).

Module gitCodeLicense.
Record t : Type := mk { Name : string }.
End gitCodeLicense.

Module gitCodeRepository.
Record t : Type := mk {
  ID : Z;
  Name : string;
  FullName : string;
  Description : string;
  Private : bool;
  Fork : bool;
  HTMLURL : string;
  CreatedAt : string;
  UpdatedAt : string;
  StargazersCount : Z;
  ForksCount : Z;
  Language : option string;
  Archived : bool;
  OpenIssuesCount : Z;
  License : option gitCodeLicense.t;
  Topics : list string
}.
End gitCodeRepository.

Module giteeRepository.
Record t : Type := mk {
  ID : Z;
  Name : string;
  FullName : string;
  Description : string;
  Private : bool;
  Fork : bool;
  HTMLURL : string;
  CreatedAt : string;
  UpdatedAt : string;
  StargazersCount : Z;
  ForksCount : Z;
  Language : option string;
  Archived : bool;
  OpenIssuesCount : Z;
  License : option string;
  Topics : list string
}.
End giteeRepository.

Module gitLabLicense.
Record t : Type := mk { Name : string }.
End gitLabLicense.

Module gitLabRepository.
Record t : Type := mk {
  ID : Z;
  Name : string;
  PathWithNamespace : string;
  Description : string;
  Visibility : string;
  WebURL : string;
  CreatedAt : string;
  LastActivityAt : string;
  StarCount : Z;
  ForksCount : Z;
  Archived : bool;
  OpenIssuesCount : Z;
  Topics : list string;
  License : option gitLabLicense.t;
  ForkedFromProject : option (list (string * any))
}.
End gitLabRepository.

Module bitbucketLink.
Record t : Type := mk { Href : string }.
End bitbucketLink.

Module bitbucketLinks.
Record t : Type := mk { HTML : bitbucketLink.t }.
End bitbucketLinks.

Module bitbucketRepository.
Record t : Type := mk {
  Name : string;
  FullName : string;
  Description : string;
  Language : string;
  CreatedOn : string;
  UpdatedOn : string;
  IsPrivate : bool;
  Parent : option (list (string * any));
  Links : bitbucketLinks.t
}.
End bitbucketRepository.

Module bitbucketSearchResponse.
Record t : Type := mk {
  Size : Z;
  Page : Z;
  Values : list bitbucketRepository.t;
  Next : string
}.
End bitbucketSearchResponse.

Module gitHubLicense.
Record t : Type := mk { Name : string }.
End gitHubLicense.

Module gitHubRepository.
Record t : Type := mk {
  ID : Z;
  Name : string;
  FullName : string;
  Description : string;
  Private : bool;
  Fork : bool;
  HTMLURL : string;
  CreatedAt : string;
  UpdatedAt : string;
  StargazersCount : Z;
  ForksCount : Z;
  Language : option string;
  Archived : bool;
  OpenIssuesCount : Z;
  License : option gitHubLicense.t;
  Topics : list string
}.
End gitHubRepository.

Module gitHubSearchResponse.
Record t : Type := mk {
  TotalCount : Z;
  IncompleteResults : bool;
  Items : list gitHubRepository.t
}.
End gitHubSearchResponse.

(** An [*http.Request] as far as the adapters set it. *)
Module Request.
Record t : Type := mk {
  Method : string;
  URL : string;
  Header : list (string * string)
}.
End Request.

End Wire.

Module Operations.

Import Wire.

(** What [parseSearchResponse] returns: summaries, totalCount, hasMore, err. *)
Definition Parsed : Type := list RepositorySummary * Z * bool * option error.

(** [len(l) > 0]. *)
Definition nonEmpty {A} (l : list A) : bool := 0 <? Z.of_nat (List.length l).

(** [Header.Set]: the value of the key is replaced (keys as the adapters
    write them). *)
Fixpoint Header_Set (key value : string) (h : list (string * string))
    : list (string * string) :=
  match h with
  | [] => [(key, value)]
  | (k, v) :: h' =>
    if (k =? key)%string then (k, value) :: h' else (k, v) :: Header_Set key value h'
  end.


Definition setHeader (key value : string) (req : Request.t) : Request.t :=
  Request.mk (Request.Method req) (Request.URL req)
             (Header_Set key value (Request.Header req)).

(** [http.NewRequestWithContext(ctx, http.MethodGet, url, nil)]: the URL
    must parse. *)
Definition NewRequestWithContext (ctx : Context) (method url : string)
    : option Request.t * option error :=
  match snd (NetURL.Parse url) with
  | Some e => (None, Some e)
  | None => (Some (Request.mk method url []), None)
  end.

(** [strings.SplitN(s, sep, 2)] for a separator of one character. *)
Definition SplitN2 (s : string) (sep : ascii) : list string :=
  let '(before, after, found) := NetURL.cut sep s in
  if found then [before; after] else [s].

Definition requestError (err : error) : option Request.t * option error :=
  (None, Some (Errorf_w "failed to create request: " (Some err))).

Section Library.

Variable TrimSpace : string -> string.
Variable base64 : string -> string.

(** [req.SetBasicAuth(username, password)]. *)
Definition SetBasicAuth (username password : string) (req : Request.t)
    : Request.t :=
  setHeader "Authorization" ("Basic " ++ base64 (username ++ ":" ++ password)) req.

(** *** GitCode *)

Definition GitCode_buildSearchRequest (token : string) (ctx : Context)
    (url : string) : option Request.t * option error :=
  match NewRequestWithContext ctx "GET" url with
  | (_, Some err) => requestError err
  | (None, None) => (None, None)
  | (Some req, None) =>
    let req := setHeader "Accept" "application/json" req in
    let req := setHeader "User-Agent" "go-repo-searcher/1.0" req in
    let req := setHeader "Authorization" ("Bearer " ++ token) req in
    (Some req, None)
  end.

Definition GitCode_mapRepoToSummary (repo : gitCodeRepository.t)
    : RepositorySummary :=
  let language :=
    match gitCodeRepository.Language repo with
    | Some l => if negb (l =? "")%string then l else "Unknown"
    | None => "Unknown"
    end in
  let license :=
    match gitCodeRepository.License repo with
    | Some l =>
      if negb (gitCodeLicense.Name l =? "")%string then gitCodeLicense.Name l
      else "None"
    | None => "None"
    end in
  {| Name := gitCodeRepository.Name repo;
     FullName := gitCodeRepository.FullName repo;
     Description := TrimSpace (gitCodeRepository.Description repo);
     URL := gitCodeRepository.HTMLURL repo;
     Stars := gitCodeRepository.StargazersCount repo;
     Forks := gitCodeRepository.ForksCount repo;
     Language := language;
     CreatedAt := gitCodeRepository.CreatedAt repo;
     UpdatedAt := gitCodeRepository.UpdatedAt repo;
     IsPrivate := gitCodeRepository.Private repo;
     IsFork := gitCodeRepository.Fork repo;
     IsArchived := gitCodeRepository.Archived repo;
     Topics := gitCodeRepository.Topics repo;
     License := license;
     OpenIssuesCount := gitCodeRepository.OpenIssuesCount repo |}.

Definition GitCode_parseSearchResponse {Body : Type}
    (Decode : Body -> list gitCodeRepository.t * option error) (body : Body)
    : Parsed :=
  let '(repos, err) := Decode body in
  match err with
  | Some e =>
    ([], 0, false, Some (Errorf_w "failed to unmarshal GitCode response: " (Some e)))
  | None =>
    let summaries := map GitCode_mapRepoToSummary repos in
    let totalCount := -1 in
    let hasMore := nonEmpty repos in
    (summaries, totalCount, hasMore, None)
  end.

(** *** Gitee *)


(** The literal of the source also names a field [Source], set to "Gitee",
    that [RepositorySummary] does not declare; the fields it declares are
    set as here. *)
Definition Gitee_mapRepoToSummary (repo : giteeRepository.t)
    : RepositorySummary :=
  let language :=
    match giteeRepository.Language repo with
    | Some l => if negb (l =? "")%string then l else "Unknown"
    | None => "Unknown"
    end in
  let license :=
    match giteeRepository.License repo with
    | Some l => if negb (l =? "")%string then l else "None"
    | None => "None"
    end in
  {| Name := giteeRepository.Name repo;
     FullName := giteeRepository.FullName repo;
     Description := TrimSpace (giteeRepository.Description repo);
     URL := giteeRepository.HTMLURL repo;
     Stars := giteeRepository.StargazersCount repo;
     Forks := giteeRepository.ForksCount repo;
     Language := language;
     CreatedAt := giteeRepository.CreatedAt repo;
     UpdatedAt := giteeRepository.UpdatedAt repo;
     IsPrivate := giteeRepository.Private repo;
     IsFork := giteeRepository.Fork repo;
     IsArchived := giteeRepository.Archived repo;
     Topics := giteeRepository.Topics repo;
     License := license;
     OpenIssuesCount := giteeRepository.OpenIssuesCount repo |}.

Definition Gitee_parseSearchResponse {Body : Type}
    (Decode : Body -> list giteeRepository.t * option error) (body : Body)
    : Parsed :=
  let '(repos, err) := Decode body in
  match err with
  | Some e =>
    ([], 0, false, Some (Errorf_w "failed to unmarshal Gitee response: " (Some e)))
  | None =>
    let summaries := map Gitee_mapRepoToSummary repos in
    let totalCount := -1 in
    let hasMore := nonEmpty repos in
    (summaries, totalCount, hasMore, None)
  end.

(** *** GitLab *)


Definition GitLab_mapRepoToSummary (repo : gitLabRepository.t)
    : RepositorySummary :=
  let license :=
    match gitLabRepository.License repo with
    | Some l =>
      if negb (gitLabLicense.Name l =? "")%string then gitLabLicense.Name l
      else "None"
    | None => "None"
    end in
  {| Name := gitLabRepository.Name repo;
     FullName := gitLabRepository.PathWithNamespace repo;
     Description := TrimSpace (gitLabRepository.Description repo);
     URL := gitLabRepository.WebURL repo;
     Stars := gitLabRepository.StarCount repo;
     Forks := gitLabRepository.ForksCount repo;
     Language := "Unknown";
     CreatedAt := gitLabRepository.CreatedAt repo;
     UpdatedAt := gitLabRepository.LastActivityAt repo;
     IsPrivate := (gitLabRepository.Visibility repo =? "private")%string;
     IsFork := match gitLabRepository.ForkedFromProject repo with
               | Some _ => true
               | None => false
               end;
     IsArchived := gitLabRepository.Archived repo;
     Topics := gitLabRepository.Topics repo;
     License := license;
     OpenIssuesCount := gitLabRepository.OpenIssuesCount repo |}.

Definition GitLab_parseSearchResponse {Body : Type}
    (Decode : Body -> list gitLabRepository.t * option error) (body : Body)
    : Parsed :=
  let '(repos, err) := Decode body in
  match err with
  | Some e =>
    ([], 0, false, Some (Errorf_w "failed to unmarshal GitLab response: " (Some e)))
  | None =>
    let summaries := map GitLab_mapRepoToSummary repos in
    let totalCount := -1 in
    let hasMore := nonEmpty repos in
    (summaries, totalCount, hasMore, None)
  end.

(** *** Bitbucket *)

Definition Bitbucket_buildSearchRequest (token : string) (ctx : Context)
    (url : string) : option Request.t * option error :=
  match NewRequestWithContext ctx "GET" url with
  | (_, Some err) => requestError err
  | (None, None) => (None, None)
  | (Some req, None) =>
    let req := setHeader "Accept" "application/json" req in
    let req := setHeader "User-Agent" "go-repo-searcher/1.0" req in
    if negb (token =? "")%string
    then
      match SplitN2 token ":" with
      | [username; password] => (Some (SetBasicAuth username password req), None)
      | _ =>
        (None,
         Some (errorString
                 "invalid Bitbucket token format; expected 'username:app_password'"))
      end
    else (Some req, None)
  end.

Definition Bitbucket_mapRepoToSummary (repo : bitbucketRepository.t)
    : RepositorySummary :=
  let language :=
    if negb (bitbucketRepository.Language repo =? "")%string
    then bitbucketRepository.Language repo else "Unknown" in
  {| Name := bitbucketRepository.Name repo;
     FullName := bitbucketRepository.FullName repo;
     Description := TrimSpace (bitbucketRepository.Description repo);
     URL := bitbucketLink.Href (bitbucketLinks.HTML (bitbucketRepository.Links repo));
     Stars := -1;
     Forks := -1;
     Language := language;
     CreatedAt := bitbucketRepository.CreatedOn repo;
     UpdatedAt := bitbucketRepository.UpdatedOn repo;
     IsPrivate := bitbucketRepository.IsPrivate repo;
     IsFork := match bitbucketRepository.Parent repo with
               | Some _ => true
               | None => false
               end;
     IsArchived := false;
     Topics := [];
     License := "Unknown";
     OpenIssuesCount := -1 |}.

Definition Bitbucket_parseSearchResponse {Body : Type}
    (Decode : Body -> bitbucketSearchResponse.t * option error) (body : Body)
    : Parsed :=
  let '(resp, err) := Decode body in
  match err with
  | Some e =>
    ([], 0, false,
     Some (Errorf_w "failed to unmarshal Bitbucket response: " (Some e)))
  | None =>
    let summaries :=
      map Bitbucket_mapRepoToSummary (bitbucketSearchResponse.Values resp) in
    let totalCount := bitbucketSearchResponse.Size resp in
    let hasMore := negb (bitbucketSearchResponse.Next resp =? "")%string in
    (summaries, totalCount, hasMore, None)
  end.

(** *** GitHub *)

Definition GitHub_buildSearchRequest (token : string) (ctx : Context)
    (url : string) : option Request.t * option error :=
  match NewRequestWithContext ctx "GET" url with
  | (_, Some err) => requestError err
  | (None, None) => (None, None)
  | (Some req, None) =>
    let req := setHeader "Accept" "application/vnd.github.v3+json" req in
    let req := setHeader "User-Agent" "go-repo-searcher/1.0" req in
    let req := if negb (token =? "")%string
               then setHeader "Authorization" ("Bearer " ++ token) req else req in
    (Some req, None)
  end.

(** The literal of the source also names a field [Source], set to "GitHub",
    that [RepositorySummary] does not declare; the fields it declares are
    set as here. *)
Definition GitHub_mapRepoToSummary (repo : gitHubRepository.t)
    : RepositorySummary :=
  let language :=
    match gitHubRepository.Language repo with
    | Some l => if negb (l =? "")%string then l else "Unknown"
    | None => "Unknown"
    end in
  let license :=
    match gitHubRepository.License repo with
    | Some l =>
      if negb (gitHubLicense.Name l =? "")%string then gitHubLicense.Name l
      else "None"
    | None => "None"
    end in
  {| Name := gitHubRepository.Name repo;
     FullName := gitHubRepository.FullName repo;
     Description := TrimSpace (gitHubRepository.Description repo);
     URL := gitHubRepository.HTMLURL repo;
     Stars := gitHubRepository.StargazersCount repo;
     Forks := gitHubRepository.ForksCount repo;
     Language := language;
     CreatedAt := gitHubRepository.CreatedAt repo;
     UpdatedAt := gitHubRepository.UpdatedAt repo;
     IsPrivate := gitHubRepository.Private repo;
     IsFork := gitHubRepository.Fork repo;
     IsArchived := gitHubRepository.Archived repo;
     Topics := gitHubRepository.Topics repo;
     License := license;
     OpenIssuesCount := gitHubRepository.OpenIssuesCount repo |}.

(** [hasMore] is assigned twice; the second assignment is the one
    returned. *)
Definition GitHub_parseSearchResponse {Body : Type}
    (Decode : Body -> gitHubSearchResponse.t * option error) (body : Body)
    : Parsed :=
  let '(resp, err) := Decode body in
  match err with
  | Some e =>
    ([], 0, false, Some (Errorf_w "failed to unmarshal GitHub response: " (Some e)))
  | None =>
    let summaries := map GitHub_mapRepoToSummary (gitHubSearchResponse.Items resp) in
    let totalCount := gitHubSearchResponse.TotalCount resp in
    let hasMore :=
      nonEmpty summaries && negb (gitHubSearchResponse.IncompleteResults resp) in
    let hasMore := nonEmpty summaries in
    (summaries, totalCount, hasMore, None)
  end.

End Library.

End Operations.

(** ** Writing the result

    [writeJSONOutput] of the main program; [json.MarshalIndent] and
    [os.WriteFile] are arguments, and the files written are the events. *)

Module Output.

(** [strings.ReplaceAll(s, " ", "")]. *)
Fixpoint removeSpaces (s : string) : string :=
  match s with
  | EmptyString => EmptyString
  | String a s' =>
    if Ascii.eqb a " " then removeSpaces s' else String a (removeSpaces s')
  end.

Definition writeJSONOutput {W : Type}
    (MarshalIndent : list RepositorySummary -> string * option error)
    (WriteFile : string -> string -> W -> option error * W)
    (result : SearchResult) : M W (string * string) (option error) :=
  if Z.of_nat (List.length (Items result)) =? 0 then ret None
  else
    let safeSource := removeSpaces (Source result) in
    let filename := "Out-" ++ safeSource ++ ".json" in
    let '(jsonData, err) := MarshalIndent (Items result) in
    match err with
    | Some e => ret (Some (Errorf_w "failed to marshal results to JSON: " (Some e)))
    | None =>
      err <- call (WriteFile filename jsonData) ;;
      emit (filename, jsonData) ;;;
      match err with
      | Some e =>
        ret (Some (Errorf_w ("failed to write JSON to file " ++ filename ++ ": ")
                            (Some e)))
      | None => ret None
      end
    end.

End Output.

(** ** The adapters at work

    The GitCode, Bitbucket and GitHub adapters as implementations of the
    orchestrator's interface, over a network that is the list of the next
    answers; a body holds what each decoder makes of it. *)

Module Live.

Record Body : Type := {
  asGitCode : list Wire.gitCodeRepository.t * option error;
  asBitbucket : Wire.bitbucketSearchResponse.t * option error;
  asGitHub : Wire.gitHubSearchResponse.t * option error
}.

Definition Net : Type := list (Response Body + error).

(** [strings.TrimSpace] on ASCII text. *)
Definition asciiSpace (a : ascii) : bool :=
  let n := N_of_ascii a in (((9 <=? n) && (n <=? 13)) || (n =? 32))%N.

Fixpoint trimLeft (s : string) : string :=
  match s with
  | EmptyString => EmptyString
  | String a s' => if asciiSpace a then trimLeft s' else s
  end.

Fixpoint trimRight (s : string) : string :=
  match s with
  | EmptyString => EmptyString
  | String a s' =>
    match trimRight s' with
    | EmptyString => if asciiSpace a then EmptyString else String a EmptyString
    | r => String a r
    end
  end.

Definition TrimSpace (s : string) : string := trimRight (trimLeft s).

(** The encoding of the credentials is left as the text it encodes. *)
Definition plain (s : string) : string := s.

Definition client : Client Net (option Wire.Request.t) Body :=
  {| Do := fun _ w =>
       match w with
       | [] => (inr (errorString "connection refused"), [])
       | r :: w' => (r, w')
       end |}.

Definition os : Platform Net (option Wire.Request.t) Body :=
  {| http_Client := fun _ => client;
     io_ReadAll := fun _ w => ("", w);
     body_Close := fun _ w => w |}.

Definition GitCodeSearcher (env : Adapters.Environ) (token : string)
    : RepoSearcher Net (option Wire.Request.t) Body :=
  {| buildSearchURL := fun query page perPage w =>
       (Adapters.buildSearchURL env (Adapters.NewGitCodeSearcher token)
                                query page perPage, w);
     buildSearchRequest := fun ctx url w =>
       (Operations.GitCode_buildSearchRequest token ctx url, w);
     parseSearchResponse := fun body w =>
       (Operations.GitCode_parseSearchResponse TrimSpace asGitCode body, w) |}.

Definition BitbucketSearcher (token : string)
    : RepoSearcher Net (option Wire.Request.t) Body :=
  {| buildSearchURL := fun query page perPage w =>
       (Adapters.buildSearchURL Adapters.noEnv (Adapters.NewBitbucketSearcher token)
                                query page perPage, w);
     buildSearchRequest := fun ctx url w =>
       (Operations.Bitbucket_buildSearchRequest plain token ctx url, w);
     parseSearchResponse := fun body w =>
       (Operations.Bitbucket_parseSearchResponse TrimSpace asBitbucket body, w) |}.

Definition GitHubSearcher (token : string)
    : RepoSearcher Net (option Wire.Request.t) Body :=
  {| buildSearchURL := fun query page perPage w =>
       (Adapters.buildSearchURL Adapters.noEnv (Adapters.NewGitHubSearcher token)
                                query page perPage, w);
     buildSearchRequest := fun ctx url w =>
       (Operations.GitHub_buildSearchRequest token ctx url, w);
     parseSearchResponse := fun body w =>
       (Operations.GitHub_parseSearchResponse TrimSpace asGitHub body, w) |}.

(** The constructors: the base searcher, then the two fields that
    [NewGitCodeSearcher] and [NewBitbucketSearcher] set on it;
    [NewGitHubSearcher] sets none (its base URL is a field of its own). *)
Definition withSource (source baseURL : string)
    (base : BaseRepoSearcher Net (option Wire.Request.t) Body)
    : BaseRepoSearcher Net (option Wire.Request.t) Body :=
  {| implementation := implementation base;
     HTTPClient := HTTPClient base;
     Token := Token base;
     BaseSource := source;
     BaseURL := baseURL;
     MaxRetries := MaxRetries base;
     RetryDelay := RetryDelay base |}.

Definition NewGitCodeSearcher (env : Adapters.Environ) (token : string)
    (client : option (Client Net (option Wire.Request.t) Body))
    : BaseRepoSearcher Net (option Wire.Request.t) Body :=
  let base := NewBaseRepoSearcher os (GitCodeSearcher env token) token client in
  withSource "GitCode" "https://api.gitcode.com/api/v5" base.

Definition NewBitbucketSearcher (token : string)
    (client : option (Client Net (option Wire.Request.t) Body))
    : BaseRepoSearcher Net (option Wire.Request.t) Body :=
  let base := NewBaseRepoSearcher os (BitbucketSearcher token) token client in
  withSource "Bitbucket" "https://api.bitbucket.org/2.0" base.

Definition NewGitHubSearcher (token : string)
    (client : option (Client Net (option Wire.Request.t) Body))
    : BaseRepoSearcher Net (option Wire.Request.t) Body :=
  NewBaseRepoSearcher os (GitHubSearcher token) token client.

(** Answers. *)
Definition raft : Wire.gitCodeRepository.t :=
  Wire.gitCodeRepository.mk 7 "raft" "acme/raft" "  consensus  " false false
    "https://gitcode.com/acme/raft" "2020-01-01" "2021-01-01" 3 1 None false 0
    None ["go"].

Definition hubRaft : Wire.gitHubRepository.t :=
  Wire.gitHubRepository.mk 9 "raft" "acme/raft" "consensus" false false
    "https://github.com/acme/raft" "2020-01-01" "2021-01-01" 3 1 (Some "Go")
    false 0 None [].

Definition undecoded {A} (zero : A) : A * option error :=
  (zero, Some (errorString "unexpected end of JSON input")).

Definition noBitbucket : Wire.bitbucketSearchResponse.t :=
  Wire.bitbucketSearchResponse.mk 0 0 [] "".

Definition noGitHub : Wire.gitHubSearchResponse.t :=
  Wire.gitHubSearchResponse.mk 0 false [].

Definition gitCodePage (repos : list Wire.gitCodeRepository.t)
    : Response Body + error :=
  inl {| StatusCode := 200;
         RespBody := {| asGitCode := (repos, None);
                        asBitbucket := undecoded noBitbucket;
                        asGitHub := undecoded noGitHub |} |}.

Definition gitHubPage (total : Z) (incomplete : bool)
    (items : list Wire.gitHubRepository.t) : Response Body + error :=
  inl {| StatusCode := 200;
         RespBody := {| asGitCode := undecoded [];
                        asBitbucket := undecoded noBitbucket;
                        asGitHub := (Wire.gitHubSearchResponse.mk total incomplete items,
                                     None) |} |}.

(** GitCode: a page of one record, then an empty page.  GitHub: one page of
    one record, marked incomplete, of a total of 40, then an empty page. *)
Definition gitCodeNet : Net := [gitCodePage [raft]; gitCodePage []].
Definition gitHubNet : Net := [gitHubPage 40 true [hubRaft]; gitHubPage 40 false []].

Definition start (net : Net) : State Net := {| world := net; clock := 0 |}.

Definition run (s : BaseRepoSearcher Net (option Wire.Request.t) Body)
    (query : string) (maxPages : Z) (net : Net)
    : (option SearchResult * option error) * State Net * list (Event Body) :=
  Search os s Scripted.background query maxPages (start net).

(** A disk that takes every file. *)
Definition WriteFile (filename data : string) (disk : list string)
    : option error * list string :=
  (None, (filename :: disk)%list).

Definition MarshalIndent (items : list RepositorySummary) : string * option error :=
  ("[...]", None).

End Live.

(** ** Classes of characters *)

Module Chars.

Fixpoint allOf (P : ascii -> bool) (s : string) : bool :=
  match s with
  | EmptyString => true
  | String a s' => P a && allOf P s'
  end.

(** The characters [QueryEscape] writes: the ones it leaves as they are,
    [%] with its two digits, and [+]. *)
Definition escaped (a : ascii) : bool :=
  negb (NetURL.shouldEscape a) || Ascii.eqb a "%" || Ascii.eqb a "+".

(** One parameter of an encoded query. *)
Definition pair (kv : string * string) : string :=
  NetURL.QueryEscape (fst kv) ++ "=" ++ NetURL.QueryEscape (snd kv).

End Chars.

(** * Properties *)

Lemma string_app_assoc (a b c : string) : (a ++ b) ++ c = a ++ (b ++ c).
Proof. induction a as [|x a IH]; simpl; [reflexivity|now rewrite IH]. Qed.

Arguments Errorf_w : simpl never.
Arguments statusError : simpl never.
Arguments exhaustedError : simpl never.
Arguments String.append : simpl never.
Arguments itoa : simpl never.
Arguments Z.mul : simpl never.
Arguments Z.add : simpl never.
Arguments Z.max : simpl never.
Arguments fetchWithRetries : simpl never.
Arguments fetched : simpl never.

(** ** Go arithmetic *)

Lemma wrap64_small (z : Z) : minInt64 <= z <= maxInt64 -> wrap64 z = z.
Proof.
  unfold wrap64, minInt64, maxInt64. intros H.
  rewrite Z.mod_small; lia.
Qed.

(** ** The loops run within their shapes *)

Section Soundness.

Context {W Request Body : Type}.
Variable os : Platform W Request Body.
Variable s : BaseRepoSearcher W Request Body.

Ltac run_monad :=
  cbv zeta;
  repeat (progress (unfold bind, prim, closeBody, call, emit, ret, time_Sleep,
                      tagged, result, final, events in *; simpl in * )).

Lemma fetchLoop_shape (ctx : Context) (url : string) (n : nat) :
  forall i delay lastErr st,
    let run := fetchLoop os s ctx url n i delay lastErr st in
    Attempts s url n i delay lastErr (result run) (clock st)
             (clock (final run)) (events run).
Proof.
  induction n as [|n IH]; intros i delay lastErr st; simpl.
  - run_monad. constructor.
  - run_monad.
    destruct (buildSearchRequest (implementation s) ctx url (world st))
      as [[req [e|]] w1]; simpl.
    + apply A_noRequest.
    + destruct (Do (HTTPClient s) req w1) as [[resp|e] w2]; simpl.
      * destruct (StatusCode resp =? 200) eqn:E200; simpl.
        { apply Z.eqb_eq in E200. now apply A_ok. }
        apply Z.eqb_neq in E200.
        destruct (io_ReadAll os (RespBody resp) w2) as [text w3]; simpl.
        destruct ((StatusCode resp =? 401) || (StatusCode resp =? 403)
                  || (StatusCode resp =? 404)) eqn:Ef; simpl.
        { now apply A_fatal. }
        match goal with
        | |- context [fetchLoop os s ctx url n ?i' ?d' ?l' ?st'] =>
          specialize (IH i' d' l' st');
          destruct (fetchLoop os s ctx url n i' d' l' st') as [[res st1] tr]
        end.
        simpl in *. now apply A_status.
      * match goal with
        | |- context [fetchLoop os s ctx url n ?i' ?d' ?l' ?st'] =>
          specialize (IH i' d' l' st');
          destruct (fetchLoop os s ctx url n i' d' l' st') as [[res st1] tr]
        end.
        simpl in *. now apply A_transport.
Qed.

Lemma fetchWithRetries_shape (ctx : Context) (url : string) (st : State W) :
  let run := fetchWithRetries os s ctx url st in
  Fetch s url (result run) (clock st) (clock (final run)) (events run).
Proof. apply fetchLoop_shape. Qed.

Lemma Pages_cast (query : string) (maxPages : Z) n page allRepos totalCount
    res res' t t' (tr tr' : list (Event Body)) :
  Pages s query maxPages n page allRepos totalCount res t t' tr ->
  res = res' -> tr = tr' ->
  Pages s query maxPages n page allRepos totalCount res' t t' tr'.
Proof. now intros H <- <-. Qed.

Ltac same_events :=
  unfold fetched; simpl; rewrite <- ?app_assoc; simpl; reflexivity.

Lemma searchLoop_shape (ctx : Context) (query : string) (maxPages : Z) (n : nat) :
  forall page allRepos totalCount st,
    let run := searchLoop os s ctx query maxPages n page allRepos totalCount st in
    Pages s query maxPages n page allRepos totalCount (result run) (clock st)
          (clock (final run)) (events run).
Proof.
  induction n as [|n IH]; intros page allRepos totalCount st.
  - run_monad. apply P_done.
  - run_monad.
    destruct (buildSearchURL (implementation s) query page perPage (world st))
      as [[url [e|]] w1]; simpl.
    { apply P_noURL. }
    pose proof (fetchWithRetries_shape ctx url {| world := w1; clock := clock st |})
      as HF.
    destruct (fetchWithRetries os s ctx url {| world := w1; clock := clock st |})
      as [[[body err] st1] ftr].
    run_monad.
    destruct err as [e|].
    { destruct (page =? 1) eqn:E1; simpl;
        (eapply Pages_cast;
         [ apply (P_noFetch s query maxPages n page allRepos totalCount url body e
                            _ _ ftr HF)
         | rewrite E1; reflexivity | same_events ]). }
    destruct body as [b|].
    2:{ specialize (IH (page + 1) allRepos totalCount st1).
        destruct (searchLoop os s ctx query maxPages n (page + 1) allRepos
                             totalCount st1) as [[res st2] tr].
        run_monad.
        eapply Pages_cast;
          [ apply (P_nilBody s query maxPages n page allRepos totalCount url res
                             _ _ _ ftr tr HF IH)
          | reflexivity | same_events ]. }
    destruct (parseSearchResponse (implementation s) b (world st1))
      as [[[[repos tc] hasMore] [e|]] w2]; simpl.
    { eapply Pages_cast;
        [ apply (P_noParse s query maxPages n page allRepos totalCount url b repos
                           tc hasMore e _ _ ftr HF)
        | reflexivity | same_events ]. }
    destruct hasMore; simpl.
    2:{ eapply Pages_cast;
          [ apply (P_last s query maxPages n page allRepos totalCount url b repos
                          tc false _ _ ftr HF); now left
          | reflexivity | same_events ]. }
    destruct repos as [|r repos]; simpl.
    { eapply Pages_cast;
        [ apply (P_last s query maxPages n page allRepos totalCount url b []
                        tc true _ _ ftr HF); now right
        | reflexivity | same_events ]. }
    destruct (page <? maxPages) eqn:Elt; simpl.
    + match goal with
      | |- context [searchLoop os s ctx query maxPages n ?p' ?a' ?c' ?st'] =>
        specialize (IH p' a' c' st');
        destruct (searchLoop os s ctx query maxPages n p' a' c' st')
          as [[res st2] tr]
      end.
      run_monad.
      eapply Pages_cast;
        [ apply (P_next s query maxPages n page allRepos totalCount url b
                        (r :: repos) tc res _ _ _ ftr tr HF);
          [ discriminate | rewrite Elt; exact IH ]
        | reflexivity | rewrite Elt; same_events ].
    + match goal with
      | |- context [searchLoop os s ctx query maxPages n ?p' ?a' ?c' ?st'] =>
        specialize (IH p' a' c' st');
        destruct (searchLoop os s ctx query maxPages n p' a' c' st')
          as [[res st2] tr]
      end.
      run_monad.
      eapply Pages_cast;
        [ apply (P_next s query maxPages n page allRepos totalCount url b
                        (r :: repos) tc res _ _ _ ftr tr HF);
          [ discriminate | rewrite Elt; exact IH ]
        | reflexivity | rewrite Elt; same_events ].
Qed.

End Soundness.

(** ** Facts on the runs of the Retrying Fetcher *)

Section FetchFacts.

Context {W Request Body : Type}.
Variable s : BaseRepoSearcher W Request Body.

Lemma attempts_bounded url n i delay lastErr res t t' (tr : list (FetchEvent Body)) :
  Attempts s url n i delay lastErr res t t' tr ->
  (List.length (attempts tr) <= n)%nat.
Proof. induction 1; simpl; lia. Qed.





(** A fetch returns a body or an error, never neither. *)
Lemma fetch_not_nil url n i delay lastErr res t t' (tr : list (FetchEvent Body)) :
  Attempts s url n i delay lastErr res t t' tr -> res <> (None, None).
Proof. induction 1; auto; discriminate. Qed.

(** The attempts are numbered from [i] on. *)
Lemma attempts_from url n i delay lastErr res t t' (tr : list (FetchEvent Body)) :
  Attempts s url n i delay lastErr res t t' tr ->
  forall j r, In (j, r) (attempts tr) -> i <= j.
Proof.
  induction 1 as
      [ | | n i delay lastErr e res t t' tr HA IH
        | | | n i delay lastErr resp text res t t' tr H200 Hf HA IH ];
    simpl; intros j r Hin; try tauto;
    destruct Hin as [Heq|Hin]; try (inversion Heq; lia); try tauto;
    apply IH in Hin; lia.
Qed.

Lemma classify_ok (resp : Response Body) :
  StatusCode resp = 200 -> classify (inl resp) = Success.
Proof. intros H. simpl. now rewrite H. Qed.

Lemma classify_fatal (resp : Response Body) :
  StatusCode resp <> 200 -> isFatal (StatusCode resp) = true ->
  classify (inl resp) = Fatal.
Proof.
  intros H F. simpl. apply Z.eqb_neq in H. rewrite H.
  unfold isFatal in F. now rewrite F.
Qed.

Lemma classify_status (resp : Response Body) :
  StatusCode resp <> 200 -> isFatal (StatusCode resp) = false ->
  classify (inl resp) = Retryable.
Proof.
  intros H F. simpl. apply Z.eqb_neq in H. rewrite H.
  unfold isFatal in F. now rewrite F.
Qed.

(** An iteration that is entered makes its attempt, unless the request
    cannot be created. *)
Lemma attempt_made url n i delay lastErr res t t' (tr : list (FetchEvent Body)) :
  Attempts s url (S n) i delay lastErr res t t' tr ->
  (exists r, In (i, r) (attempts tr))
  \/ (exists e, res = (None, Some (Errorf_w "failed to create request: " (Some e)))).
Proof.
  inversion 1; subst; simpl; eauto.
Qed.

(** What the code does with the outcome of each attempt. *)
Lemma attempt_classes url n i delay lastErr res t t' (tr : list (FetchEvent Body)) :
  Attempts s url n i delay lastErr res t t' tr ->
  forall j r, In (j, r) (attempts tr) ->
    match classify r with
    | Success =>
      (exists resp, r = inl resp /\ res = (Some (RespBody resp), None))
      /\ lastAttempt j tr
      /\ Z.of_nat (List.length (sleeps tr)) = j - i
    | Fatal =>
      (exists resp text,
          r = inl resp /\ In (EvReadAll (RespBody resp) text) tr
          /\ res = (None, Some (statusError (StatusCode resp) text)))
      /\ lastAttempt j tr
      /\ Z.of_nat (List.length (sleeps tr)) = j - i
    | Retryable =>
      j - i < Z.of_nat (List.length (sleeps tr))
      /\ (j + 1 < i + Z.of_nat n ->
          (exists r', In (j + 1, r') (attempts tr))
          \/ (exists e, res = (None, Some (Errorf_w "failed to create request: "
                                                    (Some e)))))
    end.
Proof.
  induction 1 as
      [ | | n i delay lastErr e res t t' tr HA IH
        | n i delay lastErr resp t H200
        | n i delay lastErr resp text t H200 Hf
        | n i delay lastErr resp text res t t' tr H200 Hf HA IH ];
    intros j r Hin; simpl in Hin; try tauto.
  - (* transport failure *)
    destruct Hin as [Heq|Hin].
    + inversion Heq; subst. cbn [classify]. split.
      * cbn [sleeps List.length]. lia.
      * intros Hn. destruct n as [|n]; [lia|].
        destruct (attempt_made _ _ _ _ _ _ _ _ _ HA) as [[r' Hr]|He]; auto.
        left. exists r'. cbn [attempts]. right. now replace (j + 1) with (j + 1) by lia.
    + pose proof (attempts_from _ _ _ _ _ _ _ _ _ HA _ _ Hin) as Hge.
      specialize (IH _ _ Hin). cbn [sleeps attempts List.length].
      destruct (classify r).
      * destruct IH as (Hres & Hlast & Hs). split; [exact Hres|split; [|lia]].
        intros j' r' [Heq|Hin']; [inversion Heq; lia | eauto].
      * destruct IH as (Hres & Hlast & Hs). split; [|split; [|lia]].
        { destruct Hres as (resp & text & -> & Hr & ->).
          exists resp, text. split; [reflexivity|]. split; [simpl; tauto|reflexivity]. }
        intros j' r' [Heq|Hin']; [inversion Heq; lia | eauto].
      * destruct IH as (Hs & Hnext). split; [lia|].
        intros Hn. destruct Hnext as [[r' Hr]|He]; [lia| |]; eauto.
        left. exists r'. now right.
  - (* 200 *)
    destruct Hin as [Heq|[]]. inversion Heq; subst.
    rewrite classify_ok by assumption. split; [|split; [|simpl; lia]].
    { exists resp. split; reflexivity. }
    intros j' r' [Heq'|[]]. inversion Heq'. lia.
  - (* 401, 403, 404 *)
    destruct Hin as [Heq|[]]. inversion Heq; subst.
    rewrite classify_fatal by assumption. split; [|split; [|simpl; lia]].
    { exists resp, text. split; [reflexivity|]. split; [simpl; tauto|reflexivity]. }
    intros j' r' [Heq'|[]]. inversion Heq'. lia.
  - (* another status *)
    destruct Hin as [Heq|Hin].
    + inversion Heq; subst. rewrite classify_status by assumption. split.
      * cbn [sleeps List.length]. lia.
      * intros Hn. destruct n as [|n]; [lia|].
        destruct (attempt_made _ _ _ _ _ _ _ _ _ HA) as [[r' Hr]|He]; auto.
        left. exists r'. cbn [attempts]. now right.
    + pose proof (attempts_from _ _ _ _ _ _ _ _ _ HA _ _ Hin) as Hge.
      specialize (IH _ _ Hin). cbn [sleeps attempts List.length].
      destruct (classify r).
      * destruct IH as (Hres & Hlast & Hs). split; [exact Hres|split; [|lia]].
        intros j' r' [Heq|Hin']; [inversion Heq; lia | eauto].
      * destruct IH as (Hres & Hlast & Hs). split; [|split; [|lia]].
        { destruct Hres as (resp' & text' & -> & Hr & ->).
          exists resp', text'. split; [reflexivity|]. split; [simpl; tauto|reflexivity]. }
        intros j' r' [Heq|Hin']; [inversion Heq; lia | eauto].
      * destruct IH as (Hs & Hnext). split; [lia|].
        intros Hn. destruct Hnext as [[r' Hr]|He]; [lia| |]; eauto.
        left. exists r'. now right.
Qed.



End FetchFacts.


(** ** Facts on the runs of the Search Orchestrator *)

Section PageFacts.

Context {W Request Body : Type}.
Variable s : BaseRepoSearcher W Request Body.

Lemma requests_app (l1 l2 : list (Event Body)) :
  requests (l1 ++ l2) = (requests l1 ++ requests l2)%list.
Proof.
  induction l1 as [|e l1 IH]; simpl; auto.
  destruct e; simpl; auto. now rewrite IH.
Qed.

Lemma recordsBefore_app p (l1 l2 : list (Event Body)) :
  recordsBefore p (l1 ++ l2) = (recordsBefore p l1 ++ recordsBefore p l2)%list.
Proof.
  induction l1 as [|e l1 IH]; simpl; auto.
  destruct e as [| | | |q repos tc hasMore [err|]| |]; simpl; auto.
  destruct (q <? p); auto. now rewrite IH, app_assoc.
Qed.


Lemma requests_attempts p (ftr : list (FetchEvent Body)) :
  requests (map (EvAttempt p) ftr) = [].
Proof. induction ftr; simpl; auto. Qed.

Lemma recordsBefore_attempts q p (ftr : list (FetchEvent Body)) :
  recordsBefore q (map (EvAttempt p) ftr) = [].
Proof. induction ftr; simpl; auto. Qed.


Lemma requests_fetched page url (ftr : list (FetchEvent Body)) body err :
  requests (fetched page url ftr body err) = [page].
Proof.
  unfold fetched. simpl. now rewrite requests_app, requests_attempts.
Qed.

Lemma recordsBefore_fetched q page url (ftr : list (FetchEvent Body)) body err :
  recordsBefore q (fetched page url ftr body err) = [].
Proof.
  unfold fetched. simpl. now rewrite recordsBefore_app, recordsBefore_attempts.
Qed.


Lemma in_fetched e page url (ftr : list (FetchEvent Body)) body err :
  In e (fetched page url ftr body err) ->
  e = EvBuildURL page url None \/ e = EvFetch page url
  \/ (exists fe, e = EvAttempt page fe) \/ e = EvFetched page body err.
Proof.
  unfold fetched. simpl. rewrite in_app_iff, in_map_iff. simpl.
  intros [H|[H|[(fe & H & _)|[H|[]]]]]; subst; eauto.
Qed.

Lemma fetched_last page url (ftr : list (FetchEvent Body)) body err :
  fetched page url ftr body err
  = ((EvBuildURL page url None :: EvFetch page url :: map (EvAttempt page) ftr)
     ++ [EvFetched page body err])%list.
Proof. reflexivity. Qed.


Opaque fetched.

Ltac in_events H :=
  repeat match type of H with
         | In _ (fetched _ _ _ _ _) =>
           apply in_fetched in H; destruct H as [H|[H|[[? H]|H]]]
         | In _ (_ ++ _) => apply in_app_or in H; destruct H as [H|H]
         | In _ (_ :: _) => apply in_inv in H; destruct H as [H|H]
         | In _ [] => destruct H
         | In _ (if ?b then _ else _) => destruct b
         end.

(** The events of the loop are for the pages from [page] on. *)
Lemma pages_from query maxPages n page allRepos totalCount res t t'
    (tr : list (Event Body)) :
  Pages s query maxPages n page allRepos totalCount res t t' tr ->
  forall e, In e tr -> page <= pageOf e.
Proof.
  induction 1; intros ev Hin; in_events Hin; subst; simpl; try lia;
    match goal with
    | IH : forall e, In e ?tr -> _, H : In _ ?tr |- _ => apply IH in H; lia
    end.
Qed.

(** The requests are for consecutive pages, one for each, at most [n]. *)
Lemma requests_shape query maxPages n page allRepos totalCount res t t'
    (tr : list (Event Body)) :
  Pages s query maxPages n page allRepos totalCount res t t' tr ->
  requests tr = pagesFrom page (List.length (requests tr))
  /\ (List.length (requests tr) <= n)%nat.
Proof.
  induction 1; simpl; try (split; [reflexivity|lia]);
    rewrite ?requests_app, ?requests_fetched; try destruct (page <? maxPages);
    simpl; try (split; [reflexivity|lia]);
    destruct IHPages as [Heq Hlen]; (split; [now rewrite <- Heq|lia]).
Qed.

(** An iteration whose URL is built issues its request. *)
Lemma request_made query maxPages n page allRepos totalCount res t t'
    (tr : list (Event Body)) :
  Pages s query maxPages (S n) page allRepos totalCount res t t' tr ->
  (forall url e, ~ In (EvBuildURL page url (Some e)) tr) ->
  (1 <= List.length (requests tr))%nat.
Proof.
  inversion 1; subst; intros Hno;
    rewrite ?requests_app, ?requests_fetched, ?length_app; simpl; try lia.
  exfalso. eapply Hno. simpl. eauto.
Qed.

(** A URL that cannot be built ends the run with an error, on any page. *)
Lemma build_failure query maxPages n page allRepos totalCount res t t'
    (tr : list (Event Body)) :
  Pages s query maxPages n page allRepos totalCount res t t' tr ->
  forall p url e, In (EvBuildURL p url (Some e)) tr ->
    res = (None, Some (Errorf_w ("failed to build URL for page " ++ itoa p ++ ": ")
                                (Some e))).
Proof.
  induction 1; intros p u e' Hin; in_events Hin; try discriminate; eauto.
  now inversion Hin; subst.
Qed.

(** After a page without more, without records or without a parse, no
    event of a later page. *)
Lemma stops_after query maxPages n page allRepos totalCount res t t'
    (tr : list (Event Body)) :
  Pages s query maxPages n page allRepos totalCount res t t' tr ->
  forall k repos tc hasMore err,
    In (EvParse k repos tc hasMore err) tr ->
    hasMore = false \/ repos = [] \/ err <> None ->
    forall e, In e tr -> pageOf e <= k.
Proof.
  induction 1 as
      [ | | | n page allRepos totalCount url res t t1 t' ftr tr HF HP IH
        | | | n page allRepos totalCount url b repos tc res t t1 t' ftr tr HF Hne HP IH ];
    intros k repos' tc' hm err Hin Hstop ev Hev;
    in_events Hin; try discriminate;
    try (inversion Hin; subst; clear Hin).
  - pose proof (pages_from _ _ _ _ _ _ _ _ _ _ HP _ Hin) as Hk. simpl in Hk.
    in_events Hev; subst; simpl; try lia. eapply IH; eauto.
  - in_events Hev; subst; simpl; lia.
  - in_events Hev; subst; simpl; lia.
  - destruct Hstop as [?|[?|?]]; congruence.
  - pose proof (pages_from _ _ _ _ _ _ _ _ _ _ HP _ Hin) as Hk. simpl in Hk.
    in_events Hev; subst; simpl; try lia; eapply IH; eauto.
Qed.

(** The total of the result is the one the loop was entered with, past
    page 1. *)
Lemma total_kept query maxPages n page allRepos totalCount res t t'
    (tr : list (Event Body)) :
  Pages s query maxPages n page allRepos totalCount res t t' tr ->
  1 < page ->
  forall r, fst res = Some r -> TotalCount r = totalCount.
Proof.
  induction 1; intros Hp r Hr;
    try (assert (E1 : (page =? 1) = false) by (apply Z.eqb_neq; lia);
         rewrite E1 in * );
    simpl in Hr; try discriminate;
    try (inversion Hr; subst; reflexivity);
    apply IHPages; auto; lia.
Qed.

(** The total of the result is the one parsed on page 1. *)
Lemma first_total query maxPages n page allRepos totalCount res t t'
    (tr : list (Event Body)) :
  Pages s query maxPages n page allRepos totalCount res t t' tr ->
  forall repos tc hasMore,
    In (EvParse 1 repos tc hasMore None) tr ->
    forall r, fst res = Some r -> TotalCount r = tc.
Proof.
  induction 1 as
      [ | | | n page allRepos totalCount url res t t1 t' ftr tr HF HP IH
        | | | n page allRepos totalCount url b repos tc res t t1 t' ftr tr HF Hne HP IH ];
    intros repos' tc' hm Hin r Hr;
    in_events Hin; try discriminate; eauto.
  - inversion Hin; subst. simpl in Hr. now inversion Hr.
  - inversion Hin; subst. simpl in HP.
    eapply (total_kept _ _ _ _ _ _ _ _ _ _ HP); auto. lia.
Qed.

(** Without a parsed first page, the loop returns what it was entered with. *)
Lemma nothing_parsed query maxPages n page allRepos totalCount res t t'
    (tr : list (Event Body)) :
  Pages s query maxPages n page allRepos totalCount res t t' tr ->
  (forall repos tc hasMore, ~ In (EvParse page repos tc hasMore None) tr) ->
  forall r, fst res = Some r -> TotalCount r = totalCount /\ Items r = allRepos.
Proof.
  intros HP Hno r Hr. destruct HP; simpl in Hr; try discriminate.
  - inversion Hr; subst. auto.
  - destruct (page =? 1); simpl in Hr; try discriminate.
    inversion Hr; subst. auto.
  - exfalso. eapply fetch_not_nil; eauto.
  - inversion Hr; subst. auto.
  - exfalso. eapply Hno. apply in_or_app. right. simpl. eauto.
  - exfalso. eapply Hno. apply in_or_app. right. simpl. eauto.
Qed.


(** A fetch that fails ends the loop: with an error on page 1, with what
    was collected on the pages before on any other page. *)
Lemma fetch_failure query maxPages n page allRepos totalCount res t t'
    (tr : list (Event Body)) :
  Pages s query maxPages n page allRepos totalCount res t t' tr ->
  forall p body e, In (EvFetched p body (Some e)) tr ->
    (exists tr0, tr = (tr0 ++ [EvFetched p body (Some e)])%list)
    /\ (p = 1 ->
        res = (None, Some (Errorf_w "failed to fetch first page: " (Some e))))
    /\ (p <> 1 ->
        exists r, res = (Some r, None)
                  /\ Items r = (allRepos ++ recordsBefore p tr)%list).
Proof.
  induction 1 as
      [ | | | n page allRepos totalCount url res t t1 t' ftr tr HF HP IH
        | | | n page allRepos totalCount url b repos tc res t t1 t' ftr tr HF Hne HP IH ];
    intros p body' e' Hin; in_events Hin; try discriminate.
  - inversion Hin; subst. split; [|split].
    + rewrite fetched_last. eauto.
    + intros ->. reflexivity.
    + intros Hp. apply Z.eqb_neq in Hp. rewrite Hp. eexists. split; [reflexivity|].
      simpl. now rewrite recordsBefore_fetched, app_nil_r.
  - pose proof (pages_from _ _ _ _ _ _ _ _ _ _ HP _ Hin) as Hk. simpl in Hk.
    destruct (IH _ _ _ Hin) as ((tr0 & ->) & H1 & Hn). split; [|split]; auto.
    + exists (fetched page url ftr None None ++ tr0)%list. now rewrite app_assoc.
    + intros Hp. destruct (Hn Hp) as (r & -> & Hi). exists r. split; auto.
      now rewrite recordsBefore_app, recordsBefore_fetched.
  - pose proof (pages_from _ _ _ _ _ _ _ _ _ _ HP _ Hin) as Hk. simpl in Hk.
    destruct (IH _ _ _ Hin) as ((tr0 & ->) & H1 & Hn). split; [|split]; auto.
    + eexists. rewrite !app_assoc. reflexivity.
    + intros Hp. destruct (Hn Hp) as (r & -> & Hi). exists r. split; auto.
      rewrite Hi, !recordsBefore_app, recordsBefore_fetched. simpl.
      assert (E : (page <? p) = true) by (apply Z.ltb_lt; lia). rewrite E.
      destruct (page <? maxPages); simpl;
        rewrite ?app_nil_r, <- ?app_assoc; reflexivity.
Qed.

(** A page that cannot be parsed ends the loop with what was collected on
    the pages before; every page up to it was requested once. *)
Lemma parse_failure query maxPages n page allRepos totalCount res t t'
    (tr : list (Event Body)) :
  Pages s query maxPages n page allRepos totalCount res t t' tr ->
  forall p repos tc hasMore e, In (EvParse p repos tc hasMore (Some e)) tr ->
    (exists r, res = (Some r, None)
               /\ Items r = (allRepos ++ recordsBefore p tr)%list)
    /\ requests tr = pagesFrom page (Z.to_nat (p - page + 1)).
Proof.
  induction 1 as
      [ | | | n page allRepos totalCount url res t t1 t' ftr tr HF HP IH
        | | | n page allRepos totalCount url b repos tc res t t1 t' ftr tr HF Hne HP IH ];
    intros p repos' tc' hm e' Hin; in_events Hin; try discriminate.
  - pose proof (pages_from _ _ _ _ _ _ _ _ _ _ HP _ Hin) as Hk. simpl in Hk.
    destruct (IH _ _ _ _ _ Hin) as ((r & -> & Hi) & Hr). split.
    + exists r. split; auto.
      now rewrite recordsBefore_app, recordsBefore_fetched.
    + rewrite requests_app, requests_fetched, Hr.
      replace (Z.to_nat (p - page + 1)) with (S (Z.to_nat (p - (page + 1) + 1)))
        by lia.
      reflexivity.
  - inversion Hin; subst. split.
    + eexists. split; [reflexivity|]. simpl.
      now rewrite recordsBefore_app, recordsBefore_fetched, app_nil_r.
    + rewrite requests_app, requests_fetched.
      replace (p - p + 1) with 1 by lia. reflexivity.
  - pose proof (pages_from _ _ _ _ _ _ _ _ _ _ HP _ Hin) as Hk. simpl in Hk.
    destruct (IH _ _ _ _ _ Hin) as ((r & -> & Hi) & Hr). split.
    + exists r. split; auto.
      rewrite Hi, !recordsBefore_app, recordsBefore_fetched. simpl.
      assert (E : (page <? p) = true) by (apply Z.ltb_lt; lia). rewrite E.
      destruct (page <? maxPages); simpl;
        rewrite ?app_nil_r, <- ?app_assoc; reflexivity.
    + rewrite !requests_app, requests_fetched, Hr.
      replace (Z.to_nat (p - page + 1)) with (S (Z.to_nat (p - (page + 1) + 1)))
        by lia.
      destruct (page <? maxPages); reflexivity.
Qed.

End PageFacts.

(** ** The runs of [Search] *)

Section SearchRuns.

Context {W Request Body : Type}.
Variable os : Platform W Request Body.
Variable s : BaseRepoSearcher W Request Body.

(** [Search] refuses its arguments before any event, or runs the page loop
    from page 1 with nothing collected. *)
Lemma Search_shape (ctx : Context) (query : string) (maxPages : Z) (st : State W) :
  let run := Search os s ctx query maxPages st in
  (events run = [] /\ fst (result run) = None /\ final run = st
   /\ (query = "" \/ maxPages <= 0))
  \/ (query <> "" /\ 0 < maxPages
      /\ Pages s query maxPages (Z.to_nat maxPages) 1 [] 0 (result run)
               (clock st) (clock (final run)) (events run)).
Proof.
  unfold Search. destruct (query =? "")%string eqn:Eq.
  { left. apply String.eqb_eq in Eq. cbv [ret result events final fst snd]. auto. }
  apply String.eqb_neq in Eq.
  destruct (maxPages <=? 0) eqn:Em.
  { left. apply Z.leb_le in Em. cbv [ret result events final fst snd]. auto. }
  apply Z.leb_gt in Em. right. repeat split; auto.
  apply searchLoop_shape.
Qed.

End SearchRuns.

(** ** The claims *)

(** C1: when the fetch of page 1 fails, [Search] returns a nil result and the
    error "failed to fetch first page" wrapping the fetch error; when the
    fetch of a page [p >= 2] fails, the loop stops there (the failed fetch is
    the last event) and [Search] returns, with a nil error, the records
    parsed on the pages before [p]. *)
Theorem search_fetch_failure {W Request Body : Type}
    (os : Platform W Request Body) (s : BaseRepoSearcher W Request Body)
    (ctx : Context) (query : string) (maxPages : Z) (st : State W) :
  let run := Search os s ctx query maxPages st in
  forall p body e,
    In (EvFetched p body (Some e)) (events run) ->
    (exists tr0, events run = (tr0 ++ [EvFetched p body (Some e)])%list)
    /\ (p = 1 ->
        result run
        = (None, Some (Errorf_w "failed to fetch first page: " (Some e))))
    /\ (2 <= p ->
        exists r, result run = (Some r, None)
                  /\ Items r = recordsBefore p (events run)).
Proof.
  intros run p body e Hin.
  destruct (Search_shape os s ctx query maxPages st) as [(E & _)|(_ & _ & HP)];
    fold run in E || fold run in HP.
  { rewrite E in Hin. destruct Hin. }
  destruct (fetch_failure s _ _ _ _ _ _ _ _ _ _ HP _ _ _ Hin) as (H0 & H1 & Hn).
  repeat split; auto.
  intros Hp. destruct Hn as (r & Hr & Hi); [lia|]. eauto.
Qed.

(** C3, as the code has it: a URL that cannot be built ends the run with a
    nil result and the error "failed to build URL for page p" wrapping the
    adapter's error, on page 1 and on every later page alike. *)
Theorem search_build_failure {W Request Body : Type}
    (os : Platform W Request Body) (s : BaseRepoSearcher W Request Body)
    (ctx : Context) (query : string) (maxPages : Z) (st : State W) :
  let run := Search os s ctx query maxPages st in
  forall p url e,
    In (EvBuildURL p url (Some e)) (events run) ->
    result run
    = (None, Some (Errorf_w ("failed to build URL for page " ++ itoa p ++ ": ")
                            (Some e))).
Proof.
  intros run p url e Hin.
  destruct (Search_shape os s ctx query maxPages st) as [(E & _)|(_ & _ & HP)];
    fold run in E || fold run in HP.
  { rewrite E in Hin. destruct Hin. }
  exact (build_failure s _ _ _ _ _ _ _ _ _ _ HP _ _ _ Hin).
Qed.

(** C4: when the parse of a page [p] fails, page 1 included, [Search]
    returns, with a nil error, the records parsed on the pages before [p]
    (none for page 1); the pages 1 to [p] were requested once each, and
    there is no event of a later page. *)
Theorem search_parse_failure {W Request Body : Type}
    (os : Platform W Request Body) (s : BaseRepoSearcher W Request Body)
    (ctx : Context) (query : string) (maxPages : Z) (st : State W) :
  let run := Search os s ctx query maxPages st in
  forall p repos tc hasMore e,
    In (EvParse p repos tc hasMore (Some e)) (events run) ->
    (exists r, result run = (Some r, None)
               /\ Items r = recordsBefore p (events run))
    /\ requests (events run) = pagesFrom 1 (Z.to_nat p)
    /\ (forall ev, In ev (events run) -> pageOf ev <= p).
Proof.
  intros run p repos tc hasMore e Hin.
  destruct (Search_shape os s ctx query maxPages st) as [(E & _)|(_ & _ & HP)];
    fold run in E || fold run in HP.
  { rewrite E in Hin. destruct Hin. }
  destruct (parse_failure s _ _ _ _ _ _ _ _ _ _ HP _ _ _ _ _ Hin) as (Hr & Hq).
  split; [exact Hr|]. split.
  - rewrite Hq. f_equal. lia.
  - eapply stops_after; eauto. right. right. discriminate.
Qed.

(** C5: for [maxPages >= 1], the requests of a search are for the pages 1,
    2, ..., one each and at most [maxPages] of them; there is at least one
    when the query is not empty and the URL of page 1 is built; and after a
    page [k] parsed with [hasMore = false] or with no record, no request for
    page [k + 1] is issued. *)
Theorem search_requests {W Request Body : Type}
    (os : Platform W Request Body) (s : BaseRepoSearcher W Request Body)
    (ctx : Context) (query : string) (maxPages : Z) (st : State W) :
  1 <= maxPages ->
  let run := Search os s ctx query maxPages st in
  requests (events run) = pagesFrom 1 (List.length (requests (events run)))
  /\ Z.of_nat (List.length (requests (events run))) <= maxPages
  /\ (query <> "" ->
      (forall url e, ~ In (EvBuildURL 1 url (Some e)) (events run)) ->
      1 <= Z.of_nat (List.length (requests (events run))))
  /\ (forall k repos tc hasMore err,
         In (EvParse k repos tc hasMore err) (events run) ->
         hasMore = false \/ repos = [] ->
         forall url, ~ In (EvFetch (k + 1) url) (events run)).
Proof.
  intros Hmax run.
  destruct (Search_shape os s ctx query maxPages st)
    as [(E & _ & _ & Hq)|(Hq & _ & HP)]; fold run in E || fold run in HP.
  { rewrite E. simpl. split; [reflexivity|]. split; [lia|]. split.
    - intros Hne. destruct Hq; [contradiction|lia].
    - intros ? ? ? ? ? []. }
  destruct (requests_shape s _ _ _ _ _ _ _ _ _ _ HP) as [Hs Hl].
  split; [exact Hs|]. split; [lia|]. split.
  - intros _ Hno.
    assert (Hn : Z.to_nat maxPages = S (Z.to_nat (maxPages - 1))) by lia.
    rewrite Hn in HP.
    pose proof (request_made s _ _ _ _ _ _ _ _ _ _ HP Hno). lia.
  - intros k repos tc hasMore err Hin Hstop url Hf.
    assert (Hk : pageOf (@EvFetch Body (k + 1) url) <= k).
    { eapply stops_after; eauto. tauto. }
    simpl in Hk. lia.
Qed.

(** C7: the [TotalCount] of a result is the total that the parse of page 1
    returned, whatever the later pages return. *)
Theorem search_total_count {W Request Body : Type}
    (os : Platform W Request Body) (s : BaseRepoSearcher W Request Body)
    (ctx : Context) (query : string) (maxPages : Z) (st : State W) :
  let run := Search os s ctx query maxPages st in
  forall repos tc hasMore,
    In (EvParse 1 repos tc hasMore None) (events run) ->
    forall r, fst (result run) = Some r -> TotalCount r = tc.
Proof.
  intros run repos tc hasMore Hin r Hr.
  destruct (Search_shape os s ctx query maxPages st) as [(E & _)|(_ & _ & HP)];
    fold run in E || fold run in HP.
  { rewrite E in Hin. destruct Hin. }
  exact (first_total s _ _ _ _ _ _ _ _ _ _ HP _ _ _ Hin _ Hr).
Qed.

(** C10: a search that returns a result while page 1 was not parsed returns
    it with [TotalCount = 0] and no item. *)
Theorem search_unparsed_first_page {W Request Body : Type}
    (os : Platform W Request Body) (s : BaseRepoSearcher W Request Body)
    (ctx : Context) (query : string) (maxPages : Z) (st : State W) :
  let run := Search os s ctx query maxPages st in
  forall r,
    fst (result run) = Some r ->
    (forall repos tc hasMore, ~ In (EvParse 1 repos tc hasMore None) (events run)) ->
    TotalCount r = 0 /\ Items r = [].
Proof.
  intros run r Hr Hno.
  destruct (Search_shape os s ctx query maxPages st)
    as [(_ & E & _)|(_ & _ & HP)]; fold run in E || fold run in HP.
  { rewrite E in Hr. discriminate. }
  exact (nothing_parsed s _ _ _ _ _ _ _ _ _ _ HP Hno _ Hr).
Qed.

(** C2, as the code has it: the outcome of every HTTP attempt falls in one
    of three classes.  Status 200, and no other 2xx status, is a success: the
    body is returned and no attempt follows.  Statuses 401, 403 and 404 are
    fatal: the status error is returned at once, no attempt and no sleep
    follows.  Every other status and every transport failure is retryable:
    the backoff sleep follows, and then the next attempt while attempts are
    left (unless its request cannot be created). *)
Theorem fetch_classification {W Request Body : Type}
    (os : Platform W Request Body) (s : BaseRepoSearcher W Request Body)
    (ctx : Context) (url : string) (st : State W) :
  let run := fetchWithRetries os s ctx url st in
  forall j r,
    In (j, r) (attempts (events run)) ->
    match classify r with
    | Success =>
      (exists resp, r = inl resp /\ result run = (Some (RespBody resp), None))
      /\ lastAttempt j (events run)
    | Fatal =>
      (exists resp text,
          r = inl resp
          /\ result run = (None, Some (statusError (StatusCode resp) text)))
      /\ lastAttempt j (events run)
      /\ Z.of_nat (List.length (sleeps (events run))) = j
    | Retryable =>
      j < Z.of_nat (List.length (sleeps (events run)))
      /\ (j + 1 < MaxRetries s ->
          (exists r', In (j + 1, r') (attempts (events run)))
          \/ (exists e, result run
                        = (None, Some (Errorf_w "failed to create request: "
                                                (Some e)))))
    end.
Proof.
  intros run j r Hin.
  pose proof (fetchWithRetries_shape os s ctx url st) as HF. fold run in HF.
  pose proof (attempt_classes s _ _ _ _ _ _ _ _ _ HF _ _ Hin) as HC.
  destruct (classify r).
  - destruct HC as (Hr & Hl & _). auto.
  - destruct HC as ((resp & text & -> & _ & Hr) & Hl & Hs).
    split; [eauto|]. split; [auto|lia].
  - destruct HC as (Hs & Hn). split; [lia|].
    intros Hm. apply Hn. lia.
Qed.



(** C9, as the code has it: the URL an adapter builds is a function of the
    adapter's fields, of the three arguments and, for GitCode, of the value
    of the environment variable GITCODE_LANG when the call is made. *)
Theorem buildSearchURL_deterministic (env1 env2 : Adapters.Environ)
    (g : Adapters.Searcher) (query : string) (page perPage : Z) :
  (Adapters.provider g = Adapters.GitCode ->
   env1 "GITCODE_LANG" = env2 "GITCODE_LANG") ->
  Adapters.buildSearchURL env1 g query page perPage
  = Adapters.buildSearchURL env2 g query page perPage.
Proof.
  intros H. unfold Adapters.buildSearchURL.
  destruct (Adapters.provider g); try reflexivity.
  unfold Adapters.GitCode_buildSearchURL. now rewrite H.
Qed.

(** ** The claims on concrete runs *)

Ltac find_event :=
  vm_compute; repeat (first [left; reflexivity | right]).

Ltac no_event :=
  let H := fresh "H" in
  intros H; vm_compute in H;
  repeat (destruct H as [H|H]; [discriminate H|]); destruct H.

(** A search of three pages whose second page meets a server that answers
    500 three times: the failed fetch of page 2 is in the run, and the
    result holds the two records of page 1, without error. *)
Lemma search_fetch_failure_witness :
  In (EvFetched 2 None (Some Scripted.serverError))
     (events (Scripted.run [] Scripted.background 3 Scripted.laterPageDown))
  /\ exists r,
      result (Scripted.run [] Scripted.background 3 Scripted.laterPageDown)
      = (Some r, None)
      /\ Items r = Scripted.repos "a" 2.
Proof.
  assert (Hin : In (EvFetched 2 None (Some Scripted.serverError))
                   (events (Scripted.run [] Scripted.background 3
                                         Scripted.laterPageDown)))
    by find_event.
  split; [exact Hin|].
  destruct (search_fetch_failure Scripted.os (Scripted.searcher [])
              Scripted.background "raft" 3
              (Scripted.start Scripted.laterPageDown) 2 None
              Scripted.serverError Hin) as (_ & _ & Hn).
  destruct (Hn ltac:(lia)) as (r & Hr & Hi).
  exists r. split; [exact Hr|]. rewrite Hi. reflexivity.
Defined.

(** A provider that answers 204 No Content: the specification's classes make
    it a success, the code sleeps and tries again (three attempts in all) and
    returns no body. *)
Lemma fetch_204_counterexample :
  In (0, Scripted.page 204 (Scripted.repos "a" 2) 60 true)
     (attempts (events (Scripted.fetch Scripted.background Scripted.noContent)))
  /\ classifySpec (Scripted.page 204 (Scripted.repos "a" 2) 60 true) = Success
  /\ fst (result (Scripted.fetch Scripted.background Scripted.noContent)) = None
  /\ List.length (attempts (events (Scripted.fetch Scripted.background
                                                   Scripted.noContent))) = 3%nat
  /\ sleeps (events (Scripted.fetch Scripted.background Scripted.noContent))
     = [1 * Second; 2 * Second; 4 * Second].
Proof. repeat split; try reflexivity. find_event. Qed.

(** A provider that answers 403: the status error is returned at once,
    attempt 0 is the last one and nothing is slept. *)
Lemma fetch_classification_witness :
  In (0, Scripted.page 403 [] 0 false)
     (attempts (events (Scripted.fetch Scripted.background Scripted.forbidden)))
  /\ ((exists resp text,
          Scripted.page 403 [] 0 false = inl resp
          /\ result (Scripted.fetch Scripted.background Scripted.forbidden)
             = (None, Some (statusError (StatusCode resp) text)))
      /\ lastAttempt 0 (events (Scripted.fetch Scripted.background
                                               Scripted.forbidden))
      /\ Z.of_nat (List.length
                     (sleeps (events (Scripted.fetch Scripted.background
                                                     Scripted.forbidden)))) = 0).
Proof.
  assert (Hin : In (0, Scripted.page 403 [] 0 false)
                   (attempts (events (Scripted.fetch Scripted.background
                                                     Scripted.forbidden))))
    by find_event.
  split; [exact Hin|].
  exact (fetch_classification Scripted.os (Scripted.searcher [])
           Scripted.background "https://example.test/search"
           (Scripted.start Scripted.forbidden) 0 _ Hin).
Defined.

(** An adapter that cannot build the URL of page 2, after a first page of
    two records with more to come: the run fails outright, the two records
    are not returned. *)
Lemma search_build_failure_counterexample :
  In (EvBuildURL 2 "" (Some Scripted.urlError))
     (events (Scripted.run [2] Scripted.background 3 Scripted.twoPages))
  /\ 2 <= 2
  /\ recordsBefore 2 (events (Scripted.run [2] Scripted.background 3
                                           Scripted.twoPages))
     = Scripted.repos "a" 2
  /\ fst (result (Scripted.run [2] Scripted.background 3 Scripted.twoPages)) = None
  /\ snd (result (Scripted.run [2] Scripted.background 3 Scripted.twoPages))
     = Some (Errorf_w "failed to build URL for page 2: " (Some Scripted.urlError)).
Proof. repeat split; try reflexivity; try lia. find_event. Qed.

Lemma search_build_failure_witness :
  In (EvBuildURL 2 "" (Some Scripted.urlError))
     (events (Scripted.run [2] Scripted.background 3 Scripted.twoPages))
  /\ result (Scripted.run [2] Scripted.background 3 Scripted.twoPages)
     = (None, Some (Errorf_w ("failed to build URL for page " ++ itoa 2 ++ ": ")
                             (Some Scripted.urlError))).
Proof.
  assert (Hin : In (EvBuildURL 2 "" (Some Scripted.urlError))
                   (events (Scripted.run [2] Scripted.background 3
                                         Scripted.twoPages)))
    by find_event.
  split; [exact Hin|].
  exact (search_build_failure Scripted.os (Scripted.searcher [2])
           Scripted.background "raft" 3 (Scripted.start Scripted.twoPages)
           2 "" Scripted.urlError Hin).
Defined.

(** A first page that does not decode: an empty result and no error, one
    request. *)
Lemma search_parse_failure_witness :
  In (EvParse 1 [] 0 false (Some Scripted.unmarshalError))
     (events (Scripted.run [] Scripted.background 3 Scripted.garbledFirst))
  /\ (exists r,
         result (Scripted.run [] Scripted.background 3 Scripted.garbledFirst)
         = (Some r, None)
         /\ Items r = [])
  /\ requests (events (Scripted.run [] Scripted.background 3 Scripted.garbledFirst))
     = [1].
Proof.
  assert (Hin : In (EvParse 1 [] 0 false (Some Scripted.unmarshalError))
                   (events (Scripted.run [] Scripted.background 3
                                         Scripted.garbledFirst)))
    by find_event.
  split; [exact Hin|].
  destruct (search_parse_failure Scripted.os (Scripted.searcher [])
              Scripted.background "raft" 3
              (Scripted.start Scripted.garbledFirst) 1 [] 0 false
              Scripted.unmarshalError Hin) as ((r & Hr & Hi) & Hq & _).
  split; [|exact Hq].
  exists r. split; [exact Hr|]. rewrite Hi. reflexivity.
Defined.

(** Five pages allowed, the provider ends on page 2: two requests, none for
    page 3. *)
Lemma search_requests_witness :
  1 <= 5
  /\ requests (events (Scripted.run [] Scripted.background 5 Scripted.twoPages))
     = [1; 2]
  /\ (forall url,
         ~ In (EvFetch (2 + 1) url)
              (events (Scripted.run [] Scripted.background 5 Scripted.twoPages))).
Proof.
  assert (H5 : 1 <= 5) by lia.
  destruct (search_requests Scripted.os (Scripted.searcher [])
              Scripted.background "raft" 5 (Scripted.start Scripted.twoPages) H5)
    as (Hq & _ & _ & Hstop).
  split; [exact H5|]. split; [exact Hq|].
  intros url.
  apply (Hstop 2 (Scripted.repos "b" 1) 61 false None); [find_event|now left].
Defined.


(** Two pages whose totals are 60 and 61: the result says 60. *)
Lemma search_total_count_witness :
  In (EvParse 1 (Scripted.repos "a" 2) 60 true None)
     (events (Scripted.run [] Scripted.background 2 Scripted.twoPages))
  /\ In (EvParse 2 (Scripted.repos "b" 1) 61 false None)
        (events (Scripted.run [] Scripted.background 2 Scripted.twoPages))
  /\ exists r,
      fst (result (Scripted.run [] Scripted.background 2 Scripted.twoPages))
      = Some r
      /\ TotalCount r = 60.
Proof.
  assert (Hin : In (EvParse 1 (Scripted.repos "a" 2) 60 true None)
                   (events (Scripted.run [] Scripted.background 2
                                         Scripted.twoPages)))
    by find_event.
  split; [exact Hin|]. split; [find_event|].
  eexists. split; [reflexivity|].
  apply (search_total_count Scripted.os (Scripted.searcher [])
           Scripted.background "raft" 2 (Scripted.start Scripted.twoPages)
           _ _ _ Hin).
  reflexivity.
Defined.



(** The GitCode adapter, the same query, page and page size, in a process
    without GITCODE_LANG and in one where it is "Go": two URLs. *)
Lemma buildSearchURL_counterexample :
  Adapters.buildSearchURL Adapters.noEnv (Adapters.NewGitCodeSearcher "token")
                          "raft" 1 50
  = ("https://api.gitcode.com/api/v5/search/repositories?page=1&per_page=50&q=raft",
     None)
  /\ Adapters.buildSearchURL Adapters.goEnv (Adapters.NewGitCodeSearcher "token")
                             "raft" 1 50
     = ("https://api.gitcode.com/api/v5/search/repositories?language=Go&page=1&per_page=50&q=raft",
        None)
  /\ Adapters.buildSearchURL Adapters.noEnv (Adapters.NewGitCodeSearcher "token")
                             "raft" 1 50
     <> Adapters.buildSearchURL Adapters.goEnv (Adapters.NewGitCodeSearcher "token")
                                "raft" 1 50.
Proof.
  repeat split; try reflexivity.
  intros H. vm_compute in H. discriminate H.
Qed.

(** Two environments that agree on GITCODE_LANG and differ on HOME. *)
Lemma buildSearchURL_deterministic_witness :
  (Adapters.provider (Adapters.NewGitCodeSearcher "token") = Adapters.GitCode ->
   Adapters.goEnv "GITCODE_LANG" = Adapters.goHomeEnv "GITCODE_LANG")
  /\ Adapters.goEnv "HOME" <> Adapters.goHomeEnv "HOME"
  /\ Adapters.buildSearchURL Adapters.goEnv (Adapters.NewGitCodeSearcher "token")
                             "raft" 1 50
     = Adapters.buildSearchURL Adapters.goHomeEnv
                               (Adapters.NewGitCodeSearcher "token") "raft" 1 50.
Proof.
  assert (H : Adapters.provider (Adapters.NewGitCodeSearcher "token")
              = Adapters.GitCode ->
              Adapters.goEnv "GITCODE_LANG" = Adapters.goHomeEnv "GITCODE_LANG")
    by reflexivity.
  split; [exact H|]. split; [vm_compute; discriminate|].
  exact (buildSearchURL_deterministic Adapters.goEnv Adapters.goHomeEnv
           (Adapters.NewGitCodeSearcher "token") "raft" 1 50 H).
Defined.

(** A first page that does not decode: the result has total 0 and no item. *)
Lemma search_unparsed_first_page_witness :
  (forall repos tc hasMore,
      ~ In (EvParse 1 repos tc hasMore None)
           (events (Scripted.run [] Scripted.background 3 Scripted.garbledFirst)))
  /\ exists r,
      fst (result (Scripted.run [] Scripted.background 3 Scripted.garbledFirst))
      = Some r
      /\ TotalCount r = 0 /\ Items r = [].
Proof.
  assert (Hno : forall repos tc hasMore,
             ~ In (EvParse 1 repos tc hasMore None)
                  (events (Scripted.run [] Scripted.background 3
                                        Scripted.garbledFirst)))
    by (intros repos tc hasMore; no_event).
  split; [exact Hno|].
  eexists. split; [reflexivity|].
  apply (search_unparsed_first_page Scripted.os (Scripted.searcher [])
           Scripted.background "raft" 3 (Scripted.start Scripted.garbledFirst));
    [reflexivity|exact Hno].
Defined.

(** * More of the Retrying Fetcher *)

Section FetchLedger.

Context {W Request Body : Type}.
Variable s : BaseRepoSearcher W Request Body.

Lemma attempts_exclusive url n i delay lastErr res t t' (tr : list (FetchEvent Body)) :
  Attempts s url n i delay lastErr res t t' tr ->
  (exists b, res = (Some b, None)) \/ (exists e, res = (None, Some e)).
Proof. induction 1; eauto. Qed.

Lemma created_attempts url n i delay lastErr res t t' (tr : list (FetchEvent Body)) :
  Attempts s url n i delay lastErr res t t' tr ->
  created tr = List.length (attempts tr).
Proof. induction 1; simpl; auto. Qed.

Lemma closed_refused url n i delay lastErr res t t' (tr : list (FetchEvent Body)) :
  Attempts s url n i delay lastErr res t t' tr ->
  closed tr = refused (attempts tr) /\ drained tr = refused (attempts tr).
Proof.
  induction 1 as
      [ | | n i delay lastErr e res t t' tr HA IH
        | n i delay lastErr resp t H200
        | n i delay lastErr resp text t H200 Hf
        | n i delay lastErr resp text res t t' tr H200 Hf HA IH ];
    simpl; auto.
  - apply Z.eqb_eq in H200. now rewrite H200.
  - apply Z.eqb_neq in H200. now rewrite H200.
  - apply Z.eqb_neq in H200. rewrite H200. destruct IH as [-> ->]. auto.
Qed.

Lemma success_last url n i delay lastErr res t t' (tr : list (FetchEvent Body)) :
  Attempts s url n i delay lastErr res t t' tr ->
  forall b, res = (Some b, None) ->
    exists tr0 j resp,
      tr = (tr0 ++ [EvBuildRequest url None; EvDo j (inl resp)])%list
      /\ StatusCode resp = 200 /\ RespBody resp = b.
Proof.
  induction 1 as
      [ | | n i delay lastErr e res t t' tr HA IH
        | n i delay lastErr resp t H200
        | n i delay lastErr resp text t H200 Hf
        | n i delay lastErr resp text res t t' tr H200 Hf HA IH ];
    intros b Hb; try discriminate.
  - destruct (IH _ Hb) as (tr0 & j & resp & -> & H2 & H3).
    eexists (_ :: _ :: _ :: _ :: tr0), j, resp. simpl. auto.
  - inversion Hb; subst. exists [], i, resp. auto.
  - destruct (IH _ Hb) as (tr0 & j & resp' & -> & H2 & H3).
    eexists (_ :: _ :: _ :: _ :: _ :: _ :: tr0), j, resp'. simpl. auto.
Qed.

Lemma request_failure url n i delay lastErr res t t' (tr : list (FetchEvent Body)) :
  Attempts s url n i delay lastErr res t t' tr ->
  forall url' e, In (EvBuildRequest url' (Some e)) tr ->
    res = (None, Some (Errorf_w "failed to create request: " (Some e)))
    /\ exists tr0, tr = (tr0 ++ [EvBuildRequest url' (Some e)])%list.
Proof.
  induction 1 as
      [ | | n i delay lastErr e res t t' tr HA IH
        | n i delay lastErr resp t H200
        | n i delay lastErr resp text t H200 Hf
        | n i delay lastErr resp text res t t' tr H200 Hf HA IH ];
    intros url' e' Hin; simpl in Hin;
    repeat match type of Hin with
           | _ \/ _ => destruct Hin as [Hin|Hin]; try discriminate Hin
           | False => destruct Hin
           end.
  - inversion Hin; subst. split; auto. now exists [].
  - destruct (IH _ _ Hin) as (-> & tr0 & ->). split; auto.
    now eexists (_ :: _ :: _ :: _ :: tr0).
  - destruct (IH _ _ Hin) as (-> & tr0 & ->). split; auto.
    now eexists (_ :: _ :: _ :: _ :: _ :: _ :: tr0).
Qed.

Lemma sleeps_retryable url n i delay lastErr res t t' (tr : list (FetchEvent Body)) :
  Attempts s url n i delay lastErr res t t' tr ->
  List.length (sleeps tr)
  = List.length (filter (fun a => retryableb (snd a)) (attempts tr)).
Proof.
  induction 1 as
      [ | | n i delay lastErr e res t t' tr HA IH
        | n i delay lastErr resp t H200
        | n i delay lastErr resp text t H200 Hf
        | n i delay lastErr resp text res t t' tr H200 Hf HA IH ];
    simpl; auto; unfold retryableb.
  - now rewrite classify_ok.
  - now rewrite classify_fatal.
  - rewrite classify_status by assumption. simpl. now rewrite IH.
Qed.

(** The time a call takes when every attempt is made and is retryable. *)
Lemma exhausted_time url n i delay lastErr res t t' (tr : list (FetchEvent Body)) :
  Attempts s url n i delay lastErr res t t' tr ->
  Forall (fun a => classify (snd a) = Retryable) (attempts tr) ->
  List.length (attempts tr) = n ->
  0 <= delay -> delay * 2 ^ Z.of_nat n <= maxInt64 ->
  t' = t + delay * (2 ^ Z.of_nat n - 1).
Proof.
  assert (Hstep : forall delay n,
             0 <= delay -> delay * 2 ^ Z.of_nat (S n) <= maxInt64 ->
             wrap64 (delay * 2) = delay * 2
             /\ delay * 2 * 2 ^ Z.of_nat n <= maxInt64).
  { intros d k Hd Hr.
    assert (H2 : 0 < 2 ^ Z.of_nat k) by (apply Z.pow_pos_nonneg; lia).
    rewrite Nat2Z.inj_succ, Z.pow_succ_r in Hr by lia.
    split; [|lia]. apply wrap64_small. unfold minInt64, maxInt64 in *. nia. }
  induction 1 as
      [ | | n i delay lastErr e res t t' tr HA IH
        | n i delay lastErr resp t H200
        | n i delay lastErr resp text t H200 Hf
        | n i delay lastErr resp text res t t' tr H200 Hf HA IH ];
    intros Hall Hlen Hd Hr; simpl in Hall, Hlen; try discriminate.
  - change (2 ^ Z.of_nat 0) with 1. lia.
  - inversion Hall; subst. destruct (Hstep _ _ Hd Hr) as [Hw Hr'].
    rewrite Hw in IH. rewrite IH; auto; try lia.
    rewrite Nat2Z.inj_succ, Z.pow_succ_r by lia. lia.
  - inversion Hall as [|? ? Hc ?]; subst.
    pose proof (classify_ok _ H200) as Hk. simpl in Hk, Hc. congruence.
  - inversion Hall as [|? ? Hc ?]; subst.
    pose proof (classify_fatal _ H200 Hf) as Hk. simpl in Hk, Hc. congruence.
  - inversion Hall; subst. destruct (Hstep _ _ Hd Hr) as [Hw Hr'].
    rewrite Hw in IH. rewrite IH; auto; try lia.
    rewrite Nat2Z.inj_succ, Z.pow_succ_r by lia. lia.
Qed.

End FetchLedger.

(** ** Further properties of [fetchWithRetries] *)

(** X1: [fetchWithRetries] returns a body or an error, never both and never
    neither. *)
Theorem fetch_result_exclusive {W Request Body : Type}
    (os : Platform W Request Body) (s : BaseRepoSearcher W Request Body)
    (ctx : Context) (url : string) (st : State W) :
  let run := fetchWithRetries os s ctx url st in
  (exists b, result run = (Some b, None))
  \/ (exists e, result run = (None, Some e)).
Proof.
  intros run.
  pose proof (fetchWithRetries_shape os s ctx url st) as HF. fold run in HF.
  exact (attempts_exclusive s _ _ _ _ _ _ _ _ _ HF).
Qed.

(** X2: with [MaxRetries <= 0] the loop body never runs: no request is
    created, nothing is sent, no time passes, and the error returned reports
    that many attempts around a nil error, which [%w] prints as a bad
    verb. *)
Theorem fetch_no_retries {W Request Body : Type}
    (os : Platform W Request Body) (s : BaseRepoSearcher W Request Body)
    (ctx : Context) (url : string) (st : State W) :
  MaxRetries s <= 0 ->
  let run := fetchWithRetries os s ctx url st in
  events run = []
  /\ final run = st
  /\ result run
     = (None, Some (errorString ("failed to fetch URL after " ++ itoa (MaxRetries s)
                                 ++ " attempts: %!w(<nil>)"))).
Proof.
  intros Hm run. subst run. unfold fetchWithRetries.
  replace (Z.to_nat (MaxRetries s)) with 0%nat by lia.
  cbv [fetchLoop ret result events final fst snd].
  split; [reflexivity|]. split; [reflexivity|].
  unfold exhaustedError, Errorf_w. now rewrite !string_app_assoc.
Qed.

(** X3: a request that cannot be created ends the call at once, whatever the
    attempt: the failure is the last event, and the error returned is
    "failed to create request" wrapping the adapter's error; the attempts
    that are left are not used. *)
Theorem fetch_request_failure {W Request Body : Type}
    (os : Platform W Request Body) (s : BaseRepoSearcher W Request Body)
    (ctx : Context) (url : string) (st : State W) :
  let run := fetchWithRetries os s ctx url st in
  forall url' e,
    In (EvBuildRequest url' (Some e)) (events run) ->
    result run
    = (None, Some (wrapError ("failed to create request: " ++ Error e) e))
    /\ (exists tr0, events run = (tr0 ++ [EvBuildRequest url' (Some e)])%list).
Proof.
  intros run url' e Hin.
  pose proof (fetchWithRetries_shape os s ctx url st) as HF. fold run in HF.
  exact (request_failure s _ _ _ _ _ _ _ _ _ HF _ _ Hin).
Qed.

(** X4: a new request is created for every attempt: the requests created
    are as many as the attempts made. *)
Theorem fetch_requests_created {W Request Body : Type}
    (os : Platform W Request Body) (s : BaseRepoSearcher W Request Body)
    (ctx : Context) (url : string) (st : State W) :
  let run := fetchWithRetries os s ctx url st in
  created (events run) = List.length (attempts (events run))
  /\ Z.of_nat (created (events run)) <= Z.max 0 (MaxRetries s).
Proof.
  intros run.
  pose proof (fetchWithRetries_shape os s ctx url st) as HF. fold run in HF.
  pose proof (created_attempts s _ _ _ _ _ _ _ _ _ HF) as Hc.
  pose proof (attempts_bounded s _ _ _ _ _ _ _ _ _ HF) as Ha.
  split; [exact Hc|]. rewrite Hc. lia.
Qed.

(** X5: the bodies of the answers whose status is not 200 are read to the
    end and closed by the fetcher, once each and in the order of the
    attempts, the fatal ones included; the body of the 200 answer is neither
    read nor closed: the attempt that received it is the last event and its
    body is the one returned. *)
Theorem fetch_bodies {W Request Body : Type}
    (os : Platform W Request Body) (s : BaseRepoSearcher W Request Body)
    (ctx : Context) (url : string) (st : State W) :
  let run := fetchWithRetries os s ctx url st in
  closed (events run) = refused (attempts (events run))
  /\ drained (events run) = refused (attempts (events run))
  /\ (forall b, result run = (Some b, None) ->
      exists tr0 j resp,
        events run = (tr0 ++ [EvBuildRequest url None; EvDo j (inl resp)])%list
        /\ StatusCode resp = 200 /\ RespBody resp = b).
Proof.
  intros run.
  pose proof (fetchWithRetries_shape os s ctx url st) as HF. fold run in HF.
  destruct (closed_refused s _ _ _ _ _ _ _ _ _ HF) as [Hc Hd].
  split; [exact Hc|]. split; [exact Hd|].
  exact (success_last s _ _ _ _ _ _ _ _ _ HF).
Qed.

(** X6: the fetcher sleeps once after every retryable attempt, the last one
    included; when all [MaxRetries] attempts were made and were retryable,
    with a first delay that is not negative and doubled delays that fit in
    64 bits, the call has slept [RetryDelay * (2 ^ MaxRetries - 1)] in
    all. *)
Theorem fetch_sleeps {W Request Body : Type}
    (os : Platform W Request Body) (s : BaseRepoSearcher W Request Body)
    (ctx : Context) (url : string) (st : State W) :
  let run := fetchWithRetries os s ctx url st in
  List.length (sleeps (events run))
  = List.length (filter (fun a => retryableb (snd a)) (attempts (events run)))
  /\ (0 <= MaxRetries s -> 0 <= RetryDelay s ->
      RetryDelay s * 2 ^ MaxRetries s <= maxInt64 ->
      Forall (fun a => classify (snd a) = Retryable) (attempts (events run)) ->
      Z.of_nat (List.length (attempts (events run))) = MaxRetries s ->
      clock (final run) = clock st + RetryDelay s * (2 ^ MaxRetries s - 1)).
Proof.
  intros run.
  pose proof (fetchWithRetries_shape os s ctx url st) as HF. fold run in HF.
  split; [exact (sleeps_retryable s _ _ _ _ _ _ _ _ _ HF)|].
  intros Hm Hd Hr Hall Hlen.
  rewrite <- (Z2Nat.id (MaxRetries s)) by assumption.
  apply (exhausted_time s _ _ _ _ _ _ _ _ _ HF Hall); try lia.
  now rewrite Z2Nat.id.
Qed.

(** No retry allowed: nothing happens, and the error counts 0 attempts. *)
Lemma fetch_no_retries_witness :
  MaxRetries (Cases.withRetries 0 (Scripted.searcher [])) <= 0
  /\ events (Cases.fetchWith (Cases.withRetries 0 (Scripted.searcher []))
                             Scripted.twoPages) = []
  /\ result (Cases.fetchWith (Cases.withRetries 0 (Scripted.searcher []))
                             Scripted.twoPages)
     = (None, Some (errorString "failed to fetch URL after 0 attempts: %!w(<nil>)")).
Proof.
  assert (H0 : MaxRetries (Cases.withRetries 0 (Scripted.searcher [])) <= 0)
    by (vm_compute; discriminate).
  destruct (fetch_no_retries Scripted.os
              (Cases.withRetries 0 (Scripted.searcher [])) Scripted.background
              "https://example.test/search" (Scripted.start Scripted.twoPages) H0)
    as (He & _ & Hr).
  split; [exact H0|]. split; [exact He|exact Hr].
Defined.

(** An adapter without usable credentials: one event, no attempt. *)
Lemma fetch_request_failure_witness :
  In (EvBuildRequest "https://example.test/search"
                     (Some (errorString "invalid Bitbucket token format")))
     (events (Cases.fetchWith Cases.keylessSearcher Scripted.twoPages))
  /\ result (Cases.fetchWith Cases.keylessSearcher Scripted.twoPages)
     = (None,
        Some (wrapError "failed to create request: invalid Bitbucket token format"
                        (errorString "invalid Bitbucket token format"))).
Proof.
  assert (Hin : In (EvBuildRequest "https://example.test/search"
                      (Some (errorString "invalid Bitbucket token format")))
                   (events (Cases.fetchWith Cases.keylessSearcher Scripted.twoPages)))
    by find_event.
  split; [exact Hin|].
  exact (proj1 (fetch_request_failure Scripted.os Cases.keylessSearcher
                  Scripted.background "https://example.test/search"
                  (Scripted.start Scripted.twoPages) _ _ Hin)).
Defined.

(** A timeout, a 503 and then the page: one body drained and closed, and the
    page's body returned as it came. *)
Lemma fetch_bodies_witness :
  result (Cases.fetchWith (Scripted.searcher []) Cases.flaky)
  = (Some {| Scripted.text := "{}"; Scripted.records := Scripted.repos "a" 2;
             Scripted.total := 60; Scripted.more := true;
             Scripted.wellFormed := true |}, None)
  /\ List.length (closed (events (Cases.fetchWith (Scripted.searcher []) Cases.flaky)))
     = 1%nat
  /\ exists tr0 j resp,
      events (Cases.fetchWith (Scripted.searcher []) Cases.flaky)
      = (tr0 ++ [EvBuildRequest "https://example.test/search" None;
                 EvDo j (inl resp)])%list
      /\ StatusCode resp = 200.
Proof.
  assert (Hr : result (Cases.fetchWith (Scripted.searcher []) Cases.flaky)
               = (Some {| Scripted.text := "{}";
                          Scripted.records := Scripted.repos "a" 2;
                          Scripted.total := 60; Scripted.more := true;
                          Scripted.wellFormed := true |}, None))
    by reflexivity.
  destruct (fetch_bodies Scripted.os (Scripted.searcher []) Scripted.background
              "https://example.test/search" (Scripted.start Cases.flaky))
    as (Hc & _ & Hl).
  split; [exact Hr|]. split.
  - unfold Cases.fetchWith. rewrite Hc. reflexivity.
  - destruct (Hl _ Hr) as (tr0 & j & resp & He & Hs & _).
    exists tr0, j, resp. split; [exact He|exact Hs].
Defined.

(** No network and the defaults: 1 + 2 + 4 seconds slept. *)
Lemma fetch_sleeps_witness :
  0 <= MaxRetries (Scripted.searcher [])
  /\ 0 <= RetryDelay (Scripted.searcher [])
  /\ RetryDelay (Scripted.searcher []) * 2 ^ MaxRetries (Scripted.searcher [])
     <= maxInt64
  /\ clock (final (Scripted.fetch Scripted.background Scripted.unreachable))
     = 0 + 1 * Second * (2 ^ 3 - 1).
Proof.
  assert (Hm : 0 <= MaxRetries (Scripted.searcher [])) by (vm_compute; discriminate).
  assert (Hd : 0 <= RetryDelay (Scripted.searcher [])) by (vm_compute; discriminate).
  assert (Hr : RetryDelay (Scripted.searcher []) * 2 ^ MaxRetries (Scripted.searcher [])
               <= maxInt64) by (vm_compute; discriminate).
  destruct (fetch_sleeps Scripted.os (Scripted.searcher []) Scripted.background
              "https://example.test/search" (Scripted.start Scripted.unreachable))
    as (_ & Ht).
  split; [exact Hm|]. split; [exact Hd|]. split; [exact Hr|].
  apply (Ht Hm Hd Hr).
  - repeat constructor.
  - reflexivity.
Defined.

(** * More of the Page Loop *)

Section SearchLedger.

Context {W Request Body : Type}.
Variable s : BaseRepoSearcher W Request Body.

Lemma parsed_app (l1 l2 : list (Event Body)) :
  parsed (l1 ++ l2) = (parsed l1 ++ parsed l2)%list.
Proof.
  induction l1 as [|e l1 IH]; simpl; [reflexivity|].
  destruct e as [| | | |p repos tc hm [err|]| |]; auto.
  now rewrite IH, app_assoc.
Qed.

Lemma handed_app (l1 l2 : list (Event Body)) :
  handed (l1 ++ l2) = (handed l1 ++ handed l2)%list.
Proof.
  induction l1 as [|e l1 IH]; simpl; [reflexivity|].
  destruct e as [| | |p [b|] err| | |]; auto. now rewrite IH.
Qed.

Lemma released_app (l1 l2 : list (Event Body)) :
  released (l1 ++ l2) = (released l1 ++ released l2)%list.
Proof.
  induction l1 as [|e l1 IH]; simpl; [reflexivity|].
  destruct e; auto. now rewrite IH.
Qed.

Lemma pauses_app (l1 l2 : list (Event Body)) :
  pauses (l1 ++ l2) = (pauses l1 ++ pauses l2)%list.
Proof.
  induction l1 as [|e l1 IH]; simpl; [reflexivity|].
  destruct e; auto. now rewrite IH.
Qed.

Lemma continued_app (l1 l2 : list (Event Body)) :
  continued (l1 ++ l2) = (continued l1 ++ continued l2)%list.
Proof.
  induction l1 as [|e l1 IH]; simpl; [reflexivity|].
  destruct e as [| | | |p [|r repos] tc [|] [err|]| |]; auto. now rewrite IH.
Qed.

Lemma ledgers_attempts page (ftr : list (FetchEvent Body)) :
  parsed (map (EvAttempt page) ftr) = []
  /\ handed (map (EvAttempt page) ftr) = []
  /\ released (map (EvAttempt page) ftr) = []
  /\ pauses (map (EvAttempt page) ftr) = []
  /\ continued (map (EvAttempt page) ftr) = [].
Proof. induction ftr; simpl; auto. Qed.

Lemma ledgers_fetched page url (ftr : list (FetchEvent Body)) body err :
  parsed (fetched page url ftr body err) = []
  /\ handed (fetched page url ftr body err)
     = match body with Some b => [(page, b)] | None => [] end
  /\ released (fetched page url ftr body err) = []
  /\ pauses (fetched page url ftr body err) = []
  /\ continued (fetched page url ftr body err) = [].
Proof.
  destruct (ledgers_attempts page ftr) as (H1 & H2 & H3 & H4 & H5).
  rewrite fetched_last, parsed_app, handed_app, released_app, pauses_app,
    continued_app.
  simpl. rewrite H1, H2, H3, H4, H5. destruct body; auto.
Qed.

Lemma parsed_fetched page url (ftr : list (FetchEvent Body)) body err :
  parsed (fetched page url ftr body err) = [].
Proof. apply ledgers_fetched. Qed.

Lemma handed_fetched page url (ftr : list (FetchEvent Body)) body err :
  handed (fetched page url ftr body err)
  = match body with Some b => [(page, b)] | None => [] end.
Proof. apply ledgers_fetched. Qed.

Lemma released_fetched page url (ftr : list (FetchEvent Body)) body err :
  released (fetched page url ftr body err) = [].
Proof. apply ledgers_fetched. Qed.

Lemma pauses_fetched page url (ftr : list (FetchEvent Body)) body err :
  pauses (fetched page url ftr body err) = [].
Proof. apply ledgers_fetched. Qed.

Lemma continued_fetched page url (ftr : list (FetchEvent Body)) body err :
  continued (fetched page url ftr body err) = [].
Proof. apply ledgers_fetched. Qed.

Ltac in_events H :=
  repeat match type of H with
         | In _ (fetched _ _ _ _ _) =>
           apply in_fetched in H; destruct H as [H|[H|[[? H]|H]]]
         | In _ (_ ++ _) => apply in_app_or in H; destruct H as [H|H]
         | In _ (_ :: _) => apply in_inv in H; destruct H as [H|H]
         | In _ [] => destruct H
         | In _ (if ?b then _ else _) => destruct b
         end.

Ltac ledgers :=
  rewrite ?parsed_app, ?handed_app, ?released_app, ?pauses_app, ?continued_app,
    ?parsed_fetched, ?handed_fetched, ?released_fetched, ?pauses_fetched,
    ?continued_fetched.

(** A run returns a result or an error, and not both. *)
Lemma pages_exclusive query maxPages n page allRepos totalCount res t t'
    (tr : list (Event Body)) :
  Pages s query maxPages n page allRepos totalCount res t t' tr ->
  (exists r, res = (Some r, None)) \/ (exists e, res = (None, Some e)).
Proof.
  induction 1; unfold found; eauto.
  destruct (page =? 1); eauto.
Qed.

(** The items of a result are the records collected before, followed by the
    records of the pages parsed from here on. *)
Lemma pages_items query maxPages n page allRepos totalCount res t t'
    (tr : list (Event Body)) :
  Pages s query maxPages n page allRepos totalCount res t t' tr ->
  forall r, fst res = Some r ->
    Items r = (allRepos ++ parsed tr)%list
    /\ Source r = BaseSource s /\ Query r = query.
Proof.
  induction 1 as
      [ page allRepos totalCount t
      | n page allRepos totalCount url e t
      | n page allRepos totalCount url body e t t1 ftr HF
      | n page allRepos totalCount url res t t1 t' ftr tr HF HP IH
      | n page allRepos totalCount url b repos tc hasMore e t t1 ftr HF
      | n page allRepos totalCount url b repos tc hasMore t t1 ftr HF Hstop
      | n page allRepos totalCount url b repos tc res t t1 t' ftr tr HF Hne HP IH ];
    intros r Hr; ledgers.
  - inversion Hr; subst. simpl. rewrite app_nil_r. auto.
  - discriminate Hr.
  - destruct (page =? 1); [discriminate Hr|].
    inversion Hr; subst. simpl. rewrite app_nil_r. auto.
  - simpl. auto.
  - inversion Hr; subst. simpl. rewrite app_nil_r. auto.
  - inversion Hr; subst. simpl. rewrite app_nil_r. auto.
  - destruct (IH _ Hr) as (Hi & Hs & Hq). rewrite Hi.
    destruct (page <? maxPages); simpl; rewrite <- ?app_assoc; auto.
Qed.

(** Every body a fetch hands over is closed by the page loop. *)
Lemma pages_released query maxPages n page allRepos totalCount res t t'
    (tr : list (Event Body)) :
  Pages s query maxPages n page allRepos totalCount res t t' tr ->
  released tr = handed tr.
Proof.
  induction 1 as
      [ page allRepos totalCount t
      | n page allRepos totalCount url e t
      | n page allRepos totalCount url body e t t1 ftr HF
      | n page allRepos totalCount url res t t1 t' ftr tr HF HP IH
      | n page allRepos totalCount url b repos tc hasMore e t t1 ftr HF
      | n page allRepos totalCount url b repos tc hasMore t t1 ftr HF Hstop
      | n page allRepos totalCount url b repos tc res t t1 t' ftr tr HF Hne HP IH ];
    ledgers; simpl; auto.
  - destruct (attempts_exclusive s _ _ _ _ _ _ _ _ _ HF) as [(b & Hb)|(e' & He)];
      [discriminate|]. inversion He; subst. reflexivity.
  - destruct (page <? maxPages); simpl; now rewrite IH.
Qed.

(** What a fetch hands over is a body or an error. *)
Lemma pages_fetched query maxPages n page allRepos totalCount res t t'
    (tr : list (Event Body)) :
  Pages s query maxPages n page allRepos totalCount res t t' tr ->
  forall p body err, In (EvFetched p body err) tr ->
    (exists b, body = Some b /\ err = None)
    \/ (exists e, body = None /\ err = Some e).
Proof.
  induction 1 as
      [ page allRepos totalCount t
      | n page allRepos totalCount url e t
      | n page allRepos totalCount url body e t t1 ftr HF
      | n page allRepos totalCount url res t t1 t' ftr tr HF HP IH
      | n page allRepos totalCount url b repos tc hasMore e t t1 ftr HF
      | n page allRepos totalCount url b repos tc hasMore t t1 ftr HF Hstop
      | n page allRepos totalCount url b repos tc res t t1 t' ftr tr HF Hne HP IH ];
    intros p' body' err' Hin; in_events Hin;
    try discriminate; eauto;
    try (inversion Hin; subst; eauto; fail).
  - inversion Hin; subst.
    destruct (attempts_exclusive s _ _ _ _ _ _ _ _ _ HF) as [(b & Hb)|(e' & He)];
      [discriminate|]. inversion He; subst. eauto.
  - exfalso. eapply fetch_not_nil; eauto.
Qed.

(** The pauses follow the pages that go on, the last allowed page apart. *)
Lemma pages_pauses query maxPages n page allRepos totalCount res t t'
    (tr : list (Event Body)) :
  Pages s query maxPages n page allRepos totalCount res t t' tr ->
  pauses tr = filter (fun p => p <? maxPages) (continued tr)
  /\ (forall p t0 d t1, In (EvPause p t0 d t1) tr -> d = 100 * Millisecond).
Proof.
  induction 1 as
      [ page allRepos totalCount t
      | n page allRepos totalCount url e t
      | n page allRepos totalCount url body e t t1 ftr HF
      | n page allRepos totalCount url res t t1 t' ftr tr HF HP IH
      | n page allRepos totalCount url b repos tc hasMore e t t1 ftr HF
      | n page allRepos totalCount url b repos tc hasMore t t1 ftr HF Hstop
      | n page allRepos totalCount url b repos tc res t t1 t' ftr tr HF Hne HP IH ];
    ledgers.
  - split; [reflexivity|]. intros p' t0' d' t1' Hin; in_events Hin.
  - split; [reflexivity|].
    intros p' t0' d' t1' Hin; in_events Hin; discriminate.
  - split; [reflexivity|].
    intros p' t0' d' t1' Hin; in_events Hin; discriminate.
  - destruct IH as [IH1 IH2]. split; [exact IH1|].
    intros p' t0' d' t1' Hin; in_events Hin; try discriminate; eauto.
  - split; [now destruct repos, hasMore|].
    intros p' t0' d' t1' Hin; in_events Hin; discriminate.
  - split.
    + destruct Hstop as [->| ->]; [now destruct repos|reflexivity].
    + intros p' t0' d' t1' Hin; in_events Hin; discriminate.
  - destruct IH as [IH1 IH2]. split.
    + destruct repos as [|r0 repos]; [contradiction|].
      simpl. destruct (page <? maxPages); simpl; now rewrite IH1.
    + intros p' t0' d' t1' Hin; in_events Hin; try discriminate; eauto.
      inversion Hin; subst. reflexivity.
Qed.

(** A page loop that issues fewer requests than it may was stopped: by a URL
    that could not be built, a fetch that failed, a page that did not parse,
    or a page that announced the end of the results. *)
Lemma pages_stop query maxPages n page allRepos totalCount res t t'
    (tr : list (Event Body)) :
  Pages s query maxPages n page allRepos totalCount res t t' tr ->
  (List.length (requests tr) < n)%nat ->
  forall k, k = page + Z.of_nat (List.length (requests tr)) ->
    (exists url e, In (EvBuildURL k url (Some e)) tr)
    \/ (exists body e, In (EvFetched (k - 1) body (Some e)) tr)
    \/ (exists repos tc hasMore e,
           In (EvParse (k - 1) repos tc hasMore (Some e)) tr)
    \/ (exists repos tc hasMore,
           In (EvParse (k - 1) repos tc hasMore None) tr
           /\ (hasMore = false \/ repos = [])).
Proof.
  induction 1 as
      [ page allRepos totalCount t
      | n page allRepos totalCount url e t
      | n page allRepos totalCount url body e t t1 ftr HF
      | n page allRepos totalCount url res t t1 t' ftr tr HF HP IH
      | n page allRepos totalCount url b repos tc hasMore e t t1 ftr HF
      | n page allRepos totalCount url b repos tc hasMore t t1 ftr HF Hstop
      | n page allRepos totalCount url b repos tc res t t1 t' ftr tr HF Hne HP IH ];
    rewrite ?requests_app, ?requests_fetched; intros Hlt k Hk;
    simpl in Hlt, Hk.
  - lia.
  - left. exists url, e. replace k with page by lia. now left.
  - right. left. exists body, e. replace (k - 1) with page by lia.
    rewrite fetched_last. apply in_or_app. right. now left.
  - exfalso. eapply fetch_not_nil; eauto.
  - right. right. left. exists repos, tc, hasMore, e.
    replace (k - 1) with page by lia. apply in_or_app. right. now left.
  - right. right. right. exists repos, tc, hasMore.
    replace (k - 1) with page by lia. split; [|exact Hstop].
    apply in_or_app. right. now left.
  - assert (Hr : requests
                   (if page <? maxPages
                    then [@EvPause Body page t1 (100 * Millisecond)
                                   (t1 + Z.max 0 (100 * Millisecond))]
                    else []) = [])
      by (destruct (page <? maxPages); reflexivity).
    rewrite Hr in Hlt, Hk. simpl in Hlt, Hk.
    assert (Hl : forall x, In x tr ->
                 In x (fetched page url ftr (Some b) None
                       ++ [EvParse page repos tc true None; EvBodyClose page b]
                       ++ (if page <? maxPages
                           then [EvPause page t1 (100 * Millisecond)
                                         (t1 + Z.max 0 (100 * Millisecond))]
                           else [])
                       ++ tr)%list).
    { intros x Hx. apply in_or_app. right. apply in_or_app. right.
      apply in_or_app. now right. }
    destruct (IH ltac:(lia) k ltac:(lia))
      as [(u & e & Hi)|[(bd & e & Hi)|[(rs & c & hm & e & Hi)|(rs & c & hm & Hi & Hs)]]].
    + left. eauto.
    + right. left. eauto.
    + right. right. left. exists rs, c, hm, e. auto.
    + right. right. right. exists rs, c, hm. auto.
Qed.

(** No event is of a page beyond the iterations that are left. *)
Lemma pages_upto query maxPages n page allRepos totalCount res t t'
    (tr : list (Event Body)) :
  Pages s query maxPages n page allRepos totalCount res t t' tr ->
  forall e, In e tr -> pageOf e < page + Z.of_nat n.
Proof.
  induction 1; intros ev Hin; in_events Hin; subst; simpl; try lia;
    match goal with
    | IH : forall e, In e ?tr -> _, H : In _ ?tr |- _ => apply IH in H; lia
    end.
Qed.

(** The attempts of a page are those of its fetch, whose outcome is the
    last event of the page's fetch. *)
Lemma pages_attempt query maxPages n page allRepos totalCount res t t'
    (tr : list (Event Body)) :
  Pages s query maxPages n page allRepos totalCount res t t' tr ->
  forall p fe, In (EvAttempt p fe) tr ->
    exists url body err t0 t1 ftr,
      Fetch s url (body, err) t0 t1 ftr /\ In fe ftr
      /\ In (EvFetched p body err) tr.
Proof.
  assert (Hf : forall pg u (f : list (FetchEvent Body)) bd er p fe,
             In (EvAttempt p fe) (fetched pg u f bd er) ->
             p = pg /\ In fe f).
  { intros pg u f bd er p fe Hin. rewrite fetched_last in Hin.
    apply in_app_or in Hin. destruct Hin as [Hin|[Hin|[]]]; [|discriminate].
    destruct Hin as [Hin|[Hin|Hin]]; try discriminate.
    apply in_map_iff in Hin. destruct Hin as (fe' & Heq & Hin).
    inversion Heq; subst. auto. }
  assert (Hl : forall pg u (f : list (FetchEvent Body)) bd er,
             In (EvFetched pg bd er) (fetched pg u f bd er)).
  { intros. rewrite fetched_last. apply in_or_app. right. now left. }
  induction 1 as
      [ page allRepos totalCount t
      | n page allRepos totalCount url e t
      | n page allRepos totalCount url body e t t1 ftr HF
      | n page allRepos totalCount url res t t1 t' ftr tr HF HP IH
      | n page allRepos totalCount url b repos tc hasMore e t t1 ftr HF
      | n page allRepos totalCount url b repos tc hasMore t t1 ftr HF Hstop
      | n page allRepos totalCount url b repos tc res t t1 t' ftr tr HF Hne HP IH ];
    intros p fe Hin.
  - destruct Hin.
  - destruct Hin as [Hin|[]]. discriminate.
  - apply Hf in Hin. destruct Hin as [-> Hin].
    exists url, body, (Some e), t, t1, ftr. auto.
  - apply in_app_or in Hin. destruct Hin as [Hin|Hin].
    + apply Hf in Hin. destruct Hin as [-> Hin].
      exists url, None, None, t, t1, ftr. split; [exact HF|]. split; [exact Hin|].
      apply in_or_app. left. apply Hl.
    + destruct (IH _ _ Hin) as (u & bd & er & t0 & t2 & f & H1 & H2 & H3).
      exists u, bd, er, t0, t2, f. split; [exact H1|]. split; [exact H2|].
      apply in_or_app. now right.
  - apply in_app_or in Hin. destruct Hin as [Hin|Hin].
    + apply Hf in Hin. destruct Hin as [-> Hin].
      exists url, (Some b), None, t, t1, ftr. split; [exact HF|]. split; [exact Hin|].
      apply in_or_app. left. apply Hl.
    + destruct Hin as [Hin|[Hin|[]]]; discriminate.
  - apply in_app_or in Hin. destruct Hin as [Hin|Hin].
    + apply Hf in Hin. destruct Hin as [-> Hin].
      exists url, (Some b), None, t, t1, ftr. split; [exact HF|]. split; [exact Hin|].
      apply in_or_app. left. apply Hl.
    + destruct Hin as [Hin|[Hin|[]]]; discriminate.
  - apply in_app_or in Hin. destruct Hin as [Hin|Hin].
    + apply Hf in Hin. destruct Hin as [-> Hin].
      exists url, (Some b), None, t, t1, ftr. split; [exact HF|]. split; [exact Hin|].
      apply in_or_app. left. apply Hl.
    + apply in_app_or in Hin. destruct Hin as [Hin|Hin].
      { destruct Hin as [Hin|[Hin|[]]]; discriminate. }
      apply in_app_or in Hin. destruct Hin as [Hin|Hin].
      { destruct (page <? maxPages); [destruct Hin as [Hin|[]]; discriminate
                                     |destruct Hin]. }
      destruct (IH _ _ Hin) as (u & bd & er & t0 & t2 & f & H1 & H2 & H3).
      exists u, bd, er, t0, t2, f. split; [exact H1|]. split; [exact H2|].
      apply in_or_app. right. apply in_or_app. right. apply in_or_app. now right.
Qed.

(** The URL that is fetched for a page is the one that was built for it. *)
Lemma pages_fetch_url query maxPages n page allRepos totalCount res t t'
    (tr : list (Event Body)) :
  Pages s query maxPages n page allRepos totalCount res t t' tr ->
  forall p url, In (EvFetch p url) tr -> In (EvBuildURL p url None) tr.
Proof.
  assert (Hb : forall pg u (f : list (FetchEvent Body)) bd er,
             In (EvBuildURL pg u None) (fetched pg u f bd er)).
  { intros. rewrite fetched_last. now left. }
  induction 1 as
      [ page allRepos totalCount t
      | n page allRepos totalCount url e t
      | n page allRepos totalCount url body e t t1 ftr HF
      | n page allRepos totalCount url res t t1 t' ftr tr HF HP IH
      | n page allRepos totalCount url b repos tc hasMore e t t1 ftr HF
      | n page allRepos totalCount url b repos tc hasMore t t1 ftr HF Hstop
      | n page allRepos totalCount url b repos tc res t t1 t' ftr tr HF Hne HP IH ];
    intros p u Hin; in_events Hin; try discriminate;
    try (inversion Hin; subst;
         first [apply Hb | apply in_or_app; left; apply Hb]).
  - apply in_or_app. right. auto.
  - apply in_or_app. right. apply in_or_app. right. apply in_or_app. right. auto.
Qed.

(** Page 1 was parsed or it was not. *)
Lemma first_page_parsed (tr : list (Event Body)) :
  (exists repos tc hasMore, In (EvParse 1 repos tc hasMore None) tr)
  \/ (forall repos tc hasMore, ~ In (EvParse 1 repos tc hasMore None) tr).
Proof.
  induction tr as [|e tr [(repos & tc & hm & Hin)|Hno]].
  - right. intros ? ? ? [].
  - left. exists repos, tc, hm. now right.
  - destruct e as [| | | |p repos tc hm [err|]| |];
      try (right; intros r c h [Heq|Hin]; [discriminate|exact (Hno _ _ _ Hin)]).
    destruct (Z.eq_dec p 1) as [->|Hp].
    + left. exists repos, tc, hm. now left.
    + right. intros r c h [Heq|Hin]; [inversion Heq; contradiction
                                     |exact (Hno _ _ _ Hin)].
Qed.

End SearchLedger.

Section SearchFirst.

Context {W Request Body : Type}.
Variable s : BaseRepoSearcher W Request Body.

(** An iteration starts by building the URL of its page. *)
Lemma pages_first query maxPages n page allRepos totalCount res t t'
    (tr : list (Event Body)) :
  Pages s query maxPages (S n) page allRepos totalCount res t t' tr ->
  exists url err tr', tr = EvBuildURL page url err :: tr'.
Proof.
  inversion 1; subst; rewrite ?fetched_last; simpl; eauto.
Qed.

End SearchFirst.

(** ** Further properties of [Search] *)

(** X7: [Search] checks its arguments before anything else: an empty query
    is refused with "query cannot be empty", whatever [maxPages]; otherwise
    [maxPages <= 0] is refused with "maxPages must be greater than 0"; in
    both cases nothing is done, no URL is built and the world is left as it
    was.  With valid arguments the run starts by building the URL of
    page 1. *)
Theorem search_arguments {W Request Body : Type}
    (os : Platform W Request Body) (s : BaseRepoSearcher W Request Body)
    (ctx : Context) (query : string) (maxPages : Z) (st : State W) :
  let run := Search os s ctx query maxPages st in
  (query = "" ->
   result run = (None, Some (errorString "query cannot be empty"))
   /\ events run = [] /\ final run = st)
  /\ (query <> "" -> maxPages <= 0 ->
      result run = (None, Some (errorString "maxPages must be greater than 0"))
      /\ events run = [] /\ final run = st)
  /\ (query <> "" -> 0 < maxPages ->
      exists url err tr, events run = EvBuildURL 1 url err :: tr).
Proof.
  intros run. split; [|split].
  - intros ->. subst run. cbv [Search String.eqb ret result events final fst snd].
    auto.
  - intros Hq Hm. subst run. unfold Search.
    apply String.eqb_neq in Hq. rewrite Hq.
    apply Z.leb_le in Hm. rewrite Hm.
    cbv [ret result events final fst snd]. auto.
  - intros Hq Hm.
    destruct (Search_shape os s ctx query maxPages st)
      as [(_ & _ & _ & [E|E])|(_ & _ & HP)];
      [contradiction|lia|]. fold run in HP.
    assert (Hn : Z.to_nat maxPages = S (Z.to_nat (maxPages - 1))) by lia.
    rewrite Hn in HP. exact (pages_first s _ _ _ _ _ _ _ _ _ _ HP).
Qed.

(** X8: [Search] returns a result or an error, never both and never
    neither; the items of a result are the records of all the pages that
    were parsed, in the order of the pages and in the order the adapter
    gave them; its [Source] is the searcher's and its [Query] the query
    asked. *)
Theorem search_items {W Request Body : Type}
    (os : Platform W Request Body) (s : BaseRepoSearcher W Request Body)
    (ctx : Context) (query : string) (maxPages : Z) (st : State W) :
  let run := Search os s ctx query maxPages st in
  ((exists r, result run = (Some r, None))
   \/ (exists e, result run = (None, Some e)))
  /\ (forall r, fst (result run) = Some r ->
      Items r = parsed (events run)
      /\ Source r = BaseSource s /\ Query r = query).
Proof.
  intros run. unfold Search in run.
  destruct (query =? "")%string eqn:Eq.
  { subst run. cbv [ret result events final fst snd]. split; [eauto|].
    intros r Hr. discriminate Hr. }
  destruct (maxPages <=? 0) eqn:Em.
  { subst run. cbv [ret result events final fst snd]. split; [eauto|].
    intros r Hr. discriminate Hr. }
  pose proof (searchLoop_shape os s ctx query maxPages (Z.to_nat maxPages) 1 [] 0 st)
    as HP.
  split.
  - exact (pages_exclusive s _ _ _ _ _ _ _ _ _ _ HP).
  - intros r Hr. exact (pages_items s _ _ _ _ _ _ _ _ _ _ HP r Hr).
Qed.

(** X9: every body a fetch hands to [Search] is closed by it, once, before
    the next page is asked for, whether the body could be parsed or not; and
    a fetch never hands over a nil body with a nil error, so that the guard
    on a nil body in the page loop is never taken. *)
Theorem search_bodies_closed {W Request Body : Type}
    (os : Platform W Request Body) (s : BaseRepoSearcher W Request Body)
    (ctx : Context) (query : string) (maxPages : Z) (st : State W) :
  let run := Search os s ctx query maxPages st in
  released (events run) = handed (events run)
  /\ (forall p body err,
         In (EvFetched p body err) (events run) ->
         (exists b, body = Some b /\ err = None)
         \/ (exists e, body = None /\ err = Some e)).
Proof.
  intros run.
  destruct (Search_shape os s ctx query maxPages st) as [(E & _)|(_ & _ & HP)];
    fold run in E || fold run in HP.
  { rewrite E. split; [reflexivity|]. intros ? ? ? []. }
  split.
  - exact (pages_released s _ _ _ _ _ _ _ _ _ _ HP).
  - exact (pages_fetched s _ _ _ _ _ _ _ _ _ _ HP).
Qed.

(** X10: [Search] pauses after every page that was parsed with records and
    with more to come, unless it is the last page allowed, and at no other
    moment; every pause is of 100 milliseconds. *)
Theorem search_pacing {W Request Body : Type}
    (os : Platform W Request Body) (s : BaseRepoSearcher W Request Body)
    (ctx : Context) (query : string) (maxPages : Z) (st : State W) :
  let run := Search os s ctx query maxPages st in
  pauses (events run) = filter (fun p => p <? maxPages) (continued (events run))
  /\ (forall p t d t', In (EvPause p t d t') (events run) -> d = 100 * Millisecond).
Proof.
  intros run.
  destruct (Search_shape os s ctx query maxPages st) as [(E & _)|(_ & _ & HP)];
    fold run in E || fold run in HP.
  { rewrite E. split; [reflexivity|]. intros ? ? ? ? []. }
  exact (pages_pauses s _ _ _ _ _ _ _ _ _ _ HP).
Qed.

(** X11: a search with valid arguments that issues [k] requests, fewer than
    [maxPages], was stopped for one of four reasons: the URL of page [k + 1]
    could not be built, the fetch of page [k] failed, page [k] could not be
    parsed, or page [k] was parsed with no record or with no more to
    come. *)
Theorem search_stop_reasons {W Request Body : Type}
    (os : Platform W Request Body) (s : BaseRepoSearcher W Request Body)
    (ctx : Context) (query : string) (maxPages : Z) (st : State W) :
  let run := Search os s ctx query maxPages st in
  query <> "" -> 0 < maxPages ->
  forall k, k = Z.of_nat (List.length (requests (events run))) ->
  k < maxPages ->
  (exists url e, In (EvBuildURL (k + 1) url (Some e)) (events run))
  \/ (exists body e, In (EvFetched k body (Some e)) (events run))
  \/ (exists repos tc hasMore e,
         In (EvParse k repos tc hasMore (Some e)) (events run))
  \/ (exists repos tc hasMore,
         In (EvParse k repos tc hasMore None) (events run)
         /\ (hasMore = false \/ repos = [])).
Proof.
  intros run Hq Hm k Hk Hlt.
  destruct (Search_shape os s ctx query maxPages st)
    as [(_ & _ & _ & [E|E])|(_ & _ & HP)];
    [contradiction|lia|]. fold run in HP.
  assert (Hn : (List.length (requests (events run)) < Z.to_nat maxPages)%nat) by lia.
  pose proof (pages_stop s _ _ _ _ _ _ _ _ _ _ HP Hn (k + 1) ltac:(lia)) as HS.
  replace (k + 1 - 1) with k in HS by lia. exact HS.
Qed.

(** An empty query with no page allowed is refused for its query; a query
    with no page allowed for its pages; a valid call starts with page 1. *)
Lemma search_arguments_witness :
  result (Cases.searchWith (Scripted.searcher []) "" 0 Scripted.twoPages)
  = (None, Some (errorString "query cannot be empty"))
  /\ ("raft" <> "" /\ 0 <= 0
      /\ result (Cases.searchWith (Scripted.searcher []) "raft" 0 Scripted.twoPages)
         = (None, Some (errorString "maxPages must be greater than 0"))
      /\ final (Cases.searchWith (Scripted.searcher []) "raft" 0 Scripted.twoPages)
         = Scripted.start Scripted.twoPages)
  /\ (0 < 2
      /\ exists url err tr,
          events (Cases.searchWith (Scripted.searcher []) "raft" 2 Scripted.twoPages)
          = EvBuildURL 1 url err :: tr).
Proof.
  assert (Hq : "raft" <> "") by discriminate.
  assert (H0 : 0 <= 0) by lia.
  assert (H2 : 0 < 2) by lia.
  split; [|split].
  - exact (proj1 (proj1 (search_arguments Scripted.os (Scripted.searcher [])
                           Scripted.background "" 0
                           (Scripted.start Scripted.twoPages)) eq_refl)).
  - destruct (proj1 (proj2 (search_arguments Scripted.os (Scripted.searcher [])
                              Scripted.background "raft" 0
                              (Scripted.start Scripted.twoPages))) Hq H0)
      as (Hr & _ & Hf).
    split; [exact Hq|]. split; [exact H0|]. split; [exact Hr|exact Hf].
  - split; [exact H2|].
    exact (proj2 (proj2 (search_arguments Scripted.os (Scripted.searcher [])
                           Scripted.background "raft" 2
                           (Scripted.start Scripted.twoPages))) Hq H2).
Defined.

(** Two pages: the two records of the first, then the record of the
    second. *)
Lemma search_items_witness :
  exists r,
    fst (result (Scripted.run [] Scripted.background 5 Scripted.twoPages)) = Some r
    /\ Items r = (Scripted.repos "a" 2 ++ Scripted.repos "b" 1)%list
    /\ Query r = "raft".
Proof.
  assert (Hr : fst (result (Scripted.run [] Scripted.background 5 Scripted.twoPages))
               = Some {| Source := ""; Query := "raft"; TotalCount := 60;
                         Items := (Scripted.repos "a" 2 ++ Scripted.repos "b" 1)%list |})
    by reflexivity.
  eexists. split; [exact Hr|].
  destruct (proj2 (search_items Scripted.os (Scripted.searcher [])
                     Scripted.background "raft" 5
                     (Scripted.start Scripted.twoPages)) _ Hr) as (Hi & _ & Hq).
  split; [rewrite Hi; reflexivity|exact Hq].
Defined.

(** A first page that does not decode: its body is handed over and
    closed. *)
Lemma search_bodies_closed_witness :
  released (events (Scripted.run [] Scripted.background 3 Scripted.garbledFirst))
  = [(1, {| Scripted.text := "<html>"; Scripted.records := [];
            Scripted.total := 0; Scripted.more := false;
            Scripted.wellFormed := false |})]
  /\ forall body err,
      In (EvFetched 2 body err)
         (events (Scripted.run [] Scripted.background 3 Scripted.laterPageDown)) ->
      (exists b, body = Some b /\ err = None)
      \/ (exists e, body = None /\ err = Some e).
Proof.
  destruct (search_bodies_closed Scripted.os (Scripted.searcher [])
              Scripted.background "raft" 3
              (Scripted.start Scripted.garbledFirst)) as (Hc & _).
  split.
  - unfold Scripted.run. rewrite Hc. reflexivity.
  - intros body err.
    exact (proj2 (search_bodies_closed Scripted.os (Scripted.searcher [])
                    Scripted.background "raft" 3
                    (Scripted.start Scripted.laterPageDown)) 2 body err).
Defined.

(** Three pages that all announce more, two pages allowed: one pause, after
    page 1, of 100 milliseconds. *)
Lemma search_pacing_witness :
  pauses (events (Cases.searchWith (Scripted.searcher []) "raft" 2 Cases.threePages))
  = [1]
  /\ In (EvPause 1 0 (100 * Millisecond) (100 * Millisecond))
        (events (Cases.searchWith (Scripted.searcher []) "raft" 2 Cases.threePages))
  /\ 100 * Millisecond = 100 * Millisecond.
Proof.
  destruct (search_pacing Scripted.os (Scripted.searcher [])
              Scripted.background "raft" 2
              (Scripted.start Cases.threePages)) as (Hp & Hd).
  assert (Hin : In (EvPause 1 0 (100 * Millisecond) (100 * Millisecond))
                   (events (Cases.searchWith (Scripted.searcher []) "raft" 2
                                             Cases.threePages)))
    by find_event.
  split; [|split; [exact Hin|exact (Hd _ _ _ _ Hin)]].
  unfold Cases.searchWith. rewrite Hp. reflexivity.
Defined.

(** Five pages allowed and two requests: the search was stopped. *)
Lemma search_stop_reasons_witness :
  "raft" <> "" /\ 0 < 5
  /\ 2 = Z.of_nat (List.length (requests (events (Scripted.run [] Scripted.background 5
                                                               Scripted.twoPages))))
  /\ 2 < 5
  /\ ((exists url e,
          In (EvBuildURL (2 + 1) url (Some e))
             (events (Scripted.run [] Scripted.background 5 Scripted.twoPages)))
      \/ (exists body e,
             In (EvFetched 2 body (Some e))
                (events (Scripted.run [] Scripted.background 5 Scripted.twoPages)))
      \/ (exists repos tc hasMore e,
             In (EvParse 2 repos tc hasMore (Some e))
                (events (Scripted.run [] Scripted.background 5 Scripted.twoPages)))
      \/ (exists repos tc hasMore,
             In (EvParse 2 repos tc hasMore None)
                (events (Scripted.run [] Scripted.background 5 Scripted.twoPages))
             /\ (hasMore = false \/ repos = []))).
Proof.
  assert (Hq : "raft" <> "") by discriminate.
  assert (H5 : 0 < 5) by lia.
  assert (Hk : 2 = Z.of_nat (List.length
                               (requests (events (Scripted.run [] Scripted.background 5
                                                               Scripted.twoPages)))))
    by reflexivity.
  assert (Hlt : 2 < 5) by lia.
  split; [exact Hq|]. split; [exact H5|]. split; [exact Hk|]. split; [exact Hlt|].
  exact (search_stop_reasons Scripted.os (Scripted.searcher [])
           Scripted.background "raft" 5 (Scripted.start Scripted.twoPages)
           Hq H5 2 Hk Hlt).
Defined.

(** * The Adapters' Other Operations *)

Section AdapterFacts.

Import Wire Operations.

Lemma nonEmpty_true {A} (l : list A) : nonEmpty l = true <-> l <> [].
Proof.
  unfold nonEmpty. destruct l; simpl; split; intros H;
    try discriminate; try reflexivity; congruence.
Qed.

Lemma nonEmpty_map {A B} (f : A -> B) (l : list A) :
  nonEmpty (map f l) = nonEmpty l.
Proof. unfold nonEmpty. now rewrite length_map. Qed.

Lemma map_nil_iff {A B} (f : A -> B) (l : list A) : map f l = [] <-> l = [].
Proof. destruct l; simpl; split; intros H; try discriminate; reflexivity. Qed.




End AdapterFacts.

(** ** Properties of the adapters' mappings *)



(** X13: the GitCode, Gitee, GitLab and GitHub adapters announce more pages
    exactly when the page they parsed holds a record; the first three report
    the total -1 for every page they decode, GitHub the total of the
    answer, and the [incomplete_results] mark of a GitHub answer changes
    nothing.  A body that does not decode gives no summary, the total 0, no
    more pages and an error that wraps the decoder's. *)
Theorem parseSearchResponse_pages {Body : Type} (TrimSpace : string -> string)
    (body : Body) :
  (forall Decode,
      let '(summaries, totalCount, hasMore, err) :=
        Operations.GitCode_parseSearchResponse TrimSpace Decode body in
      (hasMore = true <-> summaries <> [])
      /\ match snd (Decode body) with
         | None => err = None /\ totalCount = -1
                   /\ List.length summaries = List.length (fst (Decode body))
         | Some e => summaries = [] /\ totalCount = 0
                     /\ option_map Unwrap err = Some (Some e)
         end)
  /\ (forall Decode,
      let '(summaries, totalCount, hasMore, err) :=
        Operations.Gitee_parseSearchResponse TrimSpace Decode body in
      (hasMore = true <-> summaries <> [])
      /\ match snd (Decode body) with
         | None => err = None /\ totalCount = -1
                   /\ List.length summaries = List.length (fst (Decode body))
         | Some e => summaries = [] /\ totalCount = 0
                     /\ option_map Unwrap err = Some (Some e)
         end)
  /\ (forall Decode,
      let '(summaries, totalCount, hasMore, err) :=
        Operations.GitLab_parseSearchResponse TrimSpace Decode body in
      (hasMore = true <-> summaries <> [])
      /\ match snd (Decode body) with
         | None => err = None /\ totalCount = -1
                   /\ List.length summaries = List.length (fst (Decode body))
         | Some e => summaries = [] /\ totalCount = 0
                     /\ option_map Unwrap err = Some (Some e)
         end)
  /\ (forall Decode,
      let '(summaries, totalCount, hasMore, err) :=
        Operations.GitHub_parseSearchResponse TrimSpace Decode body in
      (hasMore = true <-> summaries <> [])
      /\ match snd (Decode body) with
         | None => err = None
                   /\ totalCount = Wire.gitHubSearchResponse.TotalCount (fst (Decode body))
                   /\ List.length summaries
                      = List.length (Wire.gitHubSearchResponse.Items (fst (Decode body)))
         | Some e => summaries = [] /\ totalCount = 0
                     /\ option_map Unwrap err = Some (Some e)
         end).
Proof.
  repeat split;
    try (intros Decode;
         unfold Operations.GitCode_parseSearchResponse,
           Operations.Gitee_parseSearchResponse,
           Operations.GitLab_parseSearchResponse,
           Operations.GitHub_parseSearchResponse;
         destruct (Decode body) as [repos [e|]]; cbn [fst snd];
         rewrite ?nonEmpty_map, ?nonEmpty_true, ?map_nil_iff, ?length_map;
         (split; [split; [discriminate || tauto | congruence || tauto]
                 | auto])).
Qed.

(** X14: the Bitbucket adapter announces more pages exactly when the answer
    names a next page, whatever the records it holds, and reports the size
    of the answer as the total; it keeps one summary for each value, in
    order.  A body that does not decode gives no summary, the total 0, no
    more pages and an error that wraps the decoder's. *)
Theorem Bitbucket_parseSearchResponse_pages {Body : Type}
    (TrimSpace : string -> string)
    (Decode : Body -> Wire.bitbucketSearchResponse.t * option error) (body : Body) :
  let '(summaries, totalCount, hasMore, err) :=
    Operations.Bitbucket_parseSearchResponse TrimSpace Decode body in
  match snd (Decode body) with
  | None =>
    err = None
    /\ (hasMore = true <-> Wire.bitbucketSearchResponse.Next (fst (Decode body)) <> "")
    /\ totalCount = Wire.bitbucketSearchResponse.Size (fst (Decode body))
    /\ summaries = map (Operations.Bitbucket_mapRepoToSummary TrimSpace)
                       (Wire.bitbucketSearchResponse.Values (fst (Decode body)))
  | Some e =>
    summaries = [] /\ totalCount = 0 /\ hasMore = false
    /\ err = Some (wrapError ("failed to unmarshal Bitbucket response: " ++ Error e) e)
  end.
Proof.
  unfold Operations.Bitbucket_parseSearchResponse.
  destruct (Decode body) as [resp [e|]]; cbn [fst snd]; [auto|].
  split; [reflexivity|]. split; [|auto].
  destruct (Wire.bitbucketSearchResponse.Next resp =? "")%string eqn:E; simpl.
  - apply String.eqb_eq in E. split; [discriminate|congruence].
  - apply String.eqb_neq in E. tauto.
Qed.



(** * The Orchestrator over an Adapter *)

Section Contracts.

Context {W Request Body : Type}.
Variable os : Platform W Request Body.
Variable s : BaseRepoSearcher W Request Body.

Ltac run_monad :=
  cbv zeta;
  repeat (progress (unfold bind, prim, closeBody, call, emit, ret, time_Sleep,
                      tagged, result, final, events in *; simpl in * )).

(** What holds of every URL the adapter builds for the query with the page
    size of the orchestrator, and of everything it parses, holds of the
    events of the page loop. *)
Lemma searchLoop_contract (ctx : Context) (query : string) (maxPages : Z)
    (PU : Z -> string -> option error -> Prop)
    (PP : list RepositorySummary -> Z -> bool -> option error -> Prop) :
  (forall p w,
      PU p (fst (fst (buildSearchURL (implementation s) query p 50 w)))
           (snd (fst (buildSearchURL (implementation s) query p 50 w)))) ->
  (forall b w,
      let '(repos, tc, hasMore, err) :=
        fst (parseSearchResponse (implementation s) b w) in
      PP repos tc hasMore err) ->
  forall n page allRepos totalCount st,
    Forall (fun ev =>
              match ev with
              | EvBuildURL p url err => PU p url err
              | EvParse _ repos tc hasMore err => PP repos tc hasMore err
              | _ => True
              end)
           (events (searchLoop os s ctx query maxPages n page allRepos totalCount st)).
Proof.
  intros HU HP.
  assert (Hatt : forall page (ftr : list (FetchEvent Body)),
             Forall (fun ev =>
                       match ev with
                       | EvBuildURL p url err => PU p url err
                       | EvParse _ repos tc hasMore err => PP repos tc hasMore err
                       | _ => True
                       end) (map (EvAttempt page) ftr)).
  { intros page ftr. apply Forall_forall. intros x Hx.
    apply in_map_iff in Hx. destruct Hx as (fe & <- & _). exact I. }
  induction n as [|n IH]; intros page allRepos totalCount st.
  - run_monad. constructor.
  - run_monad. unfold perPage.
    pose proof (HU page (world st)) as Hu.
    destruct (buildSearchURL (implementation s) query page 50 (world st))
      as [[url [e|]] w1]; simpl in *.
    { repeat constructor. exact Hu. }
    destruct (fetchWithRetries os s ctx url {| world := w1; clock := clock st |})
      as [[[body err] st1] ftr].
    run_monad.
    destruct err as [e|].
    { destruct (page =? 1); simpl; repeat constructor; auto;
        apply Forall_app; split; auto; repeat constructor. }
    destruct body as [b|].
    2:{ specialize (IH (page + 1) allRepos totalCount st1).
        destruct (searchLoop os s ctx query maxPages n (page + 1) allRepos
                             totalCount st1) as [[res st2] tr].
        run_monad. repeat constructor; auto.
        apply Forall_app; split; auto; repeat constructor; auto. }
    pose proof (HP b (world st1)) as Hp.
    destruct (parseSearchResponse (implementation s) b (world st1))
      as [[[[repos tc] hasMore] [e|]] w2]; simpl in *.
    { repeat constructor; auto.
      apply Forall_app; split; auto; repeat constructor; auto. }
    destruct hasMore; simpl.
    2:{ repeat constructor; auto.
        apply Forall_app; split; auto; repeat constructor; auto. }
    destruct repos as [|r repos]; simpl.
    { repeat constructor; auto.
      apply Forall_app; split; auto; repeat constructor; auto. }
    destruct (page <? maxPages) eqn:Elt; simpl.
    + match goal with
      | |- context [searchLoop os s ctx query maxPages n ?p' ?a' ?c' ?st'] =>
        specialize (IH p' a' c' st');
        destruct (searchLoop os s ctx query maxPages n p' a' c' st')
          as [[res st2] tr]
      end.
      run_monad. repeat constructor; auto.
      apply Forall_app; split; auto; repeat constructor; auto.
    + match goal with
      | |- context [searchLoop os s ctx query maxPages n ?p' ?a' ?c' ?st'] =>
        specialize (IH p' a' c' st');
        destruct (searchLoop os s ctx query maxPages n p' a' c' st')
          as [[res st2] tr]
      end.
      run_monad. repeat constructor; auto.
      apply Forall_app; split; auto; repeat constructor; auto.
Qed.

End Contracts.

Section SearchOver.

Context {W Request Body : Type}.
Variable os : Platform W Request Body.
Variable s : BaseRepoSearcher W Request Body.

(** With valid arguments [Search] is the page loop from page 1. *)
Lemma Search_valid (ctx : Context) (query : string) (maxPages : Z) (st : State W) :
  query <> "" -> 0 < maxPages ->
  Search os s ctx query maxPages st
  = searchLoop os s ctx query maxPages (Z.to_nat maxPages) 1 [] 0 st.
Proof.
  intros Hq Hm. unfold Search.
  apply String.eqb_neq in Hq. rewrite Hq.
  apply Z.leb_gt in Hm. now rewrite Hm.
Qed.

(** The contract of the adapter, on the events of a whole search. *)
Lemma Search_contract (ctx : Context) (query : string) (maxPages : Z)
    (PU : Z -> string -> option error -> Prop)
    (PP : list RepositorySummary -> Z -> bool -> option error -> Prop) :
  (forall p w,
      PU p (fst (fst (buildSearchURL (implementation s) query p 50 w)))
           (snd (fst (buildSearchURL (implementation s) query p 50 w)))) ->
  (forall b w,
      let '(repos, tc, hasMore, err) :=
        fst (parseSearchResponse (implementation s) b w) in
      PP repos tc hasMore err) ->
  forall st,
    (forall p url err,
        In (EvBuildURL p url err) (events (Search os s ctx query maxPages st)) ->
        PU p url err)
    /\ (forall p repos tc hasMore err,
           In (EvParse p repos tc hasMore err)
              (events (Search os s ctx query maxPages st)) ->
           PP repos tc hasMore err).
Proof.
  intros HU HP st.
  destruct (Search_shape os s ctx query maxPages st)
    as [(E & _)|(Hq & Hm & _)].
  { rewrite E. split; intros; contradiction. }
  rewrite (Search_valid ctx query maxPages st Hq Hm).
  pose proof (searchLoop_contract os s ctx query maxPages PU PP HU HP
                (Z.to_nat maxPages) 1 [] 0 st) as HF.
  rewrite Forall_forall in HF.
  split; intros; match goal with H : In _ _ |- _ => exact (HF _ H) end.
Qed.

End SearchOver.

(** ** [Search] over its adapter *)

(** X16: over an adapter whose [buildSearchURL] is a function of its
    arguments, every URL of a search is the one the adapter builds for the
    query, the page and the page size 50, for a page between 1 and
    [maxPages]; and the URL that is fetched for a page is the URL that was
    built for it. *)
Theorem search_urls {W Request Body : Type}
    (os : Platform W Request Body) (s : BaseRepoSearcher W Request Body)
    (ctx : Context) (query : string) (maxPages : Z) (st : State W)
    (build : string -> Z -> Z -> string * option error) :
  (forall q p pp w, fst (buildSearchURL (implementation s) q p pp w) = build q p pp) ->
  let run := Search os s ctx query maxPages st in
  (forall p url err,
      In (EvBuildURL p url err) (events run) ->
      (url, err) = build query p 50 /\ 1 <= p <= maxPages)
  /\ (forall p url,
         In (EvFetch p url) (events run) -> (url, None) = build query p 50).
Proof.
  intros Hb run.
  destruct (Search_contract os s ctx query maxPages
              (fun p url err => (url, err) = build query p 50)
              (fun _ _ _ _ => True)) with (st := st) as [HU _].
  { intros p w. rewrite <- (Hb query p 50 w).
    now destruct (buildSearchURL _ _ _ _ _) as [[u e] w']. }
  { intros b w. now destruct (parseSearchResponse _ _ _) as [[[[r c] h] e] w']. }
  fold run in HU.
  destruct (Search_shape os s ctx query maxPages st) as [(E & _)|(_ & Hm & HP)];
    fold run in E || fold run in HP.
  { rewrite E. split; intros; contradiction. }
  split.
  - intros p url err Hin. split; [exact (HU _ _ _ Hin)|].
    pose proof (pages_from s _ _ _ _ _ _ _ _ _ _ HP _ Hin) as H1.
    pose proof (pages_upto s _ _ _ _ _ _ _ _ _ _ HP _ Hin) as H2.
    simpl in H1, H2. lia.
  - intros p url Hin.
    exact (HU _ _ _ (pages_fetch_url s _ _ _ _ _ _ _ _ _ _ HP _ _ Hin)).
Qed.

(** X17: over an adapter that reports the total -1 for every page it
    parses, as the GitCode, Gitee and GitLab adapters do, the [TotalCount]
    of a result is -1 when page 1 was parsed and 0 when it was not. *)
Theorem search_unknown_total {W Request Body : Type}
    (os : Platform W Request Body) (s : BaseRepoSearcher W Request Body)
    (ctx : Context) (query : string) (maxPages : Z) (st : State W) :
  (forall b w,
      let '(repos, tc, hasMore, err) :=
        fst (parseSearchResponse (implementation s) b w) in
      err = None -> tc = -1) ->
  let run := Search os s ctx query maxPages st in
  forall r,
    fst (result run) = Some r ->
    (TotalCount r = -1
     /\ exists repos hasMore, In (EvParse 1 repos (-1) hasMore None) (events run))
    \/ (TotalCount r = 0
        /\ forall repos tc hasMore,
            ~ In (EvParse 1 repos tc hasMore None) (events run)).
Proof.
  intros Hp run r Hr.
  destruct (Search_contract os s ctx query maxPages
              (fun _ _ _ => True)
              (fun _ tc _ err => err = None -> tc = -1)) with (st := st)
    as [_ HPP]; [auto|exact Hp|].
  fold run in HPP.
  destruct (Search_shape os s ctx query maxPages st)
    as [(_ & E & _)|(_ & _ & HP)]; fold run in E || fold run in HP.
  { rewrite E in Hr. discriminate. }
  destruct (first_page_parsed (events run)) as [(repos & tc & hm & Hin)|Hno].
  - left. pose proof (HPP _ _ _ _ _ Hin eq_refl) as Htc. subst tc.
    split; [|eauto].
    exact (first_total s _ _ _ _ _ _ _ _ _ _ HP _ _ _ Hin _ Hr).
  - right. split; [|exact Hno].
    exact (proj1 (nothing_parsed s _ _ _ _ _ _ _ _ _ _ HP Hno _ Hr)).
Qed.

(** X18: over an adapter that announces more pages exactly when the page
    holds a record, as the GitCode, Gitee, GitLab and GitHub adapters do, a
    search that returns a result after [k] requests, fewer than [maxPages],
    ended on a fetch of page [k] that failed, on a parse of page [k] that
    failed, or on a page [k] with no record: the end of the results is only
    found by asking for a page that comes back empty. *)
Theorem search_last_page_empty {W Request Body : Type}
    (os : Platform W Request Body) (s : BaseRepoSearcher W Request Body)
    (ctx : Context) (query : string) (maxPages : Z) (st : State W) :
  (forall b w,
      let '(repos, tc, hasMore, err) :=
        fst (parseSearchResponse (implementation s) b w) in
      err = None -> (hasMore = true <-> repos <> [])) ->
  let run := Search os s ctx query maxPages st in
  forall k r,
    k = Z.of_nat (List.length (requests (events run))) ->
    k < maxPages ->
    fst (result run) = Some r ->
    (exists body e, In (EvFetched k body (Some e)) (events run))
    \/ (exists repos tc hasMore e,
           In (EvParse k repos tc hasMore (Some e)) (events run))
    \/ (exists tc, In (EvParse k [] tc false None) (events run)).
Proof.
  intros Hp run k r Hk Hlt Hr.
  destruct (Search_contract os s ctx query maxPages
              (fun _ _ _ => True)
              (fun repos _ hasMore err =>
                 err = None -> (hasMore = true <-> repos <> []))) with (st := st)
    as [_ HPP]; [auto|exact Hp|].
  fold run in HPP.
  destruct (Search_shape os s ctx query maxPages st)
    as [(_ & E & _)|(_ & Hm & HP)]; fold run in E || fold run in HP.
  { rewrite E in Hr. discriminate. }
  assert (Hn : (List.length (requests (events run)) < Z.to_nat maxPages)%nat) by lia.
  destruct (pages_stop s _ _ _ _ _ _ _ _ _ _ HP Hn (k + 1) ltac:(lia))
    as [(u & e & Hi)|[(bd & e & Hi)|[(rs & c & hm & e & Hi)|(rs & c & hm & Hi & Hs)]]];
    replace (k + 1 - 1) with k in * by lia.
  - rewrite (build_failure s _ _ _ _ _ _ _ _ _ _ HP _ _ _ Hi) in Hr. discriminate.
  - left. eauto.
  - right. left. eauto.
  - right. right. exists c.
    pose proof (HPP _ _ _ _ _ Hi eq_refl) as [H1 H2].
    assert (rs = [] /\ hm = false) as [-> ->]; [|exact Hi].
    destruct rs as [|x rs].
    + split; [reflexivity|]. destruct hm; [|reflexivity].
      exfalso. now apply H1.
    + assert (hm = true) by (apply H2; discriminate).
      destruct Hs as [->|Hs]; discriminate.
Qed.

(** X19: a request that cannot be created, as with Bitbucket credentials
    that have no colon, fails the fetch of its page without any exchange:
    on page 1 the search fails with the chain "failed to fetch first page",
    "failed to create request" and the adapter's error; on a later page the
    search returns what it has. *)
Theorem search_request_failure {W Request Body : Type}
    (os : Platform W Request Body) (s : BaseRepoSearcher W Request Body)
    (ctx : Context) (query : string) (maxPages : Z) (st : State W) :
  let run := Search os s ctx query maxPages st in
  forall p url e,
    In (EvAttempt p (EvBuildRequest url (Some e))) (events run) ->
    In (EvFetched p None (Some (Errorf_w "failed to create request: " (Some e))))
       (events run)
    /\ (p = 1 ->
        result run
        = (None,
           Some (Errorf_w "failed to fetch first page: "
                   (Some (Errorf_w "failed to create request: " (Some e))))))
    /\ (p <> 1 -> exists r, result run = (Some r, None)).
Proof.
  intros run p url e Hin.
  destruct (Search_shape os s ctx query maxPages st) as [(E & _)|(_ & _ & HP)];
    fold run in E || fold run in HP.
  { rewrite E in Hin. destruct Hin. }
  destruct (pages_attempt s _ _ _ _ _ _ _ _ _ _ HP _ _ Hin)
    as (u & body & err & t0 & t1 & ftr & HF & Hfe & Hev).
  destruct (request_failure s _ _ _ _ _ _ _ _ _ HF _ _ Hfe) as [Hres _].
  inversion Hres; subst body err.
  destruct (fetch_failure s _ _ _ _ _ _ _ _ _ _ HP _ _ _ Hev) as (_ & H1 & Hn).
  split; [exact Hev|]. split; [exact H1|].
  intros Hp. destruct (Hn Hp) as (r & Hr & _). eauto.
Qed.

(** The GitCode adapter: the URL fetched for page 1 of "raft". *)
Lemma search_urls_witness :
  (forall q p pp w,
      fst (buildSearchURL
             (implementation (Live.NewGitCodeSearcher Adapters.noEnv "tok" None))
             q p pp w)
      = Adapters.buildSearchURL Adapters.noEnv (Adapters.NewGitCodeSearcher "tok")
                                q p pp)
  /\ In (EvFetch 1 "https://api.gitcode.com/api/v5/search/repositories?page=1&per_page=50&q=raft")
        (events (Live.run (Live.NewGitCodeSearcher Adapters.noEnv "tok" None)
                          "raft" 5 Live.gitCodeNet))
  /\ ("https://api.gitcode.com/api/v5/search/repositories?page=1&per_page=50&q=raft",
      None)
     = Adapters.buildSearchURL Adapters.noEnv (Adapters.NewGitCodeSearcher "tok")
                               "raft" 1 50.
Proof.
  assert (Hb : forall q p pp w,
             fst (buildSearchURL
                    (implementation (Live.NewGitCodeSearcher Adapters.noEnv "tok" None))
                    q p pp w)
             = Adapters.buildSearchURL Adapters.noEnv
                 (Adapters.NewGitCodeSearcher "tok") q p pp)
    by (intros; reflexivity).
  assert (Hin : In (EvFetch 1 "https://api.gitcode.com/api/v5/search/repositories?page=1&per_page=50&q=raft")
                   (events (Live.run (Live.NewGitCodeSearcher Adapters.noEnv "tok" None)
                                     "raft" 5 Live.gitCodeNet)))
    by find_event.
  split; [exact Hb|]. split; [exact Hin|].
  exact (proj2 (search_urls Live.os (Live.NewGitCodeSearcher Adapters.noEnv "tok" None)
                  Scripted.background "raft" 5 (Live.start Live.gitCodeNet) _ Hb)
               1 _ Hin).
Defined.

(** The GitCode adapter: the total of the result is -1. *)
Lemma search_unknown_total_witness :
  (forall b w,
      let '(repos, tc, hasMore, err) :=
        fst (parseSearchResponse
               (implementation (Live.NewGitCodeSearcher Adapters.noEnv "tok" None))
               b w) in
      err = None -> tc = -1)
  /\ exists r,
      fst (result (Live.run (Live.NewGitCodeSearcher Adapters.noEnv "tok" None)
                            "raft" 5 Live.gitCodeNet)) = Some r
      /\ TotalCount r = -1.
Proof.
  assert (Hp : forall b w,
             let '(repos, tc, hasMore, err) :=
               fst (parseSearchResponse
                      (implementation (Live.NewGitCodeSearcher Adapters.noEnv "tok" None))
                      b w) in
             err = None -> tc = -1).
  { intros b w. simpl. unfold Operations.GitCode_parseSearchResponse.
    destruct (Live.asGitCode b) as [repos [e|]]; [discriminate|reflexivity]. }
  split; [exact Hp|].
  eexists. split; [reflexivity|].
  destruct (search_unknown_total Live.os
              (Live.NewGitCodeSearcher Adapters.noEnv "tok" None)
              Scripted.background "raft" 5 (Live.start Live.gitCodeNet) Hp _ eq_refl)
    as [[Ht _]|[_ Hno]]; [exact Ht|].
  exfalso. apply (Hno [Operations.GitCode_mapRepoToSummary Live.TrimSpace Live.raft]
                      (-1) true).
  find_event.
Defined.

(** The GitCode adapter, five pages allowed: the second request comes back
    empty and ends the search. *)
Lemma search_last_page_empty_witness :
  (forall b w,
      let '(repos, tc, hasMore, err) :=
        fst (parseSearchResponse
               (implementation (Live.NewGitCodeSearcher Adapters.noEnv "tok" None))
               b w) in
      err = None -> (hasMore = true <-> repos <> []))
  /\ 2 = Z.of_nat (List.length
                     (requests (events (Live.run (Live.NewGitCodeSearcher
                                                    Adapters.noEnv "tok" None)
                                                 "raft" 5 Live.gitCodeNet))))
  /\ 2 < 5
  /\ ((exists body e,
          In (EvFetched 2 body (Some e))
             (events (Live.run (Live.NewGitCodeSearcher Adapters.noEnv "tok" None)
                               "raft" 5 Live.gitCodeNet)))
      \/ (exists repos tc hasMore e,
             In (EvParse 2 repos tc hasMore (Some e))
                (events (Live.run (Live.NewGitCodeSearcher Adapters.noEnv "tok" None)
                                  "raft" 5 Live.gitCodeNet)))
      \/ (exists tc,
             In (EvParse 2 [] tc false None)
                (events (Live.run (Live.NewGitCodeSearcher Adapters.noEnv "tok" None)
                                  "raft" 5 Live.gitCodeNet)))).
Proof.
  assert (Hp : forall b w,
             let '(repos, tc, hasMore, err) :=
               fst (parseSearchResponse
                      (implementation (Live.NewGitCodeSearcher Adapters.noEnv "tok" None))
                      b w) in
             err = None -> (hasMore = true <-> repos <> [])).
  { intros b w. simpl. unfold Operations.GitCode_parseSearchResponse.
    destruct (Live.asGitCode b) as [repos [e|]]; [discriminate|].
    intros _. rewrite nonEmpty_true, map_nil_iff. tauto. }
  assert (Hk : 2 = Z.of_nat (List.length
                               (requests (events (Live.run
                                                    (Live.NewGitCodeSearcher
                                                       Adapters.noEnv "tok" None)
                                                    "raft" 5 Live.gitCodeNet)))))
    by reflexivity.
  assert (Hlt : 2 < 5) by lia.
  split; [exact Hp|]. split; [exact Hk|]. split; [exact Hlt|].
  exact (search_last_page_empty Live.os
           (Live.NewGitCodeSearcher Adapters.noEnv "tok" None)
           Scripted.background "raft" 5 (Live.start Live.gitCodeNet) Hp 2 _ Hk Hlt
           eq_refl).
Defined.

(** The Bitbucket adapter with a token that has no colon: the search fails
    on page 1 before anything is sent. *)
Lemma search_request_failure_witness :
  In (EvAttempt 1
        (EvBuildRequest
           "https://api.bitbucket.org/2.0/repositories?page=1&pagelen=50&q=name~%22raft%22"
           (Some (errorString
                    "invalid Bitbucket token format; expected 'username:app_password'"))))
     (events (Live.run (Live.NewBitbucketSearcher "secret" None) "raft" 5 []))
  /\ 1 = 1
  /\ result (Live.run (Live.NewBitbucketSearcher "secret" None) "raft" 5 [])
     = (None,
        Some (Errorf_w "failed to fetch first page: "
                (Some (Errorf_w "failed to create request: "
                         (Some (errorString
                                  "invalid Bitbucket token format; expected 'username:app_password'")))))).
Proof.
  assert (Hin : In (EvAttempt 1
                      (EvBuildRequest
                         "https://api.bitbucket.org/2.0/repositories?page=1&pagelen=50&q=name~%22raft%22"
                         (Some (errorString
                                  "invalid Bitbucket token format; expected 'username:app_password'"))))
                   (events (Live.run (Live.NewBitbucketSearcher "secret" None)
                                     "raft" 5 [])))
    by find_event.
  split; [exact Hin|]. split; [reflexivity|].
  exact (proj1 (proj2 (search_request_failure Live.os
                         (Live.NewBitbucketSearcher "secret" None)
                         Scripted.background "raft" 5 (Live.start []) _ _ _ Hin))
               eq_refl).
Defined.

(** * Writing the Result *)

Lemma removeSpaces_clean (s : string) :
  NetURL.contains " " (Output.removeSpaces s) = false.
Proof.
  induction s as [|a s IH]; simpl; [reflexivity|].
  destruct (Ascii.eqb a " ") eqn:E; simpl; [exact IH|].
  now rewrite E.
Qed.

(** X20: [writeJSONOutput] writes nothing for a result with no item and
    returns no error; otherwise it writes at most one file, whose name is
    "Out-", the [Source] of the result without its spaces, and ".json", and
    whose content is what the items marshal to.  For the result of a search
    the source is the one of the searcher: a searcher on which no source
    was set, as the constructors of the GitHub and Gitee adapters leave it,
    writes "Out-.json". *)
Theorem search_output_file {W Request Body D : Type}
    (os : Platform W Request Body) (s : BaseRepoSearcher W Request Body)
    (ctx : Context) (query : string) (maxPages : Z) (st : State W)
    (MarshalIndent : list RepositorySummary -> string * option error)
    (WriteFile : string -> string -> D -> option error * D) (disk : State D) :
  let run := Search os s ctx query maxPages st in
  forall r,
    fst (result run) = Some r ->
    let out := Output.writeJSONOutput MarshalIndent WriteFile r disk in
    (Items r = [] -> events out = [] /\ result out = None /\ final out = disk)
    /\ (forall name data,
           In (name, data) (events out) ->
           name = "Out-" ++ Output.removeSpaces (BaseSource s) ++ ".json"
           /\ NetURL.contains " " (Output.removeSpaces (BaseSource s)) = false
           /\ MarshalIndent (parsed (events run)) = (data, None)
           /\ events out = [(name, data)]).
Proof.
  intros run r Hr out.
  destruct (Search_shape os s ctx query maxPages st)
    as [(_ & E & _)|(_ & _ & HP)]; fold run in E || fold run in HP.
  { rewrite E in Hr. discriminate. }
  destruct (pages_items s _ _ _ _ _ _ _ _ _ _ HP r Hr) as (Hi & Hs & _).
  simpl in Hi. subst out. unfold Output.writeJSONOutput.
  rewrite Hi, Hs. split.
  - intros ->. cbv [List.length Z.of_nat Z.eqb ret events result final fst snd]. auto.
  - intros name data.
    destruct (Z.of_nat (List.length (parsed (events run))) =? 0).
    { intros []. }
    destruct (MarshalIndent (parsed (events run))) as [jsonData [e|]].
    { intros []. }
    unfold bind, call, emit, ret, events. simpl.
    destruct (WriteFile _ jsonData (world disk)) as [[e|] d']; simpl;
      (intros [Heq|[]]; inversion Heq; subst;
       split; [reflexivity|]; split; [apply removeSpaces_clean|];
       split; reflexivity).
Qed.

(** The GitHub adapter: the one record found goes to "Out-.json". *)
Lemma search_output_file_witness :
  exists r,
    fst (result (Live.run (Live.NewGitHubSearcher "" None) "raft" 5 Live.gitHubNet))
    = Some r
    /\ In ("Out-.json", "[...]")
          (events (Output.writeJSONOutput Live.MarshalIndent Live.WriteFile r
                     {| world := []; clock := 0 |}))
    /\ "Out-.json"
       = "Out-" ++ Output.removeSpaces (BaseSource (Live.NewGitHubSearcher "" None))
                ++ ".json".
Proof.
  eexists. split; [reflexivity|].
  assert (Hin : In ("Out-.json", "[...]")
                   (events (Output.writeJSONOutput Live.MarshalIndent Live.WriteFile
                              {| Source := ""; Query := "raft"; TotalCount := 40;
                                 Items := [Operations.GitHub_mapRepoToSummary
                                             Live.TrimSpace Live.hubRaft] |}
                              {| world := []; clock := 0 |})))
    by find_event.
  split; [exact Hin|].
  exact (proj1 (proj2 (search_output_file Live.os (Live.NewGitHubSearcher "" None)
                         Scripted.background "raft" 5 (Live.start Live.gitHubNet)
                         Live.MarshalIndent Live.WriteFile
                         {| world := []; clock := 0 |} _ eq_refl)
                      _ _ Hin)).
Defined.

(** * The URLs of the Shipped Adapters *)

Section ShippedURLs.

Import NetURL Adapters.

#[local] Arguments String.append : simpl nomatch.

(** A number in decimal is left as it is by [QueryEscape]. *)
Lemma QueryEscape_uint (d : Decimal.uint) :
  QueryEscape (NilEmpty.string_of_uint d) = NilEmpty.string_of_uint d.
Proof. induction d; simpl; congruence. Qed.

Lemma QueryEscape_itoa (z : Z) : QueryEscape (itoa z) = itoa z.
Proof.
  assert (Hn : forall d, QueryEscape (NilZero.string_of_uint d)
                         = NilZero.string_of_uint d).
  { intros d. destruct d; try reflexivity;
      exact (QueryEscape_uint _). }
  unfold itoa, NilZero.string_of_int.
  destruct (Z.to_int z) as [d|d]; [apply Hn|].
  simpl. now rewrite Hn.
Qed.

Lemma string_app_nil_r (a : string) : a ++ "" = a.
Proof. induction a as [|x a IH]; simpl; [reflexivity|now rewrite IH]. Qed.

Lemma QueryEscape_app (a b : string) :
  QueryEscape (a ++ b) = QueryEscape a ++ QueryEscape b.
Proof.
  induction a as [|x a IH]; simpl; [reflexivity|].
  destruct (Ascii.eqb x " "); [simpl; now rewrite IH|].
  destruct (shouldEscape x); simpl; now rewrite IH.
Qed.

Ltac url_form :=
  simpl; unfold String_, setRawQuery, Encode, sortKeys, join; simpl;
  rewrite ?QueryEscape_itoa;
  repeat (rewrite ?string_app_assoc, ?string_app_nil_r; simpl);
  reflexivity.

Lemma GitHub_url (tok query : string) (page perPage : Z) :
  GitHub_buildSearchURL (NewGitHubSearcher tok) query page perPage
  = ("https://api.github.com/search/repositories?page=" ++ itoa page
     ++ "&per_page=" ++ itoa perPage ++ "&q=" ++ QueryEscape query, None).
Proof. unfold GitHub_buildSearchURL. url_form. Qed.

Lemma GitLab_url (tok query : string) (page perPage : Z) :
  GitLab_buildSearchURL (NewGitLabSearcher tok) query page perPage
  = ("https://gitlab.com/api/v4/projects?page=" ++ itoa page
     ++ "&per_page=" ++ itoa perPage ++ "&search=" ++ QueryEscape query, None).
Proof. unfold GitLab_buildSearchURL. url_form. Qed.

Lemma Bitbucket_url (tok query : string) (page perPage : Z) :
  Bitbucket_buildSearchURL (NewBitbucketSearcher tok) query page perPage
  = ("https://api.bitbucket.org/2.0/repositories?page=" ++ itoa page
     ++ "&pagelen=" ++ itoa perPage ++ "&q=name~%22" ++ QueryEscape query ++ "%22",
     None).
Proof.
  unfold Bitbucket_buildSearchURL, quote.
  simpl; unfold String_, setRawQuery, Encode, sortKeys, join; simpl.
  rewrite ?QueryEscape_itoa, !QueryEscape_app.
  repeat (rewrite ?string_app_assoc, ?string_app_nil_r; simpl).
  reflexivity.
Qed.

Lemma GitCode_url (env : Environ) (tok query : string) (page perPage : Z) :
  GitCode_buildSearchURL env (NewGitCodeSearcher tok) query page perPage
  = ("https://api.gitcode.com/api/v5/search/repositories?"
     ++ (if (env "GITCODE_LANG" =? "")%string then ""
         else "language=" ++ QueryEscape (env "GITCODE_LANG") ++ "&")
     ++ "page=" ++ itoa page ++ "&per_page=" ++ itoa perPage
     ++ "&q=" ++ QueryEscape query, None).
Proof.
  unfold GitCode_buildSearchURL.
  destruct (env "GITCODE_LANG" =? "")%string; url_form.
Qed.

Lemma Gitee_url (tok query : string) (page perPage : Z) :
  Gitee_buildSearchURL (NewGiteeSearcher tok) query page perPage
  = ("https://gitee.com/api/v5/search/repositories?"
     ++ (if (tok =? "")%string then ""
         else "access_token=" ++ QueryEscape tok ++ "&")
     ++ "page=" ++ itoa page ++ "&per_page=" ++ itoa perPage
     ++ "&q=" ++ QueryEscape query, None).
Proof.
  unfold Gitee_buildSearchURL.
  simpl token. destruct (tok =? "")%string; url_form.
Qed.

End ShippedURLs.

(** X21: the URLs of the five adapters as their constructors set them up,
    for every query, page and page size: [buildSearchURL] never fails, the
    parameters come in the order of their names, the numbers in decimal and
    the query escaped; Bitbucket wraps the query in [name~"..."], GitCode
    adds the language of GITCODE_LANG when it is set and Gitee the access
    token when there is one. *)
Theorem buildSearchURL_shipped (env : Adapters.Environ) (tok query : string)
    (page perPage : Z) :
  Adapters.buildSearchURL env (Adapters.NewGitHubSearcher tok) query page perPage
  = ("https://api.github.com/search/repositories?page=" ++ itoa page
     ++ "&per_page=" ++ itoa perPage ++ "&q=" ++ NetURL.QueryEscape query, None)
  /\ Adapters.buildSearchURL env (Adapters.NewGitLabSearcher tok) query page perPage
     = ("https://gitlab.com/api/v4/projects?page=" ++ itoa page
        ++ "&per_page=" ++ itoa perPage ++ "&search=" ++ NetURL.QueryEscape query,
        None)
  /\ Adapters.buildSearchURL env (Adapters.NewBitbucketSearcher tok) query page perPage
     = ("https://api.bitbucket.org/2.0/repositories?page=" ++ itoa page
        ++ "&pagelen=" ++ itoa perPage
        ++ "&q=name~%22" ++ NetURL.QueryEscape query ++ "%22", None)
  /\ Adapters.buildSearchURL env (Adapters.NewGitCodeSearcher tok) query page perPage
     = ("https://api.gitcode.com/api/v5/search/repositories?"
        ++ (if (env "GITCODE_LANG" =? "")%string then ""
            else "language=" ++ NetURL.QueryEscape (env "GITCODE_LANG") ++ "&")
        ++ "page=" ++ itoa page ++ "&per_page=" ++ itoa perPage
        ++ "&q=" ++ NetURL.QueryEscape query, None)
  /\ Adapters.buildSearchURL env (Adapters.NewGiteeSearcher tok) query page perPage
     = ("https://gitee.com/api/v5/search/repositories?"
        ++ (if (tok =? "")%string then ""
            else "access_token=" ++ NetURL.QueryEscape tok ++ "&")
        ++ "page=" ++ itoa page ++ "&per_page=" ++ itoa perPage
        ++ "&q=" ++ NetURL.QueryEscape query, None).
Proof.
  split; [apply GitHub_url|]. split; [apply GitLab_url|].
  split; [apply Bitbucket_url|]. split; [apply GitCode_url|apply Gitee_url].
Qed.



(** * Bounds on a Search *)

Section Bounds.

Context {W Request Body : Type}.
Variable s : BaseRepoSearcher W Request Body.

(** A fetch lasts no longer than its backoff delays add up to. *)
Lemma attempts_time url n i delay lastErr res t t' (tr : list (FetchEvent Body)) :
  Attempts s url n i delay lastErr res t t' tr ->
  0 <= delay -> delay * 2 ^ Z.of_nat n <= maxInt64 ->
  t <= t' <= t + delay * (2 ^ Z.of_nat n - 1).
Proof.
  assert (Hpow : forall k, 1 <= 2 ^ Z.of_nat k).
  { intros k. assert (0 < 2 ^ Z.of_nat k) by (apply Z.pow_pos_nonneg; lia). lia. }
  assert (Hstep : forall delay n,
             0 <= delay -> delay * 2 ^ Z.of_nat (S n) <= maxInt64 ->
             wrap64 (delay * 2) = delay * 2
             /\ delay * 2 * 2 ^ Z.of_nat n <= maxInt64).
  { intros d k Hd Hr. pose proof (Hpow k) as H2.
    rewrite Nat2Z.inj_succ, Z.pow_succ_r in Hr by lia.
    split; [|lia]. apply wrap64_small. unfold minInt64, maxInt64 in *. nia. }
  induction 1 as
      [ | | n i delay lastErr e res t t' tr HA IH
        | n i delay lastErr resp t H200
        | n i delay lastErr resp text t H200 Hf
        | n i delay lastErr resp text res t t' tr H200 Hf HA IH ];
    intros Hd Hr;
    try (pose proof (Hpow (S n)); nia).
  - pose proof (Hpow 0%nat). nia.
  - destruct (Hstep _ _ Hd Hr) as [Hw Hr']. rewrite Hw in IH.
    specialize (IH ltac:(lia) Hr').
    rewrite Nat2Z.inj_succ, Z.pow_succ_r by lia.
    pose proof (Hpow n). nia.
  - destruct (Hstep _ _ Hd Hr) as [Hw Hr']. rewrite Hw in IH.
    specialize (IH ltac:(lia) Hr').
    rewrite Nat2Z.inj_succ, Z.pow_succ_r by lia.
    pose proof (Hpow n). nia.
Qed.

Lemma exchanges_app (l1 l2 : list (Event Body)) :
  exchanges (l1 ++ l2) = (exchanges l1 + exchanges l2)%nat.
Proof.
  induction l1 as [|e l1 IH]; simpl; [reflexivity|].
  destruct e as [| |p [| | | | |]| | | |]; simpl; auto.
Qed.

Lemma exchanges_fetched page url (ftr : list (FetchEvent Body)) body err :
  exchanges (fetched page url ftr body err) = List.length (attempts ftr).
Proof.
  rewrite fetched_last, exchanges_app. simpl. rewrite Nat.add_0_r.
  induction ftr as [|fe ftr IH]; simpl; [reflexivity|].
  destruct fe; simpl; auto.
Qed.

(** Every iteration of the page loop makes at most [MaxRetries]
    exchanges. *)
Lemma pages_exchanges query maxPages n page allRepos totalCount res t t'
    (tr : list (Event Body)) :
  Pages s query maxPages n page allRepos totalCount res t t' tr ->
  (exchanges tr <= n * Z.to_nat (MaxRetries s))%nat.
Proof.
  induction 1;
    rewrite ?exchanges_app, ?exchanges_fetched; simpl;
    repeat match goal with
           | H : Fetch _ _ _ _ _ _ |- _ => apply attempts_bounded in H
           end;
    try destruct (page <? maxPages); simpl; lia.
Qed.

(** The page loop lasts no longer than its fetches and its pauses may. *)
Lemma pages_time query maxPages n page allRepos totalCount res t t'
    (tr : list (Event Body)) :
  Pages s query maxPages n page allRepos totalCount res t t' tr ->
  0 <= RetryDelay s ->
  RetryDelay s * 2 ^ Z.of_nat (Z.to_nat (MaxRetries s)) <= maxInt64 ->
  t <= t'
  <= t + Z.of_nat n * (RetryDelay s * (2 ^ Z.of_nat (Z.to_nat (MaxRetries s)) - 1))
     + Z.max 0 (maxPages - page) * 100000000.
Proof.
  intros HP Hd Hr.
  assert (HF : forall url res t t' ftr,
             Fetch s url res t t' ftr ->
             t <= t'
             <= t + RetryDelay s * (2 ^ Z.of_nat (Z.to_nat (MaxRetries s)) - 1)).
  { intros url res0 t0 t1 ftr H. exact (attempts_time _ _ _ _ _ _ _ _ _ H Hd Hr). }
  assert (HF0 : 0 <= RetryDelay s * (2 ^ Z.of_nat (Z.to_nat (MaxRetries s)) - 1)).
  { assert (0 < 2 ^ Z.of_nat (Z.to_nat (MaxRetries s)))
      by (apply Z.pow_pos_nonneg; lia). nia. }
  set (F := RetryDelay s * (2 ^ Z.of_nat (Z.to_nat (MaxRetries s)) - 1)) in *.
  clearbody F.
  induction HP as
      [ page allRepos totalCount t
      | n page allRepos totalCount url e t
      | n page allRepos totalCount url body e t t1 ftr Hf
      | n page allRepos totalCount url res t t1 t' ftr tr Hf HP IH
      | n page allRepos totalCount url b repos tc hasMore e t t1 ftr Hf
      | n page allRepos totalCount url b repos tc hasMore t t1 ftr Hf Hstop
      | n page allRepos totalCount url b repos tc res t t1 t' ftr tr Hf Hne HP IH ];
    try (apply HF in Hf); rewrite ?Nat2Z.inj_succ, ?Z.mul_succ_l; try lia.
  change (Z.max 0 (100 * Millisecond)) with 100000000 in IH.
  destruct (Z.ltb_spec page maxPages); lia.
Qed.

End Bounds.

(** X23: with a first delay that is not negative and doubled delays that
    fit in 64 bits, a search sleeps, and so lasts on the clock of its
    sleeps, at most [maxPages] times the backoff of a whole fetch,
    [RetryDelay * (2 ^ MaxRetries - 1)], and [maxPages - 1] pauses of 100
    milliseconds. *)
Theorem search_time_bound {W Request Body : Type}
    (os : Platform W Request Body) (s : BaseRepoSearcher W Request Body)
    (ctx : Context) (query : string) (maxPages : Z) (st : State W) :
  0 <= MaxRetries s -> 0 <= RetryDelay s ->
  RetryDelay s * 2 ^ MaxRetries s <= maxInt64 ->
  let run := Search os s ctx query maxPages st in
  clock st <= clock (final run)
  <= clock st
     + Z.max 0 maxPages * (RetryDelay s * (2 ^ MaxRetries s - 1))
     + Z.max 0 (maxPages - 1) * (100 * Millisecond).
Proof.
  intros Hm Hd Hr run.
  assert (H0 : 0 <= RetryDelay s * (2 ^ MaxRetries s - 1)).
  { assert (0 < 2 ^ MaxRetries s) by (apply Z.pow_pos_nonneg; lia). nia. }
  change (100 * Millisecond) with 100000000.
  destruct (Search_shape os s ctx query maxPages st)
    as [(_ & _ & E & _)|(_ & Hp & HP)]; fold run in E || fold run in HP.
  { rewrite E. nia. }
  rewrite <- (Z2Nat.id (MaxRetries s)) in Hr |- * by assumption.
  pose proof (pages_time s _ _ _ _ _ _ _ _ _ _ HP Hd Hr) as Ht.
  rewrite Z2Nat.id in Ht by lia.
  rewrite (Z.max_r 0 maxPages) by lia. exact Ht.
Qed.

(** The defaults and five pages: at most 35.4 seconds of sleep. *)
Lemma search_time_bound_witness :
  0 <= MaxRetries (Scripted.searcher [])
  /\ 0 <= RetryDelay (Scripted.searcher [])
  /\ RetryDelay (Scripted.searcher []) * 2 ^ MaxRetries (Scripted.searcher [])
     <= maxInt64
  /\ clock (final (Scripted.run [] Scripted.background 5 Scripted.laterPageDown))
     <= 0 + Z.max 0 5 * (1 * Second * (2 ^ 3 - 1)) + Z.max 0 (5 - 1) * (100 * Millisecond).
Proof.
  assert (Hm : 0 <= MaxRetries (Scripted.searcher [])) by (vm_compute; discriminate).
  assert (Hd : 0 <= RetryDelay (Scripted.searcher [])) by (vm_compute; discriminate).
  assert (Hr : RetryDelay (Scripted.searcher []) * 2 ^ MaxRetries (Scripted.searcher [])
               <= maxInt64) by (vm_compute; discriminate).
  split; [exact Hm|]. split; [exact Hd|]. split; [exact Hr|].
  exact (proj2 (search_time_bound Scripted.os (Scripted.searcher [])
                  Scripted.background "raft" 5
                  (Scripted.start Scripted.laterPageDown) Hm Hd Hr)).
Defined.

(** X24: a search makes at most [maxPages] times [MaxRetries] HTTP
    exchanges. *)
Theorem search_exchanges_bound {W Request Body : Type}
    (os : Platform W Request Body) (s : BaseRepoSearcher W Request Body)
    (ctx : Context) (query : string) (maxPages : Z) (st : State W) :
  let run := Search os s ctx query maxPages st in
  Z.of_nat (exchanges (events run)) <= Z.max 0 maxPages * Z.max 0 (MaxRetries s).
Proof.
  intros run.
  destruct (Search_shape os s ctx query maxPages st)
    as [(E & _)|(_ & Hp & HP)]; fold run in E || fold run in HP.
  { rewrite E. simpl. nia. }
  pose proof (pages_exchanges s _ _ _ _ _ _ _ _ _ _ HP) as He.
  apply inj_le in He. rewrite Nat2Z.inj_mul in He.
  replace (Z.of_nat (Z.to_nat maxPages)) with (Z.max 0 maxPages) in He by lia.
  replace (Z.of_nat (Z.to_nat (MaxRetries s))) with (Z.max 0 (MaxRetries s)) in He
    by lia.
  exact He.
Qed.

(** X25: an answer 401, 403 or 404 ends the fetch of its page at once, and
    with it the search: on page 1 with the error "failed to fetch first
    page" around the status error, on a later page with the result
    collected so far. *)
Theorem search_fatal_status {W Request Body : Type}
    (os : Platform W Request Body) (s : BaseRepoSearcher W Request Body)
    (ctx : Context) (query : string) (maxPages : Z) (st : State W) :
  let run := Search os s ctx query maxPages st in
  forall p j resp,
    In (EvAttempt p (EvDo j (inl resp))) (events run) ->
    StatusCode resp = 401 \/ StatusCode resp = 403 \/ StatusCode resp = 404 ->
    exists text,
      In (EvFetched p None (Some (statusError (StatusCode resp) text))) (events run)
      /\ (exists tr0,
             events run
             = (tr0 ++ [EvFetched p None
                          (Some (statusError (StatusCode resp) text))])%list)
      /\ (p = 1 ->
          result run
          = (None, Some (Errorf_w "failed to fetch first page: "
                           (Some (statusError (StatusCode resp) text)))))
      /\ (p <> 1 -> exists r, result run = (Some r, None)).
Proof.
  intros run p j resp Hin Hst.
  destruct (Search_shape os s ctx query maxPages st) as [(E & _)|(_ & _ & HP)];
    fold run in E || fold run in HP.
  { rewrite E in Hin. destruct Hin. }
  destruct (pages_attempt s _ _ _ _ _ _ _ _ _ _ HP _ _ Hin)
    as (u & body & err & t0 & t1 & ftr & HF & Hfe & Hev).
  assert (Ha : In (j, inl resp) (attempts ftr)).
  { clear - Hfe. induction ftr as [|fe ftr IH]; [destruct Hfe|].
    destruct Hfe as [->|Hfe]; [now left|].
    destruct fe; simpl; auto. }
  pose proof (attempt_classes s _ _ _ _ _ _ _ _ _ HF _ _ Ha) as HC.
  assert (Hc : classify (inl resp) = Fatal).
  { apply classify_fatal;
      [destruct Hst as [H|[H|H]]; rewrite H; discriminate
      |unfold isFatal; destruct Hst as [H|[H|H]]; rewrite H; reflexivity]. }
  rewrite Hc in HC. destruct HC as ((resp' & text & Heq & _ & Hres) & _).
  inversion Heq; subst resp'. inversion Hres; subst body err.
  exists text.
  destruct (fetch_failure s _ _ _ _ _ _ _ _ _ _ HP _ _ _ Hev) as (Hl & H1 & Hn).
  split; [exact Hev|]. split; [exact Hl|]. split; [exact H1|].
  intros Hp. destruct (Hn Hp) as (r & Hr & _). eauto.
Qed.

(** A provider that answers 403 to the first request: one exchange, and the
    search fails. *)
Lemma search_fatal_status_witness :
  In (EvAttempt 1
        (EvDo 0 (inl {| StatusCode := 403;
                        RespBody := {| Scripted.text := "{}"; Scripted.records := [];
                                       Scripted.total := 0; Scripted.more := false;
                                       Scripted.wellFormed := true |} |})))
     (events (Scripted.run [] Scripted.background 3 Scripted.forbidden))
  /\ exists text,
      result (Scripted.run [] Scripted.background 3 Scripted.forbidden)
      = (None, Some (Errorf_w "failed to fetch first page: "
                       (Some (statusError 403 text)))).
Proof.
  assert (Hin : In (EvAttempt 1
                      (EvDo 0 (inl {| StatusCode := 403;
                                      RespBody := {| Scripted.text := "{}";
                                                     Scripted.records := [];
                                                     Scripted.total := 0;
                                                     Scripted.more := false;
                                                     Scripted.wellFormed := true |} |})))
                   (events (Scripted.run [] Scripted.background 3 Scripted.forbidden)))
    by find_event.
  split; [exact Hin|].
  destruct (search_fatal_status Scripted.os (Scripted.searcher [])
              Scripted.background "raft" 3 (Scripted.start Scripted.forbidden)
              _ _ _ Hin (or_intror (or_introl eq_refl)))
    as (text & _ & _ & H1 & _).
  exists text. exact (H1 eq_refl).
Defined.

(** * The Query of a URL, There and Back *)

Section RoundTrip.

Import NetURL Chars.

#[local] Arguments String.append : simpl nomatch.

Lemma allOf_app P (a b : string) : allOf P (a ++ b) = allOf P a && allOf P b.
Proof.
  induction a as [|x a IH]; simpl; [reflexivity|].
  now rewrite IH, Bool.andb_assoc.
Qed.

Lemma allOf_absent P (c : ascii) (s : string) :
  P c = false -> allOf P s = true -> contains c s = false.
Proof.
  intros Hc. induction s as [|a s IH]; simpl; [reflexivity|].
  intros H. apply Bool.andb_true_iff in H. destruct H as [Ha Hs].
  rewrite (IH Hs), Bool.orb_false_r.
  destruct (Ascii.eqb a c) eqn:E; [|reflexivity].
  apply Ascii.eqb_eq in E. congruence.
Qed.

Lemma escaped_char (a : ascii) :
  allOf escaped (QueryEscape (String a EmptyString)) = true.
Proof. destruct a as [[] [] [] [] [] [] [] []]; vm_compute; reflexivity. Qed.

Lemma QueryEscape_cons (a : ascii) (s : string) :
  QueryEscape (String a s) = QueryEscape (String a EmptyString) ++ QueryEscape s.
Proof.
  simpl. destruct (Ascii.eqb a " "); [reflexivity|].
  destruct (shouldEscape a); reflexivity.
Qed.

Lemma QueryEscape_escaped (s : string) : allOf escaped (QueryEscape s) = true.
Proof.
  induction s as [|a s IH]; [reflexivity|].
  rewrite QueryEscape_cons, allOf_app, IH, escaped_char. reflexivity.
Qed.

Lemma unescape_char (a : ascii) (r : string) :
  QueryUnescape (QueryEscape (String a EmptyString) ++ r)
  = match QueryUnescape r with
    | Some r' => Some (String a r')
    | None => None
    end.
Proof.
  destruct a as [[] [] [] [] [] [] [] []]; simpl;
    destruct (QueryUnescape r); reflexivity.
Qed.

Lemma QueryUnescape_QueryEscape (s : string) :
  QueryUnescape (QueryEscape s) = Some s.
Proof.
  induction s as [|a s IH]; [reflexivity|].
  now rewrite QueryEscape_cons, unescape_char, IH.
Qed.

Lemma cut_absent (c : ascii) (s : string) :
  contains c s = false -> cut c s = (s, EmptyString, false).
Proof.
  induction s as [|a s IH]; simpl; [reflexivity|].
  destruct (Ascii.eqb a c); simpl; [discriminate|].
  intros H. now rewrite (IH H).
Qed.

Lemma cut_app (c : ascii) (a b : string) :
  contains c a = false -> cut c (a ++ String c b) = (a, b, true).
Proof.
  induction a as [|x a IH]; simpl.
  - now rewrite Ascii.eqb_refl.
  - destruct (Ascii.eqb x c); simpl; [discriminate|].
    intros H. now rewrite (IH H).
Qed.

Lemma contains_app (c : ascii) (a b : string) :
  contains c (a ++ b) = contains c a || contains c b.
Proof.
  induction a as [|x a IH]; simpl; [reflexivity|].
  now rewrite IH, Bool.orb_assoc.
Qed.

Lemma split_absent (c : ascii) (s : string) :
  contains c s = false -> split c s = [s].
Proof.
  induction s as [|a s IH]; simpl; [reflexivity|].
  destruct (Ascii.eqb a c); simpl; [discriminate|].
  intros H. now rewrite (IH H).
Qed.

Lemma split_app (c : ascii) (a b : string) :
  contains c a = false -> split c (a ++ String c b) = a :: split c b.
Proof.
  induction a as [|x a IH]; simpl.
  - now rewrite Ascii.eqb_refl.
  - destruct (Ascii.eqb x c); simpl; [discriminate|].
    intros H. now rewrite (IH H).
Qed.

Lemma ctl_app (a b : string) :
  stringContainsCTLByte (a ++ b)
  = stringContainsCTLByte a || stringContainsCTLByte b.
Proof.
  induction a as [|x a IH]; simpl; [reflexivity|].
  now rewrite IH, Bool.orb_assoc.
Qed.

Lemma escaped_not_ctl (a : ascii) : escaped a = true -> isCTL a = false.
Proof. destruct a as [[] [] [] [] [] [] [] []]; vm_compute; congruence. Qed.

Lemma allOf_not_ctl (s : string) :
  allOf escaped s = true -> stringContainsCTLByte s = false.
Proof.
  induction s as [|a s IH]; simpl; [reflexivity|].
  intros H. apply Bool.andb_true_iff in H. destruct H as [Ha Hs].
  now rewrite (escaped_not_ctl _ Ha), (IH Hs).
Qed.

(** A parameter is made of escaped characters and of its [=]. *)
Lemma pair_chars (kv : string * string) :
  allOf (fun a => escaped a || Ascii.eqb a "=") (pair kv) = true.
Proof.
  assert (Hw : forall s, allOf escaped s = true ->
                         allOf (fun a => escaped a || Ascii.eqb a "=") s = true).
  { induction s as [|a s IH]; simpl; [reflexivity|].
    intros H. apply Bool.andb_true_iff in H. destruct H as [Ha Hs].
    now rewrite Ha, (IH Hs). }
  unfold pair.
  rewrite !allOf_app, (Hw _ (QueryEscape_escaped (fst kv))),
    (Hw _ (QueryEscape_escaped (snd kv))).
  reflexivity.
Qed.

Lemma join_cons (sep x y : string) (l : list string) :
  join sep (x :: y :: l) = x ++ sep ++ join sep (y :: l).
Proof.
  unfold join. simpl. revert x y.
  induction l as [|z l IH]; intros x y; simpl; [reflexivity|].
  rewrite IH, (IH y z). now rewrite !string_app_assoc.
Qed.

(** The parameters of an encoded query, read back one after the other. *)
Lemma parse_pairs (kvs : list (string * string)) (kv : string * string)
    (m : Values) :
  fold_left
    (fun m piece =>
       if contains ";" piece then m
       else if (piece =? "")%string then m
       else
         let '(key, value, _) := cut "=" piece in
         match QueryUnescape key, QueryUnescape value with
         | Some k, Some v => Add k v m
         | _, _ => m
         end)
    (split "&" (join "&" (map pair (kv :: kvs)))) m
  = fold_left (fun m kv => Add (fst kv) (snd kv) m) (kv :: kvs) m.
Proof.
  assert (Hno : forall c kv, escaped c = false -> Ascii.eqb c "=" = false ->
                             contains c (pair kv) = false).
  { intros c p Hc He. apply (allOf_absent _ c _) with (2 := pair_chars p).
    now rewrite Hc, He. }
  assert (Hone : forall kv m,
             (if contains ";" (pair kv) then m
              else if (pair kv =? "")%string then m
              else
                let '(key, value, _) := cut "=" (pair kv) in
                match QueryUnescape key, QueryUnescape value with
                | Some k, Some v => Add k v m
                | _, _ => m
                end) = Add (fst kv) (snd kv) m).
  { intros p m0. rewrite (Hno ";"%char p eq_refl eq_refl).
    assert (Hne : (pair p =? "")%string = false).
    { apply String.eqb_neq. unfold pair.
      destruct (QueryEscape (fst p)); discriminate. }
    rewrite Hne. unfold pair.
    change ("=" ++ QueryEscape (snd p)) with (String "=" (QueryEscape (snd p))).
    rewrite cut_app
      by (apply (allOf_absent escaped); [reflexivity|apply QueryEscape_escaped]).
    now rewrite !QueryUnescape_QueryEscape. }
  revert kv m. induction kvs as [|kv' kvs IH]; intros kv m.
  - simpl map. unfold join.
    rewrite split_absent by (apply Hno; reflexivity).
    simpl. apply Hone.
  - change (map pair (kv :: kv' :: kvs)) with (pair kv :: pair kv' :: map pair kvs).
    rewrite join_cons.
    change ("&" ++ join "&" (pair kv' :: map pair kvs))
      with (String "&" (join "&" (pair kv' :: map pair kvs))).
    rewrite split_app by (apply Hno; reflexivity).
    simpl fold_left at 1. rewrite Hone.
    apply (IH kv' (Add (fst kv) (snd kv) m)).
Qed.

Lemma written_not_ctl (a : ascii) :
  escaped a || Ascii.eqb a "=" || Ascii.eqb a "&" = true -> isCTL a = false.
Proof. destruct a as [[] [] [] [] [] [] [] []]; vm_compute; congruence. Qed.

Lemma allOf_written_not_ctl (s : string) :
  allOf (fun a => escaped a || Ascii.eqb a "=" || Ascii.eqb a "&") s = true ->
  stringContainsCTLByte s = false.
Proof.
  induction s as [|a s IH]; simpl; [reflexivity|].
  intros H. apply Bool.andb_true_iff in H. destruct H as [H1 H2].
  now rewrite (written_not_ctl _ H1), (IH H2).
Qed.

(** An encoded query is made of escaped characters, [=] and [&]. *)
Lemma query_chars (kv : string * string) (kvs : list (string * string)) :
  allOf (fun a => escaped a || Ascii.eqb a "=" || Ascii.eqb a "&")
        (join "&" (map pair (kv :: kvs))) = true.
Proof.
  assert (Hw : forall s, allOf (fun a => escaped a || Ascii.eqb a "=") s = true ->
                         allOf (fun a => escaped a || Ascii.eqb a "=" || Ascii.eqb a "&")
                               s = true).
  { induction s as [|a s IH]; simpl; [reflexivity|].
    intros H. apply Bool.andb_true_iff in H. destruct H as [Ha Hs].
    now rewrite Ha, (IH Hs). }
  revert kv. induction kvs as [|kv' kvs IH]; intros kv.
  - apply Hw, pair_chars.
  - change (map pair (kv :: kv' :: kvs)) with (pair kv :: pair kv' :: map pair kvs).
    rewrite join_cons, !allOf_app, (Hw _ (pair_chars kv)).
    change (pair kv' :: map pair kvs) with (map pair (kv' :: kvs)).
    now rewrite (IH kv').
Qed.

(** A URL made of a plain head and an encoded query parses into them, and
    its query reads back as the parameters that were encoded. *)
Lemma Query_encoded (head : string) (kv : string * string)
    (kvs : list (string * string)) :
  contains "#" head = false -> contains "?" head = false ->
  stringContainsCTLByte head = false ->
  Parse (head ++ String "?" (join "&" (map pair (kv :: kvs))))
  = ({| Head := head; RawQuery := join "&" (map pair (kv :: kvs)); Fragment := "" |},
     None)
  /\ Query (fst (Parse (head ++ String "?" (join "&" (map pair (kv :: kvs))))))
     = fold_left (fun m kv => Add (fst kv) (snd kv) m) (kv :: kvs) [].
Proof.
  intros Hh Hq Hc.
  pose proof (query_chars kv kvs) as Ha.
  assert (HP : Parse (head ++ String "?" (join "&" (map pair (kv :: kvs))))
               = ({| Head := head; RawQuery := join "&" (map pair (kv :: kvs));
                     Fragment := "" |}, None)).
  { unfold Parse.
    rewrite cut_absent.
    2:{ rewrite contains_app, Hh. simpl.
        apply (allOf_absent _ "#"%char _ eq_refl Ha). }
    assert (Hctl : stringContainsCTLByte
                     (head ++ String "?" (join "&" (map pair (kv :: kvs)))) = false).
    { rewrite ctl_app, Hc. simpl. exact (allOf_written_not_ctl _ Ha). }
    rewrite Hctl, (cut_app _ _ _ Hq). reflexivity. }
  split; [exact HP|].
  rewrite HP. unfold Query, parseQuery. simpl RawQuery.
  apply parse_pairs.
Qed.

End RoundTrip.

(** X26: the URL an adapter builds parses back into what it was built
    from: its query parameters are exactly the page, the page size and the
    query, with the language for GitCode and the token for Gitee when they
    are set, each with the value that was given, whatever characters the
    query holds. *)
Theorem buildSearchURL_round_trip (env : Adapters.Environ) (tok query : string)
    (page perPage : Z) :
  NetURL.Query (fst (NetURL.Parse (fst (Adapters.buildSearchURL env
                                          (Adapters.NewGitHubSearcher tok)
                                          query page perPage))))
  = [("page", [itoa page]); ("per_page", [itoa perPage]); ("q", [query])]
  /\ NetURL.Query (fst (NetURL.Parse (fst (Adapters.buildSearchURL env
                                             (Adapters.NewGitLabSearcher tok)
                                             query page perPage))))
     = [("page", [itoa page]); ("per_page", [itoa perPage]); ("search", [query])]
  /\ NetURL.Query (fst (NetURL.Parse (fst (Adapters.buildSearchURL env
                                             (Adapters.NewBitbucketSearcher tok)
                                             query page perPage))))
     = [("page", [itoa page]); ("pagelen", [itoa perPage]);
        ("q", ["name~" ++ Adapters.quote ++ query ++ Adapters.quote])]
  /\ NetURL.Query (fst (NetURL.Parse (fst (Adapters.buildSearchURL env
                                             (Adapters.NewGitCodeSearcher tok)
                                             query page perPage))))
     = ((if (env "GITCODE_LANG" =? "")%string then []
         else [("language", [env "GITCODE_LANG"])])
        ++ [("page", [itoa page]); ("per_page", [itoa perPage]); ("q", [query])])%list
  /\ NetURL.Query (fst (NetURL.Parse (fst (Adapters.buildSearchURL env
                                             (Adapters.NewGiteeSearcher tok)
                                             query page perPage))))
     = ((if (tok =? "")%string then [] else [("access_token", [tok])])
        ++ [("page", [itoa page]); ("per_page", [itoa perPage]); ("q", [query])])%list.
Proof.
  assert (Hback : forall head kv kvs url expected,
             NetURL.contains "#" head = false ->
             NetURL.contains "?" head = false ->
             NetURL.stringContainsCTLByte head = false ->
             head ++ String "?" (NetURL.join "&" (map Chars.pair (kv :: kvs))) = url ->
             fold_left (fun m kv => NetURL.Add (fst kv) (snd kv) m) (kv :: kvs) []
             = expected ->
             NetURL.Query (fst (NetURL.Parse url)) = expected).
  { intros head kv kvs url expected H1 H2 H3 <- <-.
    exact (proj2 (Query_encoded head kv kvs H1 H2 H3)). }
  split; [|split; [|split; [|split]]].
  - change (Adapters.buildSearchURL env (Adapters.NewGitHubSearcher tok) query page
                                    perPage)
      with (Adapters.GitHub_buildSearchURL (Adapters.NewGitHubSearcher tok) query page
                                           perPage).
    rewrite GitHub_url. cbn [fst].
    apply (Hback "https://api.github.com/search/repositories"
                 ("page", itoa page) [("per_page", itoa perPage); ("q", query)]);
      try reflexivity.
    unfold Chars.pair, NetURL.join. cbn [map fold_left fst snd].
    rewrite !QueryEscape_itoa, !string_app_assoc. reflexivity.
  - change (Adapters.buildSearchURL env (Adapters.NewGitLabSearcher tok) query page
                                    perPage)
      with (Adapters.GitLab_buildSearchURL (Adapters.NewGitLabSearcher tok) query page
                                           perPage).
    rewrite GitLab_url. cbn [fst].
    apply (Hback "https://gitlab.com/api/v4/projects"
                 ("page", itoa page) [("per_page", itoa perPage); ("search", query)]);
      try reflexivity.
    unfold Chars.pair, NetURL.join. cbn [map fold_left fst snd].
    rewrite !QueryEscape_itoa, !string_app_assoc. reflexivity.
  - change (Adapters.buildSearchURL env (Adapters.NewBitbucketSearcher tok) query page
                                    perPage)
      with (Adapters.Bitbucket_buildSearchURL (Adapters.NewBitbucketSearcher tok) query
                                              page perPage).
    rewrite Bitbucket_url. cbn [fst].
    apply (Hback "https://api.bitbucket.org/2.0/repositories"
                 ("page", itoa page)
                 [("pagelen", itoa perPage);
                  ("q", "name~" ++ Adapters.quote ++ query ++ Adapters.quote)]);
      try reflexivity.
    unfold Chars.pair, NetURL.join. cbn [map fold_left fst snd].
    rewrite !QueryEscape_itoa, !QueryEscape_app, !string_app_assoc. reflexivity.
  - change (Adapters.buildSearchURL env (Adapters.NewGitCodeSearcher tok) query page
                                    perPage)
      with (Adapters.GitCode_buildSearchURL env (Adapters.NewGitCodeSearcher tok) query
                                            page perPage).
    rewrite GitCode_url. cbn [fst].
    destruct (env "GITCODE_LANG" =? "")%string.
    + apply (Hback "https://api.gitcode.com/api/v5/search/repositories"
                   ("page", itoa page) [("per_page", itoa perPage); ("q", query)]);
        try reflexivity.
      unfold Chars.pair, NetURL.join. cbn [map fold_left fst snd].
      rewrite !QueryEscape_itoa, !string_app_assoc. reflexivity.
    + apply (Hback "https://api.gitcode.com/api/v5/search/repositories"
                   ("language", env "GITCODE_LANG")
                   [("page", itoa page); ("per_page", itoa perPage); ("q", query)]);
        try reflexivity.
      unfold Chars.pair, NetURL.join. cbn [map fold_left fst snd].
      rewrite !QueryEscape_itoa, !string_app_assoc. reflexivity.
  - change (Adapters.buildSearchURL env (Adapters.NewGiteeSearcher tok) query page
                                    perPage)
      with (Adapters.Gitee_buildSearchURL (Adapters.NewGiteeSearcher tok) query
                                          page perPage).
    rewrite Gitee_url. cbn [fst].
    destruct (tok =? "")%string.
    + apply (Hback "https://gitee.com/api/v5/search/repositories"
                   ("page", itoa page) [("per_page", itoa perPage); ("q", query)]);
        try reflexivity.
      unfold Chars.pair, NetURL.join. cbn [map fold_left fst snd].
      rewrite !QueryEscape_itoa, !string_app_assoc. reflexivity.
    + apply (Hback "https://gitee.com/api/v5/search/repositories"
                   ("access_token", tok)
                   [("page", itoa page); ("per_page", itoa perPage); ("q", query)]);
        try reflexivity.
      unfold Chars.pair, NetURL.join. cbn [map fold_left fst snd].
      rewrite !QueryEscape_itoa, !string_app_assoc. reflexivity.
Qed.
